(** * Account provisioning (createAccount) of the PDS, with Prism as ledger

    Shallow embedding of
    - [packages/pds/src/prism-plc.ts] (the [createOp] wrapper), and
    - [packages/pds/src/api/com/atproto/server/createAccount.ts]
      ([createAndSendPrismTransaction], the XRPC [handler],
      [validateInputsForEntrywayPds], [validateInputsForLocalPds],
      [formatDidAndPlcOp], [validateAtprotoData]).

    The TypeScript code is asynchronous but sequential: every call is
    awaited before the next one is made, except for the two lookups of the
    local validator, which are awaited together. It is embedded in a
    state-and-exception monad over the world of the external collaborators
    (actor store, account manager, sequencer, ledger, libraries); the monad
    also records every external call together with its outcome, so that
    the order of calls can be stated. *)

From Stdlib Require Import String Ascii List Bool Arith NArith Lia.
From Stdlib Require Import DecimalString.
Import ListNotations.
Local Open Scope string_scope.
Local Open Scope list_scope.

(** ** JavaScript values and built-ins used by the code *)

Module JS.

(** Truthiness of a [string | undefined]: [undefined] and the empty string are
    falsy. *)
Definition truthy (o : option string) : bool :=
  match o with
  | Some s => negb (s =? "")
  | None => false
  end.

(** [s.slice(n)]. *)
Fixpoint drop (n : nat) (s : string) : string :=
  match n, s with
  | O, _ => s
  | S _, EmptyString => EmptyString
  | S n', String _ s' => drop n' s'
  end.

(** [String.prototype.replace] with a string pattern and a replacement free
    of dollar patterns: only the first (leftmost) occurrence is replaced. *)
Fixpoint replace (pat rep s : string) : string :=
  if prefix pat s then rep ++ drop (String.length pat) s
  else match s with
       | EmptyString => EmptyString
       | String c s' => String c (replace pat rep s')
       end.

(** [Array.prototype.includes] on an array of strings. *)
Definition includes (l : list string) (x : string) : bool :=
  existsb (String.eqb x) l.

(** [Array.prototype.unshift] of one element. *)
Definition unshift (l : list string) (x : string) : list string := x :: l.

(** [String(n)] for a non-negative integer. *)
Definition string_of_nat (n : nat) : string :=
  NilEmpty.string_of_uint (Nat.to_uint n).

(** A JavaScript string is held as the bytes of its UTF-8 encoding, and
    [s.length] counts UTF-16 code units: a byte that continues a sequence
    (10xxxxxx) counts for none, the first byte of a sequence of one, two or
    three bytes for one, and the first byte of a sequence of four bytes (a
    code point beyond the basic plane, a surrogate pair in UTF-16) for
    two. *)
Definition code_units (c : ascii) : nat :=
  let n := nat_of_ascii c in
  if Nat.ltb n 128 then 1
  else if Nat.ltb n 192 then 0
  else if Nat.ltb n 240 then 1
  else 2.

Fixpoint length (s : string) : nat :=
  match s with
  | EmptyString => 0
  | String c s' => code_units c + length s'
  end.

End JS.

(** ** Errors and results *)

(** The exceptions the code constructs itself, and the ones raised by its
    collaborators. [InvalidRequestError] carries the optional XRPC error
    name (second constructor argument). *)
Inductive Error : Type :=
| InvalidRequestError (message : string) (errorName : option string)
| AuthRequiredError (message : string)
| JsError (message : string)
| AxiosError (status : option nat)
| ExternalError (what : string).

Inductive Result (A : Type) : Type :=
| Ok (a : A)
| Err (e : Error).
Arguments Ok {A} a.
Arguments Err {A} e.

Definition is_ok {A} (r : Result A) : bool :=
  match r with Ok _ => true | Err _ => false end.

(** The custom XRPC error name an exception was constructed with, when it
    was given one: the second argument of [new InvalidRequestError(_, _)].
    The code gives none to its [AuthRequiredError]. *)
Definition error_name (e : Error) : option string :=
  match e with
  | InvalidRequestError _ n => n
  | _ => None
  end.

(** ** Data model *)

(** A key pair is used through [did()] only; signing goes through the
    libraries. *)
Record Keypair : Type := mkKeypair {
  keypair_did : string;
  keypair_secret : string
}.

(** [plc.Operation] of @did-plc/lib. *)
Record Operation : Type := mkOperation {
  op_type : string;
  rotationKeys : list string;
  verificationMethods : list (string * string);
  alsoKnownAs : list string;
  services : list (string * (string * string));
  prev : option string;
  op_sig : string
}.

(** [input.plcOp] has type [unknown]: either it passes
    [check.is(_, plc.def.operation)], or it is some other value, truthy or
    not. *)
Inductive RawOp : Type :=
| WellTyped (op : Operation)
| IllTyped (isTruthy : bool).

Definition raw_truthy (o : option RawOp) : bool :=
  match o with
  | Some (WellTyped _) => true
  | Some (IllTyped b) => b
  | None => false
  end.

Record CreateAccountInput : Type := mkInput {
  in_did : option string;
  in_handle : string;
  in_email : option string;
  in_password : option string;
  in_inviteCode : option string;
  in_recoveryKey : option string;
  in_plcOp : option RawOp
}.

(** [auth.credentials?.did]. *)
Record AuthOutput : Type := mkAuth {
  credentials_did : option string
}.

Record DidDocument : Type := mkDidDocument {
  doc_id : string;
  doc_alsoKnownAs : list string;
  doc_verificationMethod : list (string * string);
  doc_service : list (string * (string * string))
}.

Record AtprotoData : Type := mkAtprotoData {
  data_did : string;
  data_signingKey : string;
  data_handle : string;
  data_pds : string
}.

(** Result of [actorTxn.repo.createRepo([])]. *)
Record CommitData : Type := mkCommit {
  cid : string;
  rev : string;
  blocks : string
}.

Inductive AccountStatus : Type :=
| Active | Takendown | Suspended | Deleted | Deactivated.

(** Argument of [accountManager.createAccountAndSession]. *)
Record AccountOpts : Type := mkAccountOpts {
  acc_did : string;
  acc_handle : string;
  acc_email : option string;
  acc_password : option string;
  acc_repoCid : string;
  acc_repoRev : string;
  acc_inviteCode : option string;
  acc_deactivated : bool
}.

Record Creds : Type := mkCreds {
  accessJwt : string;
  refreshJwt : string
}.

Record PrismUnsignedTransaction : Type := mkUnsigned {
  utx_did : string;
  utx_operation : Operation;
  utx_nonce : nat;
  utx_vk : string
}.

Record PrismTransaction : Type := mkTransaction {
  tx_did : string;
  tx_operation : Operation;
  tx_nonce : nat;
  tx_vk : string;
  tx_signature : string
}.

(** Input and output of @did-plc/lib's [createOp]. *)
Record CreateOpInput : Type := mkCreateOpInput {
  co_signingKey : string;
  co_rotationKeys : list string;
  co_handle : string;
  co_pds : string;
  co_signer : Keypair
}.

Record CreateOpResult : Type := mkCreateOpResult {
  res_op : Operation;
  res_did : string
}.

(** What the two validators hand to the handler. *)
Record Plan : Type := mkPlan {
  plan_did : string;
  plan_handle : string;
  plan_email : option string;
  plan_password : option string;
  plan_inviteCode : option string;
  plan_signingKey : Keypair;
  plan_plcOp : option Operation;
  plan_deactivated : bool
}.

Record ResponseBody : Type := mkBody {
  body_handle : string;
  body_did : string;
  body_didDoc : option DidDocument;
  body_accessJwt : string;
  body_refreshJwt : string
}.

Record HandlerOutput : Type := mkOutput {
  encoding : string;
  body : ResponseBody
}.

(** What the network returns for a POST: a response with a status code, or
    no response at all. *)
Inductive HttpOutcome : Type :=
| HttpStatus (code : nat)
| NetworkError.

(** ** The trace of external calls

    One event per call to a collaborator, in program order, with the
    arguments the code passed and the outcome the collaborator gave. *)

Inductive LogArg : Type :=
| LogNothing
| LogError (e : Error)
| LogTransaction (tx : PrismTransaction)
| LogDidDoc (d : option DidDocument).

Inductive Event : Type :=
| EvConsoleLog (msg : string) (arg : LogArg)
| EvReqLogError (didKey handle msg : string)
| EvAddSignature (utx : PrismUnsignedTransaction) (key : Keypair)
    (r : Result string)
| EvAxiosPost (url : string) (tx : PrismTransaction) (o : HttpOutcome)
| EvSetTimeout (ms : N)
| EvBaseNormalizeAndValidate (h : string) (r : Result string)
| EvAssureValidOp (op : Operation) (r : Result unit)
| EvAssureValidSig (keys : list string) (op : Operation) (r : Result string)
| EvGetReservedKeypair (id : string) (r : Result (option Keypair))
| EvNormalizeAndValidateHandle (h : string) (d : option string)
    (r : Result string)
| EvEnsureInviteIsAvailable (code : string) (r : Result unit)
| EvGetAccount (h : string) (r : Result bool)
| EvGetAccountByEmail (e : string) (r : Result bool)
| EvKeypairCreate (r : Result Keypair)
| EvPlcCreateOp (i : CreateOpInput) (r : Result CreateOpResult)
| EvActorStoreCreate (d : string) (key : Keypair) (r : Result unit)
| EvCreateRepo (d : string) (r : Result CommitData)
| EvSafeResolveDidDoc (d : string) (forceRefresh : bool)
    (r : Result (option DidDocument))
| EvCreateAccountAndSession (opts : AccountOpts) (r : Result Creds)
| EvSequenceIdentityEvt (d h : string) (r : Result unit)
| EvSequenceAccountEvt (d : string) (st : AccountStatus) (r : Result unit)
| EvSequenceCommit (d : string) (c : CommitData) (r : Result unit)
| EvSequenceSyncEvt (d : string) (data : string) (r : Result unit)
| EvUpdateRepoRoot (d c r' : string) (r : Result unit)
| EvClearReservedKeypair (keyDid d : string) (r : Result unit)
| EvDestroy (d : string) (r : Result unit).

(** ** The monad: world of the collaborators, trace, exceptions *)

Section Monad.

Context {W : Type}.

Record St : Type := mkSt {
  world : W;
  trace : list Event
}.

Definition M (A : Type) : Type := St -> Result A * St.

Definition ret {A} (a : A) : M A := fun s => (Ok a, s).

Definition throw {A} (e : Error) : M A := fun s => (Err e, s).

Definition bind {A B} (m : M A) (k : A -> M B) : M B :=
  fun s =>
    match m s with
    | (Ok a, s') => k a s'
    | (Err e, s') => (Err e, s')
    end.

(** [try { m } catch (err) { h err }]. *)
Definition try_catch {A} (m : M A) (h : Error -> M A) : M A :=
  fun s =>
    match m s with
    | (Ok a, s') => (Ok a, s')
    | (Err e, s') => h e s'
    end.

(** A pure computation that may throw. *)
Definition lift {A} (r : Result A) : M A := fun s => (r, s).

(** Add an event to the trace. *)
Definition emit (ev : Event) : M unit :=
  fun s => (Ok tt, {| world := world s; trace := trace s ++ [ev] |}).

(** Awaited call to a collaborator [h]; the event records the outcome. *)
Definition invoke {X} (ev : Result X -> Event) (h : W -> Result X * W) : M X :=
  fun s =>
    let '(r, w') := h (world s) in
    (r, {| world := w'; trace := trace s ++ [ev r] |}).

End Monad.

Arguments St W : clear implicits.
Arguments M W A : clear implicits.

Declare Scope js_scope.
Delimit Scope js_scope with js.
Notation "x <- m ;; k" := (bind m (fun x => k))
  (at level 61, m at next level, right associativity) : js_scope.
Notation "m ;;; k" := (bind m (fun _ => k))
  (at level 61, right associativity) : js_scope.
Local Open Scope js_scope.

(** ** The collaborators

    [Imports] gathers what the two files import from libraries and from
    modules of the repository whose source is not part of this development;
    [AppContext] is the [ctx] object. Every awaited function acts on the
    world [W] and may throw. *)

Section Program.

Context {W : Type}.

Record Imports : Type := mkImports {
  (* account-manager/helpers/scrypt *)
  NEW_PASSWORD_MAX_LENGTH : nat;
  (* @hapi/address, disposable-email-domains-js *)
  isEmailValid : string -> bool;
  isDisposableEmail : string -> bool;
  (* handle *)
  baseNormalizeAndValidate : string -> Result string;
  (* @did-plc/lib; addSignature gives back the [sig] field it adds *)
  plc_addSignature :
    PrismUnsignedTransaction -> Keypair -> W -> Result string * W;
  plc_assureValidOp : Operation -> W -> Result unit * W;
  plc_assureValidSig : list string -> Operation -> W -> Result string * W;
  plc_formatDidDoc : string -> Operation -> Result DidDocument;
  plc_lib_createOp : CreateOpInput -> W -> Result CreateOpResult * W;
  (* @atproto/identity *)
  ensureAtpDocument : DidDocument -> Result AtprotoData;
  (* @atproto/crypto: Secp256k1Keypair.create({ exportable: true }) *)
  Secp256k1Keypair_create : W -> Result Keypair * W;
  (* sequencer *)
  syncEvtDataFromCommit : CommitData -> string;
  (* ./util *)
  safeResolveDidDoc : string -> bool -> W -> Result (option DidDocument) * W;
  (* the network under axios, and the timer under setTimeout *)
  http_post : string -> PrismTransaction -> W -> HttpOutcome * W;
  timer_elapse : N -> W -> W;
  (* the event loop under Promise.all: when both of two promises reject,
     whether the second one rejected first *)
  second_rejects_first : W -> bool
}.

Record Config : Type := mkConfig {
  (* cfg.entryway?.plcRotationKey *)
  cfg_entryway_plcRotationKey : option string;
  cfg_service_publicUrl : string;
  cfg_invites_required : bool;
  cfg_identity_recoveryDidKey : option string
}.

Record AppContext : Type := mkAppContext {
  cfg : Config;
  (* whether ctx.entrywayAgent is set *)
  entrywayAgent : bool;
  plcRotationKey : Keypair;
  actorStore_create : string -> Keypair -> W -> Result unit * W;
  (* actorStore.transact(did, (actorTxn) => actorTxn.repo.createRepo([])) *)
  actorStore_createRepo : string -> W -> Result CommitData * W;
  actorStore_destroy : string -> W -> Result unit * W;
  actorStore_getReservedKeypair : string -> W -> Result (option Keypair) * W;
  actorStore_clearReservedKeypair : string -> string -> W -> Result unit * W;
  accountManager_normalizeAndValidateHandle :
    string -> option string -> W -> Result string * W;
  accountManager_ensureInviteIsAvailable : string -> W -> Result unit * W;
  (* the two lookups are only tested for an account being there *)
  accountManager_getAccount : string -> W -> Result bool * W;
  accountManager_getAccountByEmail : string -> W -> Result bool * W;
  accountManager_createAccountAndSession :
    AccountOpts -> W -> Result Creds * W;
  accountManager_updateRepoRoot :
    string -> string -> string -> W -> Result unit * W;
  sequencer_sequenceIdentityEvt : string -> string -> W -> Result unit * W;
  sequencer_sequenceAccountEvt :
    string -> AccountStatus -> W -> Result unit * W;
  sequencer_sequenceCommit : string -> CommitData -> W -> Result unit * W;
  sequencer_sequenceSyncEvt : string -> string -> W -> Result unit * W
}.

Variable lib : Imports.

(** [axios.post] with the default [validateStatus]: the promise resolves on a
    status from 200 to 299 and rejects on any other status and when no
    response arrives. *)
Definition validateStatus (c : nat) : bool := Nat.leb 200 c && Nat.ltb c 300.

Definition axios_outcome (o : HttpOutcome) : Result unit :=
  match o with
  | HttpStatus c =>
      if validateStatus c then Ok tt else Err (AxiosError (Some c))
  | NetworkError => Err (AxiosError None)
  end.

Definition axios_post (url : string) (tx : PrismTransaction) : M W unit :=
  fun s =>
    let '(o, w') := http_post lib url tx (world s) in
    (axios_outcome o,
     {| world := w'; trace := trace s ++ [EvAxiosPost url tx o] |}).

(** [await new Promise((resolve) => setTimeout(resolve, ms))]. *)
Definition setTimeout (ms : N) : M W unit :=
  fun s =>
    (Ok tt,
     {| world := timer_elapse lib ms (world s);
        trace := trace s ++ [EvSetTimeout ms] |}).

(** [Promise.all] of two calls. Both calls are started, in this order, and
    both run to their end whatever the other does; each is taken to act on
    the world at once, in the order they are started. When both fulfil the
    result is the pair; when one rejects its error is thrown; when both
    reject the error thrown is the one of the promise that rejected first
    in time, which the event loop decides. *)
Definition promise_all2 {A B} (a : M W A) (b : M W B) : M W (A * B) :=
  fun s =>
    let '(ra, s1) := a s in
    let '(rb, s2) := b s1 in
    (match ra, rb with
     | Ok x, Ok y => Ok (x, y)
     | Err e, Ok _ => Err e
     | Ok _, Err e => Err e
     | Err e1, Err e2 =>
         if second_rejects_first lib (world s2) then Err e2 else Err e1
     end, s2).

(** ** prism-plc.ts *)

Definition createOp (input : CreateOpInput) : M W CreateOpResult :=
  result <- invoke (EvPlcCreateOp input) (plc_lib_createOp lib input) ;;
  let prismDid := JS.replace "did:plc:" "did:prism:" (res_did result) in
  ret {| res_op := res_op result; res_did := prismDid |}.

(** ** createAccount.ts *)

Definition createAndSendPrismTransaction
  (did : string) (plcOp : Operation) (rotationKeySigner : Keypair) : M W unit :=
  let unsignedTransaction :=
    {| utx_did := did;
       utx_operation := plcOp;
       utx_nonce := 0;
       utx_vk := keypair_did rotationKeySigner |} in
  sig <- invoke (EvAddSignature unsignedTransaction rotationKeySigner)
           (plc_addSignature lib unsignedTransaction rotationKeySigner) ;;
  let transaction :=
    {| tx_did := utx_did unsignedTransaction;
       tx_operation := utx_operation unsignedTransaction;
       tx_nonce := utx_nonce unsignedTransaction;
       tx_vk := utx_vk unsignedTransaction;
       tx_signature := sig |} in
  emit (EvConsoleLog "Sending transaction to Prism server:"
          (LogTransaction transaction)) ;;;
  try_catch
    (axios_post "http://host.docker.internal:41997/transaction_2"
       transaction ;;;
     emit (EvConsoleLog "lets wait for 10 seconds" LogNothing) ;;;
     setTimeout 10000%N)
    (fun error =>
       emit (EvConsoleLog "" (LogError error)) ;;;
       throw (JsError
                "Failed to send transaction to Prism server :-( ORBSTACK??")).

Record Expected : Type := mkExpected {
  exp_handle : string;
  exp_pds : string;
  exp_signingKey : string
}.

Definition validateAtprotoData (data : AtprotoData) (expected : Expected)
  : Result unit :=
  if negb (data_handle data =? exp_handle expected) then
    Err (InvalidRequestError
           "provided handle does not match DID document handle"
           (Some "IncompatibleDidDoc"))
  else if negb (data_pds data =? exp_pds expected) then
    Err (InvalidRequestError
           "DID document pds endpoint does not match service endpoint"
           (Some "IncompatibleDidDoc"))
  else if negb (data_signingKey data =? exp_signingKey expected) then
    Err (InvalidRequestError
           "DID document signing key does not match service signing key"
           (Some "IncompatibleDidDoc"))
  else Ok tt.

Definition incompatible (message : string) : Error :=
  InvalidRequestError message (Some "IncompatibleDidDoc").

Definition validateInputsForEntrywayPds
  (ctx : AppContext) (input : CreateAccountInput) : M W Plan :=
  handle <- lift (baseNormalizeAndValidate lib (in_handle input)) ;;
  match in_did input, in_plcOp input with
  | Some did, Some rawOp =>
      if (did =? "") || negb (raw_truthy (Some rawOp)) then
        throw (InvalidRequestError
                 "non-entryway pds requires bringing a DID and plcOp" None)
      else
        match rawOp with
        | IllTyped _ => throw (incompatible "invalid plc operation")
        | WellTyped plcOp =>
            match cfg_entryway_plcRotationKey (cfg ctx) with
            | None =>
                throw (incompatible
                         "PLC DID does not include service rotation key")
            | Some plcRotationKey =>
                if (plcRotationKey =? "")
                   || negb (JS.includes (rotationKeys plcOp) plcRotationKey)
                then
                  throw (incompatible
                           "PLC DID does not include service rotation key")
                else
                  try_catch
                    (invoke (EvAssureValidOp plcOp)
                       (plc_assureValidOp lib plcOp) ;;;
                     invoke (EvAssureValidSig [plcRotationKey] plcOp)
                       (plc_assureValidSig lib [plcRotationKey] plcOp) ;;;
                     ret tt)
                    (fun _ =>
                       throw (incompatible "invalid plc operation")) ;;;
                  doc <- lift (plc_formatDidDoc lib did plcOp) ;;
                  data <- lift (ensureAtpDocument lib doc) ;;
                  reserved <-
                    (if JS.truthy (in_did input) then
                       invoke (EvGetReservedKeypair did)
                         (actorStore_getReservedKeypair ctx did)
                     else ret None) ;;
                  reserved <-
                    match reserved with
                    | Some k => ret (Some k)
                    | None =>
                        invoke (EvGetReservedKeypair (data_signingKey data))
                          (actorStore_getReservedKeypair ctx
                             (data_signingKey data))
                    end ;;
                  match reserved with
                  | None =>
                      throw (InvalidRequestError
                               "reserved signing key does not exist" None)
                  | Some signingKey =>
                      lift (validateAtprotoData data
                              {| exp_handle := handle;
                                 exp_pds := cfg_service_publicUrl (cfg ctx);
                                 exp_signingKey := keypair_did signingKey |}) ;;;
                      ret {| plan_did := did;
                             plan_handle := handle;
                             plan_email := None;
                             plan_password := None;
                             plan_inviteCode := None;
                             plan_signingKey := signingKey;
                             plan_plcOp := Some plcOp;
                             plan_deactivated := false |}
                  end
            end
        end
  | _, _ =>
      throw (InvalidRequestError
               "non-entryway pds requires bringing a DID and plcOp" None)
  end.

Definition formatDidAndPlcOp
  (ctx : AppContext) (handle : string) (input : CreateAccountInput)
  (signingKey : Keypair) : M W (string * option Operation) :=
  let rotationKeys := [keypair_did (plcRotationKey ctx)] in
  let rotationKeys :=
    match cfg_identity_recoveryDidKey (cfg ctx) with
    | Some k => if k =? "" then rotationKeys else JS.unshift rotationKeys k
    | None => rotationKeys
    end in
  let rotationKeys :=
    match in_recoveryKey input with
    | Some k => if k =? "" then rotationKeys else JS.unshift rotationKeys k
    | None => rotationKeys
    end in
  plcCreate <- createOp {| co_signingKey := keypair_did signingKey;
                           co_rotationKeys := rotationKeys;
                           co_handle := handle;
                           co_pds := cfg_service_publicUrl (cfg ctx);
                           co_signer := plcRotationKey ctx |} ;;
  ret (res_did plcCreate, Some (res_op plcCreate)).

Definition dquote : string := String (ascii_of_nat 34) EmptyString.

(** [validateInputsForLocalPds], in its parts. First the checks on the input
    that do not depend on the requester, up to the generation of the
    signing key: they give the normalized handle, the email and the key. *)
Definition localChecks (ctx : AppContext) (input : CreateAccountInput)
  : M W (string * string * Keypair) :=
  let email := in_email input in
  let password := in_password input in
  let inviteCode := in_inviteCode input in
  if raw_truthy (in_plcOp input) then
    throw (InvalidRequestError
             ("Unsupported input: " ++ dquote ++ "plcOp" ++ dquote) None)
  else if match password with
          | Some p =>
              negb (p =? "")
              && Nat.ltb (NEW_PASSWORD_MAX_LENGTH lib) (JS.length p)
          | None => false
          end then
    throw (InvalidRequestError
             ("Password too long. Maximum length is "
              ++ JS.string_of_nat (NEW_PASSWORD_MAX_LENGTH lib)
              ++ " characters.") None)
  else if cfg_invites_required (cfg ctx) && negb (JS.truthy inviteCode) then
    throw (InvalidRequestError "No invite code provided"
             (Some "InvalidInviteCode"))
  else
    match email with
    | None => throw (InvalidRequestError "Email is required" None)
    | Some email =>
        if email =? "" then
          throw (InvalidRequestError "Email is required" None)
        else if negb (isEmailValid lib email) || isDisposableEmail lib email
        then
          throw (InvalidRequestError
                   ("This email address is not supported, "
                    ++ "please use a different email.")
                   None)
        else
          handle <- invoke
                      (EvNormalizeAndValidateHandle (in_handle input)
                         (in_did input))
                      (accountManager_normalizeAndValidateHandle ctx
                         (in_handle input) (in_did input)) ;;
          match inviteCode with
          | Some code =>
              if cfg_invites_required (cfg ctx) && negb (code =? "") then
                invoke (EvEnsureInviteIsAvailable code)
                  (accountManager_ensureInviteIsAvailable ctx code)
              else ret tt
          | None => ret tt
          end ;;;
          taken <- promise_all2
                     (invoke (EvGetAccount handle)
                        (accountManager_getAccount ctx handle))
                     (invoke (EvGetAccountByEmail email)
                        (accountManager_getAccountByEmail ctx email)) ;;
          let '(handleAccnt, emailAcct) := taken in
          if handleAccnt then
            throw (InvalidRequestError ("Handle already taken: " ++ handle)
                     None)
          else if emailAcct then
            throw (InvalidRequestError ("Email already taken: " ++ email)
                     None)
          else
            signingKey <- invoke EvKeypairCreate
                            (Secp256k1Keypair_create lib) ;;
            ret (handle, email, signingKey)
    end.

(** Then the choice of the did: the caller's own, or a freshly minted one.
    The result is the did, the operation to submit and the [deactivated]
    flag. *)
Definition localIdentity
  (ctx : AppContext) (input : CreateAccountInput) (requester : option string)
  (handle : string) (signingKey : Keypair)
  : M W (string * option Operation * bool) :=
  match in_did input with
  | Some did =>
      if did =? "" then
        formatted <- formatDidAndPlcOp ctx handle input signingKey ;;
        ret (fst formatted, snd formatted, false)
      else if negb (match requester with
                    | Some r => did =? r
                    | None => false
                    end) then
        throw (AuthRequiredError
                 ("Missing auth to create account with did: " ++ did))
      else ret (did, None, true)
  | None =>
      formatted <- formatDidAndPlcOp ctx handle input signingKey ;;
      ret (fst formatted, snd formatted, false)
  end.

Definition validateInputsForLocalPds
  (ctx : AppContext) (input : CreateAccountInput) (requester : option string)
  : M W Plan :=
  checked <- localChecks ctx input ;;
  let '(handle, email, signingKey) := checked in
  identity <- localIdentity ctx input requester handle signingKey ;;
  let '(did, plcOp, deactivated) := identity in
  ret {| plan_did := did;
         plan_handle := handle;
         plan_email := Some email;
         plan_password := in_password input;
         plan_inviteCode := in_inviteCode input;
         plan_signingKey := signingKey;
         plan_plcOp := plcOp;
         plan_deactivated := deactivated |}.

(** The handler, in its parts: the validation of the input under one of the
    two trust models, then the creation of the actor store followed by the
    [try] block with its [catch]. *)

Definition validateInputs
  (ctx : AppContext) (input : CreateAccountInput) (auth : AuthOutput)
  : M W Plan :=
  let requester := credentials_did auth in
  if entrywayAgent ctx then validateInputsForEntrywayPds ctx input
  else validateInputsForLocalPds ctx input requester.

(** The body of the [try] block of the handler. *)
Definition provision_try (ctx : AppContext) (plan : Plan)
  : M W (option DidDocument * Creds) :=
  let did := plan_did plan in
  let handle := plan_handle plan in
  let signingKey := plan_signingKey plan in
  let deactivated := plan_deactivated plan in
  commit <- invoke (EvCreateRepo did) (actorStore_createRepo ctx did) ;;
  match plan_plcOp plan with
  | Some plcOp =>
      try_catch
        (createAndSendPrismTransaction did plcOp (plcRotationKey ctx))
        (fun err =>
           emit (EvReqLogError (keypair_did (plcRotationKey ctx)) handle
                   "failed to create did with Prism") ;;;
           throw err)
  | None => ret tt
  end ;;;
  didDoc <- invoke (EvSafeResolveDidDoc did true)
              (safeResolveDidDoc lib did true) ;;
  emit (EvConsoleLog "DID DOC HERE" (LogDidDoc didDoc)) ;;;
  let opts :=
    {| acc_did := did;
       acc_handle := handle;
       acc_email := plan_email plan;
       acc_password := plan_password plan;
       acc_repoCid := cid commit;
       acc_repoRev := rev commit;
       acc_inviteCode := plan_inviteCode plan;
       acc_deactivated := deactivated |} in
  creds <- invoke (EvCreateAccountAndSession opts)
             (accountManager_createAccountAndSession ctx opts) ;;
  (if negb deactivated then
     emit (EvConsoleLog "happens now..." LogNothing) ;;;
     invoke (EvSequenceIdentityEvt did handle)
       (sequencer_sequenceIdentityEvt ctx did handle) ;;;
     invoke (EvSequenceAccountEvt did Active)
       (sequencer_sequenceAccountEvt ctx did Active) ;;;
     invoke (EvSequenceCommit did commit)
       (sequencer_sequenceCommit ctx did commit) ;;;
     invoke (EvSequenceSyncEvt did (syncEvtDataFromCommit lib commit))
       (sequencer_sequenceSyncEvt ctx did (syncEvtDataFromCommit lib commit))
   else ret tt) ;;;
  invoke (EvUpdateRepoRoot did (cid commit) (rev commit))
    (accountManager_updateRepoRoot ctx did (cid commit) (rev commit)) ;;;
  invoke (EvClearReservedKeypair (keypair_did signingKey) did)
    (actorStore_clearReservedKeypair ctx (keypair_did signingKey) did) ;;;
  ret (didDoc, creds).

(** The [catch] block of the handler. *)
Definition provision_catch (ctx : AppContext) (plan : Plan) (err : Error)
  : M W (option DidDocument * Creds) :=
  emit (EvConsoleLog "destroying actor because of error" (LogError err)) ;;;
  invoke (EvDestroy (plan_did plan))
    (actorStore_destroy ctx (plan_did plan)) ;;;
  throw err.

(** The handler from [ctx.actorStore.create] on. *)
Definition provision (ctx : AppContext) (plan : Plan) : M W HandlerOutput :=
  let did := plan_did plan in
  let handle := plan_handle plan in
  let signingKey := plan_signingKey plan in
  invoke (EvActorStoreCreate did signingKey)
    (actorStore_create ctx did signingKey) ;;;
  out <- try_catch (provision_try ctx plan) (provision_catch ctx plan) ;;
  let '(didDoc, creds) := out in
  ret {| encoding := "application/json";
         body := {| body_handle := handle;
                    body_did := did;
                    body_didDoc := didDoc;
                    body_accessJwt := accessJwt creds;
                    body_refreshJwt := refreshJwt creds |} |}.

Definition handler
  (ctx : AppContext) (input : CreateAccountInput) (auth : AuthOutput)
  : M W HandlerOutput :=
  plan <- validateInputs ctx input auth ;;
  provision ctx plan.

End Program.

Arguments Imports W : clear implicits.
Arguments AppContext W : clear implicits.

(** Run a computation for one request: from world [w], with an empty trace. *)
Definition run {W A} (m : M W A) (w : W) : Result A * St W :=
  m {| world := w; trace := [] |}.

(** ** A test double for the collaborators

    Modelled from the spec: the repository store, the account store, the
    reserved-keypair store, the sequencer, the resolver and the ledger
    endpoint of its section on external interfaces, and the libraries; their
    code is not part of the two files embedded above. The double is a small
    concrete world, used to run the code on concrete requests: the actor
    stores that exist, the accounts, the ledger, a clock, and the list of
    operations that are made to throw. An operation that throws leaves the
    world as it was. The theorems below do not depend on the double: they
    hold for every [Imports] and [AppContext]. *)

Module Mock.

Record World : Type := mkWorld {
  stores : list string;
  accounts : list AccountOpts;
  roots : list (string * (string * string));
  reserved : list (string * Keypair);
  firehose : list string;
  ledger : list PrismTransaction;
  ledgerAnswer : HttpOutcome;
  clock : N;
  failing : list string
}.

Definition set_stores (f : list string -> list string) (w : World) : World :=
  mkWorld (f (stores w)) (accounts w) (roots w) (reserved w) (firehose w)
    (ledger w) (ledgerAnswer w) (clock w) (failing w).

Definition set_accounts (f : list AccountOpts -> list AccountOpts)
  (w : World) : World :=
  mkWorld (stores w) (f (accounts w)) (roots w) (reserved w) (firehose w)
    (ledger w) (ledgerAnswer w) (clock w) (failing w).

Definition set_roots
  (f : list (string * (string * string)) -> list (string * (string * string)))
  (w : World) : World :=
  mkWorld (stores w) (accounts w) (f (roots w)) (reserved w) (firehose w)
    (ledger w) (ledgerAnswer w) (clock w) (failing w).

Definition set_reserved
  (f : list (string * Keypair) -> list (string * Keypair)) (w : World)
  : World :=
  mkWorld (stores w) (accounts w) (roots w) (f (reserved w)) (firehose w)
    (ledger w) (ledgerAnswer w) (clock w) (failing w).

Definition set_firehose (f : list string -> list string) (w : World)
  : World :=
  mkWorld (stores w) (accounts w) (roots w) (reserved w) (f (firehose w))
    (ledger w) (ledgerAnswer w) (clock w) (failing w).

Definition set_ledger
  (f : list PrismTransaction -> list PrismTransaction) (w : World) : World :=
  mkWorld (stores w) (accounts w) (roots w) (reserved w) (firehose w)
    (f (ledger w)) (ledgerAnswer w) (clock w) (failing w).

Definition set_clock (f : N -> N) (w : World) : World :=
  mkWorld (stores w) (accounts w) (roots w) (reserved w) (firehose w)
    (ledger w) (ledgerAnswer w) (f (clock w)) (failing w).

Definition has (l : list string) (x : string) : bool :=
  existsb (String.eqb x) l.

(** An operation named [name] throws when the world says so, and otherwise
    returns [a] and changes the world by [f]. *)
Definition op {A} (name : string) (a : A) (f : World -> World) (w : World)
  : Result A * World :=
  if has (failing w) name then (Err (ExternalError name), w)
  else (Ok a, f w).

Definition has_repo (d : string) (w : World) : bool := has (stores w) d.

Fixpoint has_at (s : string) : bool :=
  match s with
  | EmptyString => false
  | String c s' => (Ascii.eqb c "@"%char) || has_at s'
  end.

Fixpoint assoc {A} (k : string) (l : list (string * A)) : option A :=
  match l with
  | [] => None
  | (k', a) :: l' => if k =? k' then Some a else assoc k l'
  end.

Definition lib : Imports World :=
  {| NEW_PASSWORD_MAX_LENGTH := 256;
     isEmailValid := has_at;
     isDisposableEmail := fun e => e =? "bob@mailinator.com";
     baseNormalizeAndValidate := fun h =>
       if h =? "" then
         Err (InvalidRequestError "Invalid handle" (Some "InvalidHandle"))
       else Ok h;
     plc_addSignature := fun utx key =>
       op "addSignature" ("signed-by:" ++ keypair_did key)%string id;
     plc_assureValidOp := fun o => op "assureValidOp" tt id;
     plc_assureValidSig := fun keys o w =>
       if op_sig o =? "good" then (Ok (hd "" keys), w)
       else (Err (ExternalError "Invalid signature"), w);
     plc_formatDidDoc := fun d o =>
       Ok {| doc_id := d;
             doc_alsoKnownAs := alsoKnownAs o;
             doc_verificationMethod := verificationMethods o;
             doc_service := services o |};
     plc_lib_createOp := fun i =>
       op "createOp"
         {| res_op := {| op_type := "plc_operation";
                         rotationKeys := co_rotationKeys i;
                         verificationMethods :=
                           [("atproto", co_signingKey i)];
                         alsoKnownAs := [co_handle i];
                         services :=
                           [("atproto_pds",
                             ("AtprotoPersonalDataServer", co_pds i))];
                         prev := None;
                         op_sig := "good" |};
            res_did := ("did:plc:" ++ co_handle i)%string |} id;
     ensureAtpDocument := fun d =>
       match doc_alsoKnownAs d,
             assoc "atproto" (doc_verificationMethod d),
             assoc "atproto_pds" (doc_service d) with
       | h :: _, Some k, Some (_, endpoint) =>
           Ok {| data_did := doc_id d;
                 data_signingKey := k;
                 data_handle := h;
                 data_pds := endpoint |}
       | _, _, _ => Err (ExternalError "Could not parse document")
       end;
     Secp256k1Keypair_create :=
       op "keypair" (mkKeypair "did:key:zFresh" "fresh-secret") id;
     syncEvtDataFromCommit := fun c => ("car:" ++ blocks c)%string;
     safeResolveDidDoc := fun d _ =>
       op "resolve"
         (Some {| doc_id := d;
                  doc_alsoKnownAs := [];
                  doc_verificationMethod := [];
                  doc_service := [] |}) id;
     http_post := fun _ tx w =>
       (ledgerAnswer w,
        match ledgerAnswer w with
        | HttpStatus 200 => set_ledger (cons tx) w
        | _ => w
        end);
     timer_elapse := fun ms => set_clock (N.add ms);
     second_rejects_first := fun _ => false |}.

Definition ctx (config : Config) (entryway : bool) : AppContext World :=
  {| cfg := config;
     entrywayAgent := entryway;
     plcRotationKey := mkKeypair "did:key:zOperator" "operator-secret";
     actorStore_create := fun d _ w =>
       if has (stores w) d then (Err (ExternalError "Repo already exists"), w)
       else op "create" tt (set_stores (cons d)) w;
     actorStore_createRepo := fun d =>
       op "createRepo"
         {| cid := ("cid-of-" ++ d)%string; rev := "rev-0"; blocks := d |} id;
     actorStore_destroy := fun d =>
       op "destroy" tt
         (set_stores (filter (fun d' => negb (d =? d'))));
     actorStore_getReservedKeypair := fun k w =>
       op "getReservedKeypair" (assoc k (reserved w)) id w;
     actorStore_clearReservedKeypair := fun k d =>
       op "clearReservedKeypair" tt
         (set_reserved
            (filter (fun e => negb ((fst e =? k) || (fst e =? d)))));
     accountManager_normalizeAndValidateHandle := fun h _ =>
       op "normalizeAndValidateHandle" h id;
     accountManager_ensureInviteIsAvailable := fun _ =>
       op "ensureInviteIsAvailable" tt id;
     accountManager_getAccount := fun h w =>
       op "getAccount" (existsb (fun a => acc_handle a =? h) (accounts w))
         id w;
     accountManager_getAccountByEmail := fun e w =>
       op "getAccountByEmail"
         (existsb
            (fun a => match acc_email a with
                      | Some e' => e' =? e
                      | None => false
                      end) (accounts w)) id w;
     accountManager_createAccountAndSession := fun o =>
       op "createAccountAndSession"
         {| accessJwt := ("access:" ++ acc_did o)%string;
            refreshJwt := ("refresh:" ++ acc_did o)%string |}
         (set_accounts (cons o));
     accountManager_updateRepoRoot := fun d c r =>
       op "updateRepoRoot" tt (set_roots (cons (d, (c, r))));
     sequencer_sequenceIdentityEvt := fun d _ =>
       op "sequenceIdentityEvt" tt
         (set_firehose (cons ("identity " ++ d)%string));
     sequencer_sequenceAccountEvt := fun d _ =>
       op "sequenceAccountEvt" tt
         (set_firehose (cons ("account " ++ d)%string));
     sequencer_sequenceCommit := fun d _ =>
       op "sequenceCommit" tt (set_firehose (cons ("commit " ++ d)%string));
     sequencer_sequenceSyncEvt := fun d _ =>
       op "sequenceSyncEvt" tt (set_firehose (cons ("sync " ++ d)%string)) |}.

(** A world with nothing in it, a ledger that answers [answer], and the
    operations [broken] throwing. *)
Definition empty (answer : HttpOutcome) (broken : list string) : World :=
  mkWorld [] [] [] [] [] [] answer 0%N broken.

Definition localConfig : Config :=
  {| cfg_entryway_plcRotationKey := None;
     cfg_service_publicUrl := "https://pds.test";
     cfg_invites_required := false;
     cfg_identity_recoveryDidKey := None |}.

Definition entrywayConfig : Config :=
  {| cfg_entryway_plcRotationKey := Some "did:key:zEntryway";
     cfg_service_publicUrl := "https://pds.test";
     cfg_invites_required := false;
     cfg_identity_recoveryDidKey := None |}.

(** Scenario A of the specification: a local signup. *)
Definition alice : CreateAccountInput :=
  {| in_did := None;
     in_handle := "alice.example";
     in_email := Some "alice@example.com";
     in_password := Some "hunter2";
     in_inviteCode := None;
     in_recoveryKey := None;
     in_plcOp := None |}.

Definition anonymous : AuthOutput := {| credentials_did := None |}.

(** The transaction that Alice's signup sends to the ledger. *)
Definition aliceTransaction : PrismTransaction :=
  {| tx_did := "did:prism:alice.example";
     tx_operation :=
       {| op_type := "plc_operation";
          rotationKeys := ["did:key:zOperator"];
          verificationMethods := [("atproto", "did:key:zFresh")];
          alsoKnownAs := ["alice.example"];
          services :=
            [("atproto_pds",
              ("AtprotoPersonalDataServer", "https://pds.test"))];
          prev := None;
          op_sig := "good" |};
     tx_nonce := 0;
     tx_vk := "did:key:zOperator";
     tx_signature := "signed-by:did:key:zOperator" |}.


(** Scenario D: Carol brings her own did; and Carol without an email. *)
Definition carol : CreateAccountInput :=
  {| in_did := Some "did:web:carol.example";
     in_handle := "carol.example";
     in_email := Some "carol@example.com";
     in_password := Some "hunter2";
     in_inviteCode := None;
     in_recoveryKey := None;
     in_plcOp := None |}.

Definition carolWithoutEmail : CreateAccountInput :=
  {| in_did := Some "did:web:carol.example";
     in_handle := "carol.example";
     in_email := None;
     in_password := Some "hunter2";
     in_inviteCode := None;
     in_recoveryKey := None;
     in_plcOp := None |}.

Definition asCarol : AuthOutput :=
  {| credentials_did := Some "did:web:carol.example" |}.

(** Scenario C: an operation, well signed, whose rotation keys do not
    include the key of the service; sent with and without a did. *)
Definition foreignOp : Operation :=
  {| op_type := "plc_operation";
     rotationKeys := ["did:key:zSomeoneElse"];
     verificationMethods := [("atproto", "did:key:zReserved")];
     alsoKnownAs := ["bob.example"];
     services :=
       [("atproto_pds", ("AtprotoPersonalDataServer", "https://pds.test"))];
     prev := None;
     op_sig := "good" |}.

Definition bob : CreateAccountInput :=
  {| in_did := Some "did:plc:bob";
     in_handle := "bob.example";
     in_email := None;
     in_password := None;
     in_inviteCode := None;
     in_recoveryKey := None;
     in_plcOp := Some (WellTyped foreignOp) |}.

Definition bobWithoutDid : CreateAccountInput :=
  {| in_did := None;
     in_handle := "bob.example";
     in_email := None;
     in_password := None;
     in_inviteCode := None;
     in_recoveryKey := None;
     in_plcOp := Some (WellTyped foreignOp) |}.

(** Alice signs up on a service without entryway, the ledger answering
    [answer] and the operations [broken] throwing. *)
Definition signup (answer : HttpOutcome) (broken : list string)
  : Result HandlerOutput * St World :=
  run (handler lib (ctx localConfig false) alice anonymous)
    (empty answer broken).

End Mock.

(** ** Observations on traces *)

(** The four calls to the sequencer. *)
Definition is_sequencing (ev : Event) : bool :=
  match ev with
  | EvSequenceIdentityEvt _ _ _ | EvSequenceAccountEvt _ _ _
  | EvSequenceCommit _ _ _ | EvSequenceSyncEvt _ _ _ => true
  | _ => false
  end.

(** The calls made by the two validators. *)
Definition is_validation (ev : Event) : bool :=
  match ev with
  | EvAssureValidOp _ _ | EvAssureValidSig _ _ _ | EvGetReservedKeypair _ _
  | EvNormalizeAndValidateHandle _ _ _ | EvEnsureInviteIsAvailable _ _
  | EvGetAccount _ _ | EvGetAccountByEmail _ _ | EvKeypairCreate _
  | EvPlcCreateOp _ _ => true
  | _ => false
  end.

(** The waits on the timer. *)
Definition is_timeout (ev : Event) : bool :=
  match ev with EvSetTimeout _ => true | _ => false end.

(** Everything the submitter does with the ledger: signing, posting and
    waiting. *)
Definition is_ledger (ev : Event) : bool :=
  match ev with
  | EvAddSignature _ _ _ | EvAxiosPost _ _ _ | EvSetTimeout _ => true
  | _ => false
  end.

Definition ledgerUrl : string :=
  "http://host.docker.internal:41997/transaction_2".

Definition submissionError : Error :=
  JsError "Failed to send transaction to Prism server :-( ORBSTACK??".

(** The transaction the submitter builds for [did] and [plcOp], once the
    signature [sig] is known. *)
Definition unsignedFor (did : string) (plcOp : Operation) (signer : Keypair)
  : PrismUnsignedTransaction :=
  {| utx_did := did;
     utx_operation := plcOp;
     utx_nonce := 0;
     utx_vk := keypair_did signer |}.

Definition signedFor (utx : PrismUnsignedTransaction) (sig : string)
  : PrismTransaction :=
  {| tx_did := utx_did utx;
     tx_operation := utx_operation utx;
     tx_nonce := utx_nonce utx;
     tx_vk := utx_vk utx;
     tx_signature := sig |}.

(** What a successful submission adds to the trace. *)
Definition submissionEvents
  (utx : PrismUnsignedTransaction) (signer : Keypair) (sig : string)
  (o : HttpOutcome) : list Event :=
  [ EvAddSignature utx signer (Ok sig);
    EvConsoleLog "Sending transaction to Prism server:"
      (LogTransaction (signedFor utx sig));
    EvAxiosPost ledgerUrl (signedFor utx sig) o;
    EvConsoleLog "lets wait for 10 seconds" LogNothing;
    EvSetTimeout 10000%N ].

(** The four sequencing calls of a provisioning, in the order of the code. *)
Definition sequencingEvents {W} (lib : Imports W)
  (did handle : string) (commit : CommitData) : list Event :=
  [ EvSequenceIdentityEvt did handle (Ok tt);
    EvSequenceAccountEvt did Active (Ok tt);
    EvSequenceCommit did commit (Ok tt);
    EvSequenceSyncEvt did (syncEvtDataFromCommit lib commit) (Ok tt) ].

(** The account fields the handler passes to the account manager. *)
Definition accountOptsFor (plan : Plan) (commit : CommitData) : AccountOpts :=
  {| acc_did := plan_did plan;
     acc_handle := plan_handle plan;
     acc_email := plan_email plan;
     acc_password := plan_password plan;
     acc_repoCid := cid commit;
     acc_repoRev := rev commit;
     acc_inviteCode := plan_inviteCode plan;
     acc_deactivated := plan_deactivated plan |}.



(** The rotation keys as the specification words them: the same keys in the
    same order, with duplicates removed (the first occurrence stays). *)
Fixpoint dedup (l : list string) : list string :=
  match l with
  | [] => []
  | x :: l' => x :: filter (fun y => negb (y =? x)) (dedup l')
  end.



(** The repository creations, the account creations and the updates of the
    repo root in a trace, in order, with what was passed and returned. *)
Definition repoCreations (tr : list Event)
  : list (string * Result CommitData) :=
  flat_map (fun ev => match ev with
                      | EvCreateRepo d r => [(d, r)]
                      | _ => []
                      end) tr.

Definition accountCreations (tr : list Event)
  : list (AccountOpts * Result Creds) :=
  flat_map (fun ev => match ev with
                      | EvCreateAccountAndSession o r => [(o, r)]
                      | _ => []
                      end) tr.

Definition repoRootUpdates (tr : list Event)
  : list (string * string * string * Result unit) :=
  flat_map (fun ev => match ev with
                      | EvUpdateRepoRoot d c r' r => [(d, c, r', r)]
                      | _ => []
                      end) tr.

(** The destroys of a trace, with their outcomes. *)
Definition destroys (tr : list Event) : list (string * Result unit) :=
  flat_map (fun ev => match ev with
                      | EvDestroy d r => [(d, r)]
                      | _ => []
                      end) tr.

(** Whether the configured rotation key of the service is among the rotation
    keys of a caller-supplied operation. *)
Definition serviceKeyListed {W} (ctx : AppContext W) (plcOp : Operation)
  : bool :=
  match cfg_entryway_plcRotationKey (cfg ctx) with
  | Some k => negb (k =? "") && JS.includes (rotationKeys plcOp) k
  | None => false
  end.

(** What the ledger submission of a plan adds to the trace of a successful
    provisioning: nothing without an operation, and otherwise one signature,
    one POST that the ledger accepted, and the wait. *)
Definition ledgerPart {W} (ctx : AppContext W) (plan : Plan)
  (mid : list Event) : Prop :=
  match plan_plcOp plan with
  | None => mid = []
  | Some plcOp =>
      exists sig o,
        axios_outcome o = Ok tt /\
        mid = submissionEvents
                (unsignedFor (plan_did plan) plcOp (plcRotationKey ctx))
                (plcRotationKey ctx) sig o
  end.

(** The trace of a [try] block that ran to its end, given the commit, the
    ledger part, the resolved document and the credentials; and the trace of
    a successful provisioning of [plan]. *)
Definition tryEvents {W} (lib : Imports W) (plan : Plan)
  (commit : CommitData) (mid : list Event) (didDoc : option DidDocument)
  (creds : Creds) : list Event :=
  [ EvCreateRepo (plan_did plan) (Ok commit) ]
  ++ mid
  ++ [ EvSafeResolveDidDoc (plan_did plan) true (Ok didDoc);
       EvConsoleLog "DID DOC HERE" (LogDidDoc didDoc);
       EvCreateAccountAndSession (accountOptsFor plan commit) (Ok creds) ]
  ++ (if plan_deactivated plan then []
      else EvConsoleLog "happens now..." LogNothing
           :: sequencingEvents lib (plan_did plan) (plan_handle plan) commit)
  ++ [ EvUpdateRepoRoot (plan_did plan) (cid commit) (rev commit) (Ok tt);
       EvClearReservedKeypair (keypair_did (plan_signingKey plan))
         (plan_did plan) (Ok tt) ].

Definition successEvents {W} (lib : Imports W) (plan : Plan)
  (commit : CommitData) (mid : list Event) (didDoc : option DidDocument)
  (creds : Creds) : list Event :=
  EvActorStoreCreate (plan_did plan) (plan_signingKey plan) (Ok tt)
  :: tryEvents lib plan commit mid didDoc creds.

(** What the [catch] block adds to the trace when it caught [e] and the
    destroy had outcome [rd]. *)
Definition rollbackEvents (plan : Plan) (e : Error) (rd : Result unit)
  : list Event :=
  [ EvConsoleLog "destroying actor because of error" (LogError e);
    EvDestroy (plan_did plan) rd ].

(** ** Further observations on traces *)

(** The creations of actor stores, the lookups of reserved key pairs and the
    checks of invite codes in a trace, with what was passed and returned. *)
Definition storeCreations (tr : list Event)
  : list (string * Keypair * Result unit) :=
  flat_map (fun ev => match ev with
                      | EvActorStoreCreate d k r => [(d, k, r)]
                      | _ => []
                      end) tr.

Definition reservedLookups (tr : list Event)
  : list (string * Result (option Keypair)) :=
  flat_map (fun ev => match ev with
                      | EvGetReservedKeypair i r => [(i, r)]
                      | _ => []
                      end) tr.

Definition inviteChecks (tr : list Event) : list (string * Result unit) :=
  flat_map (fun ev => match ev with
                      | EvEnsureInviteIsAvailable c r => [(c, r)]
                      | _ => []
                      end) tr.

(** Writes to the console and to the request log. *)
Definition is_log (ev : Event) : bool :=
  match ev with
  | EvConsoleLog _ _ | EvReqLogError _ _ _ => true
  | _ => false
  end.

Definition is_destroy (ev : Event) : bool :=
  match ev with EvDestroy _ _ => true | _ => false end.

(** Whether the call of an event threw. A POST throws when axios rejects
    its answer; logs and the timer do not throw. *)
Definition failed (ev : Event) : bool :=
  match ev with
  | EvConsoleLog _ _ | EvReqLogError _ _ _ | EvSetTimeout _ => false
  | EvAxiosPost _ _ o => negb (is_ok (axios_outcome o))
  | EvAddSignature _ _ r => negb (is_ok r)
  | EvBaseNormalizeAndValidate _ r => negb (is_ok r)
  | EvAssureValidOp _ r => negb (is_ok r)
  | EvAssureValidSig _ _ r => negb (is_ok r)
  | EvGetReservedKeypair _ r => negb (is_ok r)
  | EvNormalizeAndValidateHandle _ _ r => negb (is_ok r)
  | EvEnsureInviteIsAvailable _ r => negb (is_ok r)
  | EvGetAccount _ r => negb (is_ok r)
  | EvGetAccountByEmail _ r => negb (is_ok r)
  | EvKeypairCreate r => negb (is_ok r)
  | EvPlcCreateOp _ r => negb (is_ok r)
  | EvActorStoreCreate _ _ r => negb (is_ok r)
  | EvCreateRepo _ r => negb (is_ok r)
  | EvSafeResolveDidDoc _ _ r => negb (is_ok r)
  | EvCreateAccountAndSession _ r => negb (is_ok r)
  | EvSequenceIdentityEvt _ _ r => negb (is_ok r)
  | EvSequenceAccountEvt _ _ r => negb (is_ok r)
  | EvSequenceCommit _ _ r => negb (is_ok r)
  | EvSequenceSyncEvt _ _ r => negb (is_ok r)
  | EvUpdateRepoRoot _ _ _ r => negb (is_ok r)
  | EvClearReservedKeypair _ _ r => negb (is_ok r)
  | EvDestroy _ r => negb (is_ok r)
  end.

(** After a failure: logs only, and at most one destroy, which comes
    last. *)
Fixpoint rollbackOnly (l : list Event) : bool :=
  match l with
  | [] => true
  | ev :: l' =>
      if is_destroy ev then match l' with [] => true | _ => false end
      else is_log ev && rollbackOnly l'
  end.

(** A trace that stops at its first failure: no destroy before a call
    failed, and after it nothing but the rollback. *)
Fixpoint failStop (l : list Event) : bool :=
  match l with
  | [] => true
  | ev :: l' =>
      if is_destroy ev then false
      else if failed ev then rollbackOnly l'
      else failStop l'
  end.

(** The steps of a provisioning, in the order of the code; which step a
    call belongs to (logs and the destroy belong to none); and the steps
    that a plan goes through when nothing fails. *)
Inductive Step : Type :=
| StepCreateStore | StepCreateRepo | StepSign | StepPost | StepWait
| StepResolve | StepCreateAccount | StepIdentityEvt | StepAccountEvt
| StepCommitEvt | StepSyncEvt | StepUpdateRoot | StepClearKey.

Definition stepOf (ev : Event) : list Step :=
  match ev with
  | EvActorStoreCreate _ _ _ => [StepCreateStore]
  | EvCreateRepo _ _ => [StepCreateRepo]
  | EvAddSignature _ _ _ => [StepSign]
  | EvAxiosPost _ _ _ => [StepPost]
  | EvSetTimeout _ => [StepWait]
  | EvSafeResolveDidDoc _ _ _ => [StepResolve]
  | EvCreateAccountAndSession _ _ => [StepCreateAccount]
  | EvSequenceIdentityEvt _ _ _ => [StepIdentityEvt]
  | EvSequenceAccountEvt _ _ _ => [StepAccountEvt]
  | EvSequenceCommit _ _ _ => [StepCommitEvt]
  | EvSequenceSyncEvt _ _ _ => [StepSyncEvt]
  | EvUpdateRepoRoot _ _ _ _ => [StepUpdateRoot]
  | EvClearReservedKeypair _ _ _ => [StepClearKey]
  | _ => []
  end.

Definition stepsOf (tr : list Event) : list Step := flat_map stepOf tr.

Definition pipeline (plan : Plan) : list Step :=
  [StepCreateStore; StepCreateRepo]
  ++ match plan_plcOp plan with
     | Some _ => [StepSign; StepPost; StepWait]
     | None => []
     end
  ++ [StepResolve; StepCreateAccount]
  ++ (if plan_deactivated plan then []
      else [StepIdentityEvt; StepAccountEvt; StepCommitEvt; StepSyncEvt])
  ++ [StepUpdateRoot; StepClearKey].

(** What an entry of the trace stands for: the call it names, made with the
    arguments it names on the world [w], gave the outcome it names and left
    the world [w']. Writing a log leaves the world as it is. A trace replays
    from [w] to [w'] when its entries, made one after the other from [w],
    lead to [w']. *)
Definition performs {W} (lib : Imports W) (ctx : AppContext W) (ev : Event)
  (w w' : W) : Prop :=
  match ev with
  | EvConsoleLog _ _ => w' = w
  | EvReqLogError _ _ _ => w' = w
  | EvAddSignature utx key r => plc_addSignature lib utx key w = (r, w')
  | EvAxiosPost url tx o => http_post lib url tx w = (o, w')
  | EvSetTimeout ms => w' = timer_elapse lib ms w
  | EvBaseNormalizeAndValidate h r =>
      baseNormalizeAndValidate lib h = r /\ w' = w
  | EvAssureValidOp op r => plc_assureValidOp lib op w = (r, w')
  | EvAssureValidSig keys op r => plc_assureValidSig lib keys op w = (r, w')
  | EvGetReservedKeypair id r =>
      actorStore_getReservedKeypair ctx id w = (r, w')
  | EvNormalizeAndValidateHandle h d r =>
      accountManager_normalizeAndValidateHandle ctx h d w = (r, w')
  | EvEnsureInviteIsAvailable code r =>
      accountManager_ensureInviteIsAvailable ctx code w = (r, w')
  | EvGetAccount h r => accountManager_getAccount ctx h w = (r, w')
  | EvGetAccountByEmail e r =>
      accountManager_getAccountByEmail ctx e w = (r, w')
  | EvKeypairCreate r => Secp256k1Keypair_create lib w = (r, w')
  | EvPlcCreateOp i r => plc_lib_createOp lib i w = (r, w')
  | EvActorStoreCreate d key r => actorStore_create ctx d key w = (r, w')
  | EvCreateRepo d r => actorStore_createRepo ctx d w = (r, w')
  | EvSafeResolveDidDoc d forceRefresh r =>
      safeResolveDidDoc lib d forceRefresh w = (r, w')
  | EvCreateAccountAndSession opts r =>
      accountManager_createAccountAndSession ctx opts w = (r, w')
  | EvSequenceIdentityEvt d h r =>
      sequencer_sequenceIdentityEvt ctx d h w = (r, w')
  | EvSequenceAccountEvt d st r =>
      sequencer_sequenceAccountEvt ctx d st w = (r, w')
  | EvSequenceCommit d c r => sequencer_sequenceCommit ctx d c w = (r, w')
  | EvSequenceSyncEvt d data r =>
      sequencer_sequenceSyncEvt ctx d data w = (r, w')
  | EvUpdateRepoRoot d c r' r =>
      accountManager_updateRepoRoot ctx d c r' w = (r, w')
  | EvClearReservedKeypair keyDid d r =>
      actorStore_clearReservedKeypair ctx keyDid d w = (r, w')
  | EvDestroy d r => actorStore_destroy ctx d w = (r, w')
  end.

Fixpoint replays {W} (lib : Imports W) (ctx : AppContext W) (tr : list Event)
  (w w' : W) : Prop :=
  match tr with
  | [] => w' = w
  | ev :: tr' =>
      exists w1, performs lib ctx ev w w1 /\ replays lib ctx tr' w1 w'
  end.

(** [String.prototype.includes] with a string argument. *)
Fixpoint occurs (pat s : string) : bool :=
  prefix pat s
  || match s with
     | EmptyString => false
     | String _ s' => occurs pat s'
     end.

(** ** services/bsky/api.js: the reading of the environment *)

Module BskyApi.

(** [process.env]: a variable is unset or holds a string. *)
Definition Env : Type := string -> option string.

(** [a || b] on operands that are strings or [undefined]. *)
Definition or_else (a b : option string) : option string :=
  if JS.truthy a then a else b.

(** [getEnv().serviceSigningKey]. *)
Definition getEnv (env : Env) : option string :=
  or_else (env "BSKY_SERVICE_SIGNING_KEY") None.

(** [process.env.X === v]. *)
Definition is_set_to (o : option string) (v : string) : bool :=
  match o with
  | Some x => x =? v
  | None => false
  end.

Definition shouldEmbedDeps (env : Env) : bool :=
  if is_set_to (env "BSKY_EMBED_DEPS") "true" then true
  else if is_set_to (env "BSKY_EMBED_DEPS") "false" then false
  else
    let hasDataplane :=
      JS.truthy (or_else (env "BSKY_DATAPLANE_URLS")
                   (env "BSKY_DATAPLANE_URL")) in
    let hasBsync := JS.truthy (env "BSKY_BSYNC_URL") in
    negb (hasDataplane && hasBsync).

Record EmbeddedEnv : Type := mkEmbeddedEnv {
  dbUrl : option string;
  dbSchema : option string;
  repoProvider : option string;
  plcUrl : string
}.

Definition getEmbeddedEnv (env : Env) : EmbeddedEnv :=
  {| dbUrl :=
       or_else (or_else (env "BSKY_DB_POSTGRES_URL") (env "DB_POSTGRES_URL"))
         None;
     dbSchema :=
       or_else (or_else (env "BSKY_DB_POSTGRES_SCHEMA")
                  (env "DB_POSTGRES_SCHEMA")) None;
     repoProvider :=
       or_else (or_else (env "BSKY_REPO_PROVIDER") (env "REPO_PROVIDER"))
         None;
     plcUrl :=
       match env "BSKY_DID_PLC_URL" with
       | Some u => if u =? "" then "http://localhost:2582" else u
       | None => "http://localhost:2582"
       end |}.

(** Two environments that agree on every variable that is set to a string
    that is not empty. *)
Definition sameSettings (env env' : Env) : Prop :=
  forall k, or_else (env k) None = or_else (env' k) None.

End BskyApi.

(** ** The resolver of did:prism dids *)

Module PrismResolver.

(** [s.split(sep)] for a separator of one character. *)
Fixpoint split (sep : ascii) (s : string) : list string :=
  match s with
  | EmptyString => [EmptyString]
  | String c s' =>
      if Ascii.eqb c sep then EmptyString :: split sep s'
      else match split sep s' with
           | x :: xs => String c x :: xs
           | [] => [String c EmptyString]
           end
  end.

(** [l.join(sep)]. *)
Fixpoint join (sep : ascii) (l : list string) : string :=
  match l with
  | [] => EmptyString
  | [x] => x
  | x :: l' => (x ++ String sep (join sep l'))%string
  end.

(** The characters of a string other than [sep]. *)
Fixpoint free_of (sep : ascii) (s : string) : bool :=
  match s with
  | EmptyString => true
  | String c s' => negb (Ascii.eqb c sep) && free_of sep s'
  end.

(** [did.split(':')[2]]. *)
Definition accountIdOf (did : string) : option string :=
  nth_error (split ":"%char did) 2.

(** A parsed JSON body, as far as [response.did_document] looks at it:
    [null], an object with or without the field, or any other value.
    Reading the field of [null] throws; reading it of a value that has no
    such field gives [undefined]. *)
Inductive Json : Type :=
| JNull
| JObject (did_document : option string)
| JOther.

Inductive ResolveError : Type :=
| HttpError (statusText : string) (status : nat)
| TypeError
| Rejected (what : string).

(** The request given to [fetch]; the body is [JSON.stringify] of an
    object with the one field [id], which may be [undefined]. *)
Record Request : Type := mkRequest {
  req_url : string;
  req_method : string;
  req_headers : list (string * string);
  req_body_id : option string
}.

(** What [fetch] resolves to: the status line, and what reading the body
    as JSON gives. [res.ok] holds for a status from 200 to 299. *)
Record Response : Type := mkResponse {
  res_status : nat;
  res_statusText : string;
  res_json : ResolveError + Json
}.

Inductive Log : Type :=
| LogUsingPrismResolver
| LogResponse (j : Json).

Section Resolver.

Context {W Signal : Type}.

(** [fetch], [console.log] and the [timed] of ./util. *)
Record Platform : Type := mkPlatform {
  fetch : Request -> Signal -> W -> (ResolveError + Response) * W;
  console_log : Log -> W -> W;
  timed : forall A : Type,
      N -> (Signal -> W -> (ResolveError + A) * W)
      -> W -> (ResolveError + A) * W
}.

Record DidPrismResolver : Type := mkResolver {
  prismUrl : string;
  timeout : N
}.

Variable platform : Platform.

(** The function given to [timed]. *)
Definition resolveWithin (self : DidPrismResolver)
  (accountId : option string) (signal : Signal) (w : W)
  : (ResolveError + option string) * W :=
  match fetch platform
          {| req_url := (prismUrl self ++ "/get-did-document")%string;
             req_method := "POST";
             req_headers := [("Content-Type", "application/json");
                             ("Accept", "application/json")];
             req_body_id := accountId |} signal w with
  | (inl e, w1) => (inl e, w1)
  | (inr res, w1) =>
      if negb (validateStatus (res_status res)) then
        (inl (HttpError (res_statusText res) (res_status res)), w1)
      else
        match res_json res with
        | inl e => (inl e, w1)
        | inr response =>
            let w2 := console_log platform (LogResponse response) w1 in
            match response with
            | JNull => (inl TypeError, w2)
            | JObject d => (inr d, w2)
            | JOther => (inr None, w2)
            end
        end
  end.

Definition resolveNoCheck (self : DidPrismResolver) (did : string) (w : W)
  : (ResolveError + option string) * W :=
  let w0 := console_log platform LogUsingPrismResolver w in
  let accountId := accountIdOf did in
  timed platform (option string) (timeout self)
    (resolveWithin self accountId) w0.

End Resolver.

Arguments Platform W Signal : clear implicits.

End PrismResolver.

(** ** More requests for the test double *)

Module Cases.

(** An entryway request in order: the operation lists the key of the
    service, is well signed, and names the handle, the service and the
    signing key that is reserved for the did. *)
Definition listedOp : Operation :=
  {| op_type := "plc_operation";
     rotationKeys := ["did:key:zCaller"; "did:key:zEntryway"];
     verificationMethods := [("atproto", "did:key:zReserved")];
     alsoKnownAs := ["dave.example"];
     services :=
       [("atproto_pds", ("AtprotoPersonalDataServer", "https://pds.test"))];
     prev := None;
     op_sig := "good" |}.

Definition dave : CreateAccountInput :=
  {| in_did := Some "did:plc:dave";
     in_handle := "dave.example";
     in_email := None;
     in_password := None;
     in_inviteCode := None;
     in_recoveryKey := None;
     in_plcOp := Some (WellTyped listedOp) |}.

(** The same with a signature that does not verify. *)
Definition forgedOp : Operation :=
  {| op_type := "plc_operation";
     rotationKeys := ["did:key:zCaller"; "did:key:zEntryway"];
     verificationMethods := [("atproto", "did:key:zReserved")];
     alsoKnownAs := ["dave.example"];
     services :=
       [("atproto_pds", ("AtprotoPersonalDataServer", "https://pds.test"))];
     prev := None;
     op_sig := "forged" |}.

Definition daveForged : CreateAccountInput :=
  {| in_did := Some "did:plc:dave";
     in_handle := "dave.example";
     in_email := None;
     in_password := None;
     in_inviteCode := None;
     in_recoveryKey := None;
     in_plcOp := Some (WellTyped forgedOp) |}.

Definition reservedKey : Keypair := mkKeypair "did:key:zReserved" "escrow".

(** A world in which a key is reserved for Dave's did, or for the signing
    key of his document. *)
Definition reservedUnder (id : string) (broken : list string) : Mock.World :=
  Mock.mkWorld [] [] [] [(id, reservedKey)] [] [] (HttpStatus 200) 0%N
    broken.

Definition entryway : AppContext Mock.World :=
  Mock.ctx Mock.entrywayConfig true.

Definition local : AppContext Mock.World := Mock.ctx Mock.localConfig false.

(** A service that requires invites. *)
Definition inviteOnly : AppContext Mock.World :=
  Mock.ctx {| cfg_entryway_plcRotationKey := None;
              cfg_service_publicUrl := "https://pds.test";
              cfg_invites_required := true;
              cfg_identity_recoveryDidKey := None |} false.

Definition aliceInvited : CreateAccountInput :=
  {| in_did := None;
     in_handle := "alice.example";
     in_email := Some "alice@example.com";
     in_password := Some "hunter2";
     in_inviteCode := Some "invite-1";
     in_recoveryKey := None;
     in_plcOp := None |}.

(** Passwords of Cyrillic letters: each letter is two bytes in UTF-8 and
    one UTF-16 code unit. *)
Fixpoint letters (n : nat) : string :=
  match n with
  | O => EmptyString
  | S n' =>
      String (ascii_of_nat 209) (String (ascii_of_nat 143) (letters n'))
  end.

Definition aliceWithPassword (p : string) : CreateAccountInput :=
  {| in_did := None;
     in_handle := "alice.example";
     in_email := Some "alice@example.com";
     in_password := Some p;
     in_inviteCode := None;
     in_recoveryKey := None;
     in_plcOp := None |}.

Definition start (w : Mock.World) : St Mock.World :=
  {| world := w; trace := [] |}.

(** A library that mints a did of another method. *)
Definition webLib : Imports Mock.World :=
  {| NEW_PASSWORD_MAX_LENGTH := NEW_PASSWORD_MAX_LENGTH Mock.lib;
     isEmailValid := isEmailValid Mock.lib;
     isDisposableEmail := isDisposableEmail Mock.lib;
     baseNormalizeAndValidate := baseNormalizeAndValidate Mock.lib;
     plc_addSignature := plc_addSignature Mock.lib;
     plc_assureValidOp := plc_assureValidOp Mock.lib;
     plc_assureValidSig := plc_assureValidSig Mock.lib;
     plc_formatDidDoc := plc_formatDidDoc Mock.lib;
     plc_lib_createOp := fun i w =>
       (Ok {| res_op := listedOp; res_did := "did:web:example.com" |}, w);
     ensureAtpDocument := ensureAtpDocument Mock.lib;
     Secp256k1Keypair_create := Secp256k1Keypair_create Mock.lib;
     syncEvtDataFromCommit := syncEvtDataFromCommit Mock.lib;
     safeResolveDidDoc := safeResolveDidDoc Mock.lib;
     http_post := http_post Mock.lib;
     timer_elapse := timer_elapse Mock.lib;
     second_rejects_first := second_rejects_first Mock.lib |}.

(** An environment as a list of settings. *)
Definition envOf (l : list (string * string)) : BskyApi.Env :=
  fun k => Mock.assoc k l.

(** A platform for the resolver: the world is the list of requests sent and
    of lines logged; [fetch] answers with a fixed response; [timed] runs its
    function with the signal [tt]. *)
Definition ResolverWorld : Type :=
  (list PrismResolver.Request * list PrismResolver.Log)%type.

Definition platform (answer : PrismResolver.Response)
  : PrismResolver.Platform ResolverWorld unit :=
  {| PrismResolver.fetch := fun rq _ w =>
       (inr answer, (fst w ++ [rq], snd w));
     PrismResolver.console_log := fun l w => (fst w, snd w ++ [l]);
     PrismResolver.timed := fun A _ f w => f tt w |}.

End Cases.

(** ** Stepping through the code *)

Ltac unfold_m :=
  unfold bind, try_catch, invoke, emit, ret, throw, lift, promise_all2,
    setTimeout, axios_post in *.

Ltac inv_pair :=
  match goal with
  | H : (_, _) = (_, _) |- _ => inversion H; clear H; subst
  end.

Ltac units :=
  repeat match goal with
         | u : unit |- _ => destruct u
         end.

Ltac reassoc := repeat rewrite <- app_assoc; simpl.

(** ** General facts *)

Lemma replace_prefix (pat rep s : string) :
  prefix pat s = true ->
  JS.replace pat rep s = (rep ++ JS.drop (String.length pat) s)%string.
Proof.
  intros H. destruct s; cbn [JS.replace]; rewrite H; reflexivity.
Qed.

Lemma prefix_append (p s : string) : prefix p (p ++ s)%string = true.
Proof.
  induction p as [|c p IH]; simpl.
  - destruct s; reflexivity.
  - rewrite IH. destruct (ascii_dec c c); [reflexivity | contradiction].
Qed.

Lemma drop_append (p s : string) :
  JS.drop (String.length p) (p ++ s)%string = s.
Proof.
  induction p as [|c p IH]; simpl; [reflexivity | exact IH].
Qed.

Lemma prefix_split (p s : string) :
  prefix p s = true -> s = (p ++ JS.drop (String.length p) s)%string.
Proof.
  revert s. induction p as [|c p IH]; intros s H; simpl.
  - reflexivity.
  - destruct s as [|c' s]; simpl in H; [discriminate|].
    destruct (ascii_dec c c'); [|discriminate].
    subst. simpl. f_equal. apply IH. exact H.
Qed.

Section Submitter.

Context {W : Type} (lib : Imports W).

(** The submitter in closed form. *)
Lemma submit_spec (did : string) (plcOp : Operation) (signer : Keypair)
  (s : St W) :
  createAndSendPrismTransaction lib did plcOp signer s =
  let utx := unsignedFor did plcOp signer in
  match plc_addSignature lib utx signer (world s) with
  | (Err e, w1) =>
      (Err e,
       {| world := w1;
          trace := trace s ++ [EvAddSignature utx signer (Err e)] |})
  | (Ok sig, w1) =>
      let tx := signedFor utx sig in
      let '(o, w2) := http_post lib ledgerUrl tx w1 in
      match axios_outcome o with
      | Ok _ =>
          (Ok tt,
           {| world := timer_elapse lib 10000%N w2;
              trace := trace s ++ submissionEvents utx signer sig o |})
      | Err e =>
          (Err submissionError,
           {| world := w2;
              trace := trace s ++
                [ EvAddSignature utx signer (Ok sig);
                  EvConsoleLog "Sending transaction to Prism server:"
                    (LogTransaction tx);
                  EvAxiosPost ledgerUrl tx o;
                  EvConsoleLog "" (LogError e) ] |})
      end
  end.
Proof.
  unfold createAndSendPrismTransaction. unfold_m. cbn zeta.
  change (mkUnsigned did plcOp 0 (keypair_did signer))
    with (unsignedFor did plcOp signer).
  destruct (plc_addSignature lib _ signer (world s)) as [[sig|e] w1]; cbn;
    [|reflexivity].
  change (mkTransaction did plcOp 0 (keypair_did signer) sig)
    with (signedFor (unsignedFor did plcOp signer) sig).
  destruct (http_post lib _ _ w1) as [o w2].
  destruct (axios_outcome o); cbn; unfold submissionEvents; reassoc;
    reflexivity.
Qed.

End Submitter.

(** Case analysis on the innermost test or call outcome in [H]; a call to
    the submitter is first replaced by its closed form. *)
Ltac step H :=
  match type of H with
  | context [createAndSendPrismTransaction _ _ _ _ _] =>
      rewrite submit_spec in H; cbn in H
  | context [match ?x with _ => _ end] =>
      lazymatch x with
      | context [match _ with _ => _ end] => fail
      | _ => destruct x eqn:?; simpl in H
      end
  end.

Ltac steps H := repeat (step H; try discriminate).

Section Facts.

Context {W : Type} (lib : Imports W) (ctx : AppContext W).

(** The trace of a [try] block that ran to its end. *)
Lemma provision_try_ok (plan : Plan) (s s' : St W)
  (didDoc : option DidDocument) (creds : Creds) :
  provision_try lib ctx plan s = (Ok (didDoc, creds), s') ->
  exists commit mid,
    ledgerPart ctx plan mid /\
    trace s' = trace s ++ tryEvents lib plan commit mid didDoc creds.
Proof.
  intros H. unfold provision_try in H.
  unfold ledgerPart, tryEvents, accountOptsFor.
  unfold bind at 1 in H. unfold invoke at 1 in H.
  destruct (actorStore_createRepo ctx (plan_did plan) (world s))
    as [[commit|e] w1]; [|discriminate].
  exists commit. unfold bind at 1 in H.
  destruct (plan_plcOp plan) as [plcOp|].
  - unfold try_catch in H. rewrite submit_spec in H. unfold_m. cbn in H.
    steps H; inv_pair; units.
    all: eexists; split; [do 2 eexists; split; [eassumption|reflexivity]|].
    all: destruct (plan_deactivated plan); try discriminate.
    all: reassoc; reflexivity.
  - unfold_m. cbn in H. steps H; inv_pair; units.
    all: exists []; split; [reflexivity|].
    all: destruct (plan_deactivated plan); try discriminate.
    all: reassoc; reflexivity.
Qed.

(** The trace and the result of a successful provisioning. *)
Lemma provision_ok (plan : Plan) (s s' : St W) (out : HandlerOutput) :
  provision lib ctx plan s = (Ok out, s') ->
  exists commit mid didDoc creds,
    ledgerPart ctx plan mid /\
    trace s' = trace s ++ successEvents lib plan commit mid didDoc creds /\
    out = {| encoding := "application/json";
             body := {| body_handle := plan_handle plan;
                        body_did := plan_did plan;
                        body_didDoc := didDoc;
                        body_accessJwt := accessJwt creds;
                        body_refreshJwt := refreshJwt creds |} |}.
Proof.
  intros H. unfold provision in H.
  unfold bind at 1 in H. unfold invoke at 1 in H.
  destruct (actorStore_create ctx _ _ (world s)) as [[[]|e] w1];
    [|discriminate].
  unfold bind at 1 in H. unfold try_catch at 1 in H.
  destruct (provision_try lib ctx plan _) as [[[didDoc creds]|e] s1] eqn:T.
  - apply provision_try_ok in T. destruct T as (commit & mid & L & T).
    unfold ret in H. inv_pair.
    exists commit, mid, didDoc, creds. split; [exact L|]. split; [|reflexivity].
    rewrite T. cbn [trace]. unfold successEvents. reassoc. reflexivity.
  - unfold provision_catch in H. unfold_m. cbn in H. steps H; inv_pair.
Qed.

(** A provisioning whose [try] block threw: the [catch] block runs, and the
    outcome of the destroy decides which error leaves the handler. *)
Lemma provision_caught (plan : Plan) (s s2 : St W) (w1 : W) (e : Error) :
  actorStore_create ctx (plan_did plan) (plan_signingKey plan) (world s)
  = (Ok tt, w1) ->
  provision_try lib ctx plan
    {| world := w1;
       trace := trace s
                ++ [EvActorStoreCreate (plan_did plan) (plan_signingKey plan)
                      (Ok tt)] |}
  = (Err e, s2) ->
  provision lib ctx plan s =
  let '(rd, w3) := actorStore_destroy ctx (plan_did plan) (world s2) in
  (Err match rd with Ok _ => e | Err e' => e' end,
   {| world := w3; trace := trace s2 ++ rollbackEvents plan e rd |}).
Proof.
  intros C T. unfold provision.
  unfold bind at 1. unfold invoke at 1. rewrite C.
  unfold bind at 1. unfold try_catch at 1. rewrite T.
  unfold provision_catch, rollbackEvents. unfold_m. cbn.
  destruct (actorStore_destroy ctx (plan_did plan) (world s2)) as [[[]|e'] w3];
    cbn; reassoc; reflexivity.
Qed.

(** What any provisioning, successful or not, does with the ledger: nothing
    without an operation; otherwise at most one signature by the operator
    key, then at most one POST of the signed transaction, then the wait when
    the POST was accepted. *)
Lemma provision_ledger (plan : Plan) (s s' : St W) (r : Result HandlerOutput) :
  provision lib ctx plan s = (r, s') ->
  exists delta,
    trace s' = trace s ++ delta /\
    match plan_plcOp plan with
    | None => filter is_ledger delta = []
    | Some plcOp =>
        let key := plcRotationKey ctx in
        let utx := unsignedFor (plan_did plan) plcOp key in
        filter is_ledger delta = []
        \/ (exists e, filter is_ledger delta = [EvAddSignature utx key (Err e)])
        \/ (exists sig o,
              filter is_ledger delta =
              EvAddSignature utx key (Ok sig)
              :: EvAxiosPost ledgerUrl (signedFor utx sig) o
              :: (if is_ok (axios_outcome o) then [EvSetTimeout 10000%N]
                  else []))
    end.
Proof.
  intros H. unfold provision, provision_try, provision_catch in H.
  destruct (plan_plcOp plan) as [plcOp|].
  - unfold_m. cbn in H. steps H; inv_pair; units.
    all: eexists; split; [cbn [trace]; reassoc; reflexivity|].
    all: cbn.
    all: first
           [ left; reflexivity
           | right; left; eexists; reflexivity
           | right; right; do 2 eexists;
             match goal with
             | E : axios_outcome _ = _ |- _ => rewrite E
             end; reflexivity ].
  - unfold_m. cbn in H. steps H; inv_pair; units.
    all: eexists; split; [cbn [trace]; reassoc; reflexivity|].
    all: reflexivity.
Qed.

(** The validators call nothing but their own collaborators. *)
Lemma validateInputs_trace (input : CreateAccountInput) (auth : AuthOutput)
  (s s' : St W) (r : Result Plan) :
  validateInputs lib ctx input auth s = (r, s') ->
  exists delta,
    trace s' = trace s ++ delta /\ forallb is_validation delta = true.
Proof.
  intros H.
  unfold validateInputs, validateInputsForEntrywayPds,
    validateInputsForLocalPds, localChecks, localIdentity, formatDidAndPlcOp,
    createOp in H.
  unfold_m. cbn in H. steps H; inv_pair.
  all: first
         [ exists []; split; [symmetry; apply app_nil_r | reflexivity]
         | eexists; split; [cbn [trace]; reassoc; reflexivity | reflexivity] ].
Qed.

(** The handler is the validation followed by the provisioning of its
    plan. *)
Lemma handler_validated (input : CreateAccountInput) (auth : AuthOutput)
  (s s1 : St W) (plan : Plan) :
  validateInputs lib ctx input auth s = (Ok plan, s1) ->
  handler lib ctx input auth s = provision lib ctx plan s1.
Proof.
  intros V. unfold handler, bind. rewrite V. reflexivity.
Qed.

Lemma handler_rejected (input : CreateAccountInput) (auth : AuthOutput)
  (s s1 : St W) (e : Error) :
  validateInputs lib ctx input auth s = (Err e, s1) ->
  handler lib ctx input auth s = (Err e, s1).
Proof.
  intros V. unfold handler, bind. rewrite V. reflexivity.
Qed.

(** Events of the validators are not events of the provisioning. *)
Lemma filter_validation (p : Event -> bool) (l : list Event) :
  (forall ev, is_validation ev = true -> p ev = false) ->
  forallb is_validation l = true -> filter p l = [].
Proof.
  intros P. induction l as [|ev l IH]; simpl; intros H; [reflexivity|].
  apply andb_prop in H. destruct H as [H1 H2].
  rewrite (P ev H1). apply IH. exact H2.
Qed.

Lemma flat_map_validation {A} (f : Event -> list A) (l : list Event) :
  (forall ev, is_validation ev = true -> f ev = []) ->
  forallb is_validation l = true -> flat_map f l = [].
Proof.
  intros P. induction l as [|ev l IH]; simpl; intros H; [reflexivity|].
  apply andb_prop in H. destruct H as [H1 H2].
  rewrite (P ev H1). apply IH. exact H2.
Qed.

Ltac not_validation :=
  first [ apply filter_validation | apply flat_map_validation ];
  [ intros [] E; (discriminate || reflexivity) | assumption ].

Lemma sequencing_validation (l : list Event) :
  forallb is_validation l = true -> filter is_sequencing l = [].
Proof. intros F. not_validation. Qed.

Lemma ledger_validation (l : list Event) :
  forallb is_validation l = true -> filter is_ledger l = [].
Proof. intros F. not_validation. Qed.

Lemma repoCreations_validation (l : list Event) :
  forallb is_validation l = true -> repoCreations l = [].
Proof. intros F. unfold repoCreations. not_validation. Qed.

Lemma accountCreations_validation (l : list Event) :
  forallb is_validation l = true -> accountCreations l = [].
Proof. intros F. unfold accountCreations. not_validation. Qed.

Lemma repoRootUpdates_validation (l : list Event) :
  forallb is_validation l = true -> repoRootUpdates l = [].
Proof. intros F. unfold repoRootUpdates. not_validation. Qed.

(** A successful request: the plan of the validator, and the trace. *)
Lemma handler_ok (input : CreateAccountInput) (auth : AuthOutput) (w : W)
  (out : HandlerOutput) (s' : St W) :
  run (handler lib ctx input auth) w = (Ok out, s') ->
  exists plan s1 commit mid didDoc creds,
    run (validateInputs lib ctx input auth) w = (Ok plan, s1) /\
    forallb is_validation (trace s1) = true /\
    ledgerPart ctx plan mid /\
    trace s' = trace s1 ++ successEvents lib plan commit mid didDoc creds.
Proof.
  unfold run. intros H.
  destruct (validateInputs lib ctx input auth {| world := w; trace := [] |})
    as [[plan|e] s1] eqn:V.
  - rewrite (handler_validated _ _ _ _ _ V) in H.
    destruct (validateInputs_trace _ _ _ _ _ V) as (delta & D & F).
    destruct (provision_ok _ _ _ _ H)
      as (commit & mid & didDoc & creds & L & T & _).
    exists plan, s1, commit, mid, didDoc, creds.
    simpl in D. subst delta. repeat split; assumption.
  - rewrite (handler_rejected _ _ _ _ _ V) in H. discriminate.
Qed.

(** What any request, accepted or not, does with the ledger. *)
Lemma handler_ledger (input : CreateAccountInput) (auth : AuthOutput) (w : W) :
  let tr := trace (snd (run (handler lib ctx input auth) w)) in
  filter is_ledger tr = []
  \/ exists plan s1 plcOp,
       run (validateInputs lib ctx input auth) w = (Ok plan, s1) /\
       plan_plcOp plan = Some plcOp /\
       let key := plcRotationKey ctx in
       let utx := unsignedFor (plan_did plan) plcOp key in
       (exists e, filter is_ledger tr = [EvAddSignature utx key (Err e)])
       \/ (exists sig o,
             filter is_ledger tr =
             EvAddSignature utx key (Ok sig)
             :: EvAxiosPost ledgerUrl (signedFor utx sig) o
             :: (if is_ok (axios_outcome o) then [EvSetTimeout 10000%N]
                 else [])).
Proof.
  unfold run. cbv zeta.
  destruct (validateInputs lib ctx input auth {| world := w; trace := [] |})
    as [[plan|e] s1] eqn:V;
    destruct (validateInputs_trace _ _ _ _ _ V) as (vd & D & F);
    simpl in D; subst vd.
  - rewrite (handler_validated _ _ _ _ _ V).
    destruct (provision lib ctx plan s1) as [r s'] eqn:P.
    destruct (provision_ledger _ _ _ _ P) as (delta & T & L).
    cbn [snd]. rewrite T, filter_app, (ledger_validation _ F). cbn [app].
    destruct (plan_plcOp plan) as [plcOp|] eqn:O; [|left; exact L].
    destruct L as [L|L]; [left; exact L|].
    right. exists plan, s1, plcOp. split; [reflexivity|]. split; [exact O|].
    exact L.
  - rewrite (handler_rejected _ _ _ _ _ V). left. cbn [snd].
    apply ledger_validation. exact F.
Qed.

End Facts.

(** ** The calls behind a successful request *)

Section Calls.

Context {W : Type} (lib : Imports W) (ctx : AppContext W).

(** The calls behind a successful provisioning: each one is made on the world
    the call before it left, and the last one leaves the final world. *)
Lemma provision_ok_calls (plan : Plan) (s s' : St W) (out : HandlerOutput) :
  provision lib ctx plan s = (Ok out, s') ->
  exists commit mid didDoc creds w1 w2 w3 w4 w5 w6 w7,
    actorStore_create ctx (plan_did plan) (plan_signingKey plan) (world s)
    = (Ok tt, w1)
    /\ actorStore_createRepo ctx (plan_did plan) w1 = (Ok commit, w2)
    /\ match plan_plcOp plan with
       | Some plcOp =>
           exists sub,
             run (createAndSendPrismTransaction lib (plan_did plan) plcOp
                    (plcRotationKey ctx)) w2 = (Ok tt, sub)
             /\ w3 = world sub
       | None => w3 = w2
       end
    /\ safeResolveDidDoc lib (plan_did plan) true w3 = (Ok didDoc, w4)
    /\ accountManager_createAccountAndSession ctx
         {| acc_did := plan_did plan;
            acc_handle := plan_handle plan;
            acc_email := plan_email plan;
            acc_password := plan_password plan;
            acc_repoCid := cid commit;
            acc_repoRev := rev commit;
            acc_inviteCode := plan_inviteCode plan;
            acc_deactivated := plan_deactivated plan |} w4
       = (Ok creds, w5)
    /\ (if plan_deactivated plan then w6 = w5
        else
          exists wa wb wc,
            sequencer_sequenceIdentityEvt ctx (plan_did plan)
              (plan_handle plan) w5 = (Ok tt, wa)
            /\ sequencer_sequenceAccountEvt ctx (plan_did plan) Active wa
               = (Ok tt, wb)
            /\ sequencer_sequenceCommit ctx (plan_did plan) commit wb
               = (Ok tt, wc)
            /\ sequencer_sequenceSyncEvt ctx (plan_did plan)
                 (syncEvtDataFromCommit lib commit) wc = (Ok tt, w6))
    /\ accountManager_updateRepoRoot ctx (plan_did plan) (cid commit)
         (rev commit) w6 = (Ok tt, w7)
    /\ actorStore_clearReservedKeypair ctx
         (keypair_did (plan_signingKey plan)) (plan_did plan) w7
       = (Ok tt, world s')
    /\ ledgerPart ctx plan mid
    /\ trace s' = trace s ++ successEvents lib plan commit mid didDoc creds
    /\ out = {| encoding := "application/json";
                body := {| body_handle := plan_handle plan;
                           body_did := plan_did plan;
                           body_didDoc := didDoc;
                           body_accessJwt := accessJwt creds;
                           body_refreshJwt := refreshJwt creds |} |}.
Proof.
  intros H. unfold provision, provision_try, provision_catch in H.
  unfold ledgerPart, successEvents, tryEvents, accountOptsFor.
  destruct (plan_plcOp plan) as [plcOp|];
    destruct (plan_deactivated plan) eqn:D.
  all: unfold_m; cbn in H; steps H; inv_pair; units.
  all: cbn [world trace].
  all: do 11 eexists.
  all: split; [reflexivity|].
  all: split; [eassumption|].
  all: split;
    [ first
        [ reflexivity
        | eexists; split;
          [ unfold run; rewrite submit_spec; cbn;
            repeat match goal with
                   | E : ?l = _ |- context [?l] => rewrite E; cbn
                   end;
            reflexivity
          | reflexivity ] ] |].
  all: cbn [world].
  all: split; [eassumption|].
  all: split; [eassumption|].
  all: split;
    [ first [ reflexivity
            | do 3 eexists; repeat split; eassumption ] |].
  all: split; [eassumption|].
  all: split; [eassumption|].
  all: split;
    [ first [ reflexivity
            | do 2 eexists; split; [eassumption | reflexivity] ] |].
  all: split; [reassoc; reflexivity | reflexivity].
Qed.


(** The same for a whole request: the chain starts on the world the
    validator left. *)
Lemma handler_ok_calls (input : CreateAccountInput) (auth : AuthOutput) (w : W)
  (out : HandlerOutput) (s' : St W) :
  run (handler lib ctx input auth) w = (Ok out, s') ->
  exists plan s1,
    run (validateInputs lib ctx input auth) w = (Ok plan, s1)
    /\ forallb is_validation (trace s1) = true
    /\ provision lib ctx plan s1 = (Ok out, s').
Proof.
  unfold run. intros H.
  destruct (validateInputs lib ctx input auth {| world := w; trace := [] |})
    as [[plan|e] s1] eqn:V.
  - rewrite (handler_validated _ _ _ _ _ _ _ V) in H.
    destruct (validateInputs_trace _ _ _ _ _ _ _ V) as (delta & D & F).
    simpl in D. subst delta. exists plan, s1. repeat split; assumption.
  - rewrite (handler_rejected _ _ _ _ _ _ _ V) in H. discriminate.
Qed.

End Calls.

(** ** The order of the sequencing calls *)

(** C4. In a successful request every call was made on the world the call
    before it left, from the world the validator left to the final world:
    create store, create repository, submission to the ledger (when the plan
    has an operation), resolution, creation of the account, sequencing,
    update of the repo root, clearing of the reserved key. When the plan is
    not deactivated the sequencing is exactly four calls to the sequencer,
    between the creation of the account and the update of the repo root, in
    the order identity, account (with status Active), commit, sync, all
    about the did of the plan and the commit that the repository creation
    returned. When the plan is deactivated no call to the sequencer is made:
    the repo root is updated on the world the creation of the account
    left. The trace holds these calls to the sequencer and no other. *)
Theorem sequencing_order :
  forall (W : Type) (lib : Imports W) (ctx : AppContext W)
         (input : CreateAccountInput) (auth : AuthOutput) (w : W)
         (out : HandlerOutput) (s' : St W),
    run (handler lib ctx input auth) w = (Ok out, s') ->
    exists plan s1 commit didDoc creds w1 w2 w3 w4 w5 w6 w7,
      run (validateInputs lib ctx input auth) w = (Ok plan, s1)
      /\ actorStore_create ctx (plan_did plan) (plan_signingKey plan)
           (world s1) = (Ok tt, w1)
      /\ actorStore_createRepo ctx (plan_did plan) w1 = (Ok commit, w2)
      /\ match plan_plcOp plan with
         | Some plcOp =>
             exists sub,
               run (createAndSendPrismTransaction lib (plan_did plan) plcOp
                      (plcRotationKey ctx)) w2 = (Ok tt, sub)
               /\ w3 = world sub
         | None => w3 = w2
         end
      /\ safeResolveDidDoc lib (plan_did plan) true w3 = (Ok didDoc, w4)
      /\ accountManager_createAccountAndSession ctx
           {| acc_did := plan_did plan;
              acc_handle := plan_handle plan;
              acc_email := plan_email plan;
              acc_password := plan_password plan;
              acc_repoCid := cid commit;
              acc_repoRev := rev commit;
              acc_inviteCode := plan_inviteCode plan;
              acc_deactivated := plan_deactivated plan |} w4
         = (Ok creds, w5)
      /\ (if plan_deactivated plan then w6 = w5
          else
            exists wa wb wc,
              sequencer_sequenceIdentityEvt ctx (plan_did plan)
                (plan_handle plan) w5 = (Ok tt, wa)
              /\ sequencer_sequenceAccountEvt ctx (plan_did plan) Active wa
                 = (Ok tt, wb)
              /\ sequencer_sequenceCommit ctx (plan_did plan) commit wb
                 = (Ok tt, wc)
              /\ sequencer_sequenceSyncEvt ctx (plan_did plan)
                   (syncEvtDataFromCommit lib commit) wc = (Ok tt, w6))
      /\ accountManager_updateRepoRoot ctx (plan_did plan) (cid commit)
           (rev commit) w6 = (Ok tt, w7)
      /\ actorStore_clearReservedKeypair ctx
           (keypair_did (plan_signingKey plan)) (plan_did plan) w7
         = (Ok tt, world s')
      /\ repoCreations (trace s') = [(plan_did plan, Ok commit)]
      /\ filter is_sequencing (trace s')
         = if plan_deactivated plan then []
           else [ EvSequenceIdentityEvt (plan_did plan) (plan_handle plan)
                    (Ok tt);
                  EvSequenceAccountEvt (plan_did plan) Active (Ok tt);
                  EvSequenceCommit (plan_did plan) commit (Ok tt);
                  EvSequenceSyncEvt (plan_did plan)
                    (syncEvtDataFromCommit lib commit) (Ok tt) ].
Proof.
  intros W lib ctx input auth w out s' H.
  destruct (handler_ok_calls _ _ _ _ _ _ _ H) as (plan & s1 & V & F & P).
  destruct (provision_ok_calls _ _ _ _ _ _ P)
    as (commit & mid & didDoc & creds & w1 & w2 & w3 & w4 & w5 & w6 & w7
        & C1 & C2 & C3 & C4 & C5 & C6 & C7 & C8 & L & T & O).
  exists plan, s1, commit, didDoc, creds, w1, w2, w3, w4, w5, w6, w7.
  do 9 (split; [assumption|]).
  rewrite T. unfold repoCreations at 1. rewrite flat_map_app, filter_app.
  fold (repoCreations (trace s1)).
  rewrite (repoCreations_validation _ F), (sequencing_validation _ F).
  unfold successEvents, tryEvents, ledgerPart in *.
  destruct (plan_plcOp plan) as [plcOp|].
  - destruct L as (sig & o & _ & ->).
    destruct (plan_deactivated plan); split; reflexivity.
  - subst mid. destruct (plan_deactivated plan); split; reflexivity.
Qed.

(** Scenario A on the test double: the four calls, in order, and what they
    left on the firehose of the double (the last call first). *)
Lemma sequencing_order_witness :
  (exists plan s1 commit didDoc creds w1 w2 w3 w4 w5 w6 w7,
      run (validateInputs Mock.lib Cases.local Mock.alice Mock.anonymous)
        (Mock.empty (HttpStatus 200) [])
      = (Ok plan, s1)
      /\ actorStore_create Cases.local (plan_did plan) (plan_signingKey plan)
           (world s1) = (Ok tt, w1)
      /\ actorStore_createRepo Cases.local (plan_did plan) w1
         = (Ok commit, w2)
      /\ match plan_plcOp plan with
         | Some plcOp =>
             exists sub,
               run (createAndSendPrismTransaction Mock.lib (plan_did plan)
                      plcOp (plcRotationKey Cases.local)) w2
               = (Ok tt, sub)
               /\ w3 = world sub
         | None => w3 = w2
         end
      /\ safeResolveDidDoc Mock.lib (plan_did plan) true w3 = (Ok didDoc, w4)
      /\ accountManager_createAccountAndSession Cases.local
           {| acc_did := plan_did plan;
              acc_handle := plan_handle plan;
              acc_email := plan_email plan;
              acc_password := plan_password plan;
              acc_repoCid := cid commit;
              acc_repoRev := rev commit;
              acc_inviteCode := plan_inviteCode plan;
              acc_deactivated := plan_deactivated plan |} w4
         = (Ok creds, w5)
      /\ (if plan_deactivated plan then w6 = w5
          else
            exists wa wb wc,
              sequencer_sequenceIdentityEvt Cases.local (plan_did plan)
                (plan_handle plan) w5 = (Ok tt, wa)
              /\ sequencer_sequenceAccountEvt Cases.local (plan_did plan)
                   Active wa
                 = (Ok tt, wb)
              /\ sequencer_sequenceCommit Cases.local (plan_did plan) commit wb
                 = (Ok tt, wc)
              /\ sequencer_sequenceSyncEvt Cases.local (plan_did plan)
                   (syncEvtDataFromCommit Mock.lib commit) wc = (Ok tt, w6))
      /\ accountManager_updateRepoRoot Cases.local (plan_did plan) (cid commit)
           (rev commit) w6 = (Ok tt, w7)
      /\ actorStore_clearReservedKeypair Cases.local
           (keypair_did (plan_signingKey plan)) (plan_did plan) w7
         = (Ok tt, world (snd (Mock.signup (HttpStatus 200) [])))
      /\ repoCreations (trace (snd (Mock.signup (HttpStatus 200) [])))
         = [(plan_did plan, Ok commit)]
      /\ filter is_sequencing (trace (snd (Mock.signup (HttpStatus 200) [])))
         = if plan_deactivated plan then []
           else [ EvSequenceIdentityEvt (plan_did plan) (plan_handle plan)
                    (Ok tt);
                  EvSequenceAccountEvt (plan_did plan) Active (Ok tt);
                  EvSequenceCommit (plan_did plan) commit (Ok tt);
                  EvSequenceSyncEvt (plan_did plan)
                    (syncEvtDataFromCommit Mock.lib commit) (Ok tt) ])
  /\ Mock.firehose (world (snd (Mock.signup (HttpStatus 200) [])))
     = [ "sync did:prism:alice.example";
         "commit did:prism:alice.example";
         "account did:prism:alice.example";
         "identity did:prism:alice.example" ].
Proof.
  split; [|vm_compute; reflexivity].
  eapply sequencing_order. vm_compute. reflexivity.
Defined.

(** Scenario D on the test double: Carol's signup with her own did succeeds,
    deactivated, and nothing is sequenced. *)
Example no_sequencing_when_deactivated :
  is_ok (fst (run (handler Mock.lib (Mock.ctx Mock.localConfig false)
                     Mock.carol Mock.asCarol)
                (Mock.empty (HttpStatus 200) []))) = true
  /\ map acc_deactivated
       (Mock.accounts
          (world (snd (run (handler Mock.lib (Mock.ctx Mock.localConfig false)
                              Mock.carol Mock.asCarol)
                         (Mock.empty (HttpStatus 200) [])))))
     = [true]
  /\ filter is_sequencing
       (trace (snd (run (handler Mock.lib (Mock.ctx Mock.localConfig false)
                           Mock.carol Mock.asCarol)
                      (Mock.empty (HttpStatus 200) []))))
     = [].
Proof. vm_compute. repeat split; reflexivity. Qed.

(** ** The commit in the account record and in the repo root *)

(** C8. In a successful request every call was made on the world the call
    before it left, from the world the validator left to the final world.
    Among them: the repository creation, which returned a commit; the
    creation of the account, called with [repoCid] and [repoRev] the [cid]
    and [rev] of that commit; and the update of the repo root, called with
    the did of the plan and that same [cid] and [rev]. Each of the three is
    made once. *)
Theorem account_and_root_match_commit :
  forall (W : Type) (lib : Imports W) (ctx : AppContext W)
         (input : CreateAccountInput) (auth : AuthOutput) (w : W)
         (out : HandlerOutput) (s' : St W),
    run (handler lib ctx input auth) w = (Ok out, s') ->
    exists plan s1 commit didDoc creds w1 w2 w3 w4 w5 w6 w7,
      run (validateInputs lib ctx input auth) w = (Ok plan, s1)
      /\ actorStore_create ctx (plan_did plan) (plan_signingKey plan)
           (world s1) = (Ok tt, w1)
      /\ actorStore_createRepo ctx (plan_did plan) w1 = (Ok commit, w2)
      /\ match plan_plcOp plan with
         | Some plcOp =>
             exists sub,
               run (createAndSendPrismTransaction lib (plan_did plan) plcOp
                      (plcRotationKey ctx)) w2 = (Ok tt, sub)
               /\ w3 = world sub
         | None => w3 = w2
         end
      /\ safeResolveDidDoc lib (plan_did plan) true w3 = (Ok didDoc, w4)
      /\ accountManager_createAccountAndSession ctx
           {| acc_did := plan_did plan;
              acc_handle := plan_handle plan;
              acc_email := plan_email plan;
              acc_password := plan_password plan;
              acc_repoCid := cid commit;
              acc_repoRev := rev commit;
              acc_inviteCode := plan_inviteCode plan;
              acc_deactivated := plan_deactivated plan |} w4
         = (Ok creds, w5)
      /\ (if plan_deactivated plan then w6 = w5
          else
            exists wa wb wc,
              sequencer_sequenceIdentityEvt ctx (plan_did plan)
                (plan_handle plan) w5 = (Ok tt, wa)
              /\ sequencer_sequenceAccountEvt ctx (plan_did plan) Active wa
                 = (Ok tt, wb)
              /\ sequencer_sequenceCommit ctx (plan_did plan) commit wb
                 = (Ok tt, wc)
              /\ sequencer_sequenceSyncEvt ctx (plan_did plan)
                   (syncEvtDataFromCommit lib commit) wc = (Ok tt, w6))
      /\ accountManager_updateRepoRoot ctx (plan_did plan) (cid commit)
           (rev commit) w6 = (Ok tt, w7)
      /\ actorStore_clearReservedKeypair ctx
           (keypair_did (plan_signingKey plan)) (plan_did plan) w7
         = (Ok tt, world s')
      /\ repoCreations (trace s') = [(plan_did plan, Ok commit)]
      /\ accountCreations (trace s')
         = [({| acc_did := plan_did plan;
                acc_handle := plan_handle plan;
                acc_email := plan_email plan;
                acc_password := plan_password plan;
                acc_repoCid := cid commit;
                acc_repoRev := rev commit;
                acc_inviteCode := plan_inviteCode plan;
                acc_deactivated := plan_deactivated plan |}, Ok creds)]
      /\ repoRootUpdates (trace s')
         = [(plan_did plan, cid commit, rev commit, Ok tt)].
Proof.
  intros W lib ctx input auth w out s' H.
  destruct (handler_ok_calls _ _ _ _ _ _ _ H) as (plan & s1 & V & F & P).
  destruct (provision_ok_calls _ _ _ _ _ _ P)
    as (commit & mid & didDoc & creds & w1 & w2 & w3 & w4 & w5 & w6 & w7
        & C1 & C2 & C3 & C4 & C5 & C6 & C7 & C8 & L & T & O).
  exists plan, s1, commit, didDoc, creds, w1, w2, w3, w4, w5, w6, w7.
  do 9 (split; [assumption|]).
  rewrite T. unfold repoCreations, accountCreations, repoRootUpdates.
  rewrite !flat_map_app.
  fold (repoCreations (trace s1)) (accountCreations (trace s1))
    (repoRootUpdates (trace s1)).
  rewrite (repoCreations_validation _ F), (accountCreations_validation _ F),
    (repoRootUpdates_validation _ F).
  unfold successEvents, tryEvents, ledgerPart, accountOptsFor in *.
  destruct (plan_plcOp plan) as [plcOp|].
  - destruct L as (sig & o & _ & ->).
    destruct (plan_deactivated plan); repeat split; reflexivity.
  - subst mid. destruct (plan_deactivated plan); repeat split; reflexivity.
Qed.

(** Scenario A on the test double: the commit of the new repository is the
    one in the account that the double stored and in the repo root that it
    recorded. *)
Lemma account_and_root_match_commit_witness :
  (exists plan s1 commit didDoc creds w1 w2 w3 w4 w5 w6 w7,
      run (validateInputs Mock.lib Cases.local Mock.alice Mock.anonymous)
        (Mock.empty (HttpStatus 200) [])
      = (Ok plan, s1)
      /\ actorStore_create Cases.local (plan_did plan) (plan_signingKey plan)
           (world s1) = (Ok tt, w1)
      /\ actorStore_createRepo Cases.local (plan_did plan) w1
         = (Ok commit, w2)
      /\ match plan_plcOp plan with
         | Some plcOp =>
             exists sub,
               run (createAndSendPrismTransaction Mock.lib (plan_did plan)
                      plcOp (plcRotationKey Cases.local)) w2
               = (Ok tt, sub)
               /\ w3 = world sub
         | None => w3 = w2
         end
      /\ safeResolveDidDoc Mock.lib (plan_did plan) true w3 = (Ok didDoc, w4)
      /\ accountManager_createAccountAndSession Cases.local
           {| acc_did := plan_did plan;
              acc_handle := plan_handle plan;
              acc_email := plan_email plan;
              acc_password := plan_password plan;
              acc_repoCid := cid commit;
              acc_repoRev := rev commit;
              acc_inviteCode := plan_inviteCode plan;
              acc_deactivated := plan_deactivated plan |} w4
         = (Ok creds, w5)
      /\ (if plan_deactivated plan then w6 = w5
          else
            exists wa wb wc,
              sequencer_sequenceIdentityEvt Cases.local (plan_did plan)
                (plan_handle plan) w5 = (Ok tt, wa)
              /\ sequencer_sequenceAccountEvt Cases.local (plan_did plan)
                   Active wa
                 = (Ok tt, wb)
              /\ sequencer_sequenceCommit Cases.local (plan_did plan) commit wb
                 = (Ok tt, wc)
              /\ sequencer_sequenceSyncEvt Cases.local (plan_did plan)
                   (syncEvtDataFromCommit Mock.lib commit) wc = (Ok tt, w6))
      /\ accountManager_updateRepoRoot Cases.local (plan_did plan) (cid commit)
           (rev commit) w6 = (Ok tt, w7)
      /\ actorStore_clearReservedKeypair Cases.local
           (keypair_did (plan_signingKey plan)) (plan_did plan) w7
         = (Ok tt, world (snd (Mock.signup (HttpStatus 200) [])))
      /\ repoCreations (trace (snd (Mock.signup (HttpStatus 200) [])))
         = [(plan_did plan, Ok commit)]
      /\ accountCreations (trace (snd (Mock.signup (HttpStatus 200) [])))
         = [({| acc_did := plan_did plan;
                acc_handle := plan_handle plan;
                acc_email := plan_email plan;
                acc_password := plan_password plan;
                acc_repoCid := cid commit;
                acc_repoRev := rev commit;
                acc_inviteCode := plan_inviteCode plan;
                acc_deactivated := plan_deactivated plan |}, Ok creds)]
      /\ repoRootUpdates (trace (snd (Mock.signup (HttpStatus 200) [])))
         = [(plan_did plan, cid commit, rev commit, Ok tt)])
  /\ Mock.accounts (world (snd (Mock.signup (HttpStatus 200) [])))
     = [ {| acc_did := "did:prism:alice.example";
            acc_handle := "alice.example";
            acc_email := Some "alice@example.com";
            acc_password := Some "hunter2";
            acc_repoCid := "cid-of-did:prism:alice.example";
            acc_repoRev := "rev-0";
            acc_inviteCode := None;
            acc_deactivated := false |} ]
  /\ Mock.roots (world (snd (Mock.signup (HttpStatus 200) [])))
     = [("did:prism:alice.example",
         ("cid-of-did:prism:alice.example", "rev-0"))].
Proof.
  split; [|vm_compute; split; reflexivity].
  eapply account_and_root_match_commit. vm_compute. reflexivity.
Defined.

(** ** The transaction sent to the ledger *)



(** ** The wait after the submission *)

Lemma accepted_iff_2xx (o : HttpOutcome) :
  is_ok (axios_outcome o) = true <->
  exists c, o = HttpStatus c /\ 200 <= c < 300.
Proof.
  unfold axios_outcome, validateStatus. split.
  - destruct o as [c|]; [|discriminate].
    destruct (Nat.leb 200 c) eqn:L, (Nat.ltb c 300) eqn:U; try discriminate.
    intros _. exists c. split; [reflexivity|].
    apply Nat.leb_le in L. apply Nat.ltb_lt in U. lia.
  - intros (c & -> & L & U).
    apply Nat.leb_le in L. apply Nat.ltb_lt in U. rewrite L, U. reflexivity.
Qed.

(** C7, as the code has it. Once the transaction is signed, the submitter
    posts it once. When the answer has a status from 200 to 299 it then
    waits, always for 10000 milliseconds, and returns; on any other status
    and when no answer arrives it throws, without waiting and without
    posting again. The delay is the constant of the code: nothing in the
    configuration or the arguments changes it. *)
Theorem settle_delay_is_ten_seconds :
  forall (W : Type) (lib : Imports W) (did : string) (plcOp : Operation)
         (signer : Keypair) (s : St W) (sig : string) (w1 w2 : W)
         (o : HttpOutcome),
    let utx := unsignedFor did plcOp signer in
    let tx := signedFor utx sig in
    plc_addSignature lib utx signer (world s) = (Ok sig, w1) ->
    http_post lib ledgerUrl tx w1 = (o, w2) ->
    (is_ok (axios_outcome o) = true <->
     exists c, o = HttpStatus c /\ 200 <= c < 300) /\
    createAndSendPrismTransaction lib did plcOp signer s =
    match axios_outcome o with
    | Ok _ =>
        (Ok tt,
         {| world := timer_elapse lib 10000%N w2;
            trace := trace s ++
              [ EvAddSignature utx signer (Ok sig);
                EvConsoleLog "Sending transaction to Prism server:"
                  (LogTransaction tx);
                EvAxiosPost ledgerUrl tx o;
                EvConsoleLog "lets wait for 10 seconds" LogNothing;
                EvSetTimeout 10000%N ] |})
    | Err e =>
        (Err (JsError
                "Failed to send transaction to Prism server :-( ORBSTACK??"),
         {| world := w2;
            trace := trace s ++
              [ EvAddSignature utx signer (Ok sig);
                EvConsoleLog "Sending transaction to Prism server:"
                  (LogTransaction tx);
                EvAxiosPost ledgerUrl tx o;
                EvConsoleLog "" (LogError e) ] |})
    end.
Proof.
  intros W lib did plcOp signer s sig w1 w2 o utx tx S P.
  split; [apply accepted_iff_2xx|].
  rewrite submit_spec. cbv zeta. fold utx. rewrite S. fold tx. rewrite P.
  reflexivity.
Qed.

(** On the test double: a ledger answering 200 is waited for, one answering
    500 is not. *)
Lemma settle_delay_is_ten_seconds_witness :
  (is_ok (axios_outcome (HttpStatus 500)) = true <->
   exists c, HttpStatus 500 = HttpStatus c /\ 200 <= c < 300) /\
  createAndSendPrismTransaction Mock.lib "did:prism:alice.example"
    (tx_operation Mock.aliceTransaction)
    (plcRotationKey (Mock.ctx Mock.localConfig false))
    {| world := Mock.empty (HttpStatus 500) []; trace := [] |}
  = (Err (JsError
            "Failed to send transaction to Prism server :-( ORBSTACK??"),
     {| world := Mock.empty (HttpStatus 500) [];
        trace :=
          [ EvAddSignature
              (unsignedFor "did:prism:alice.example"
                 (tx_operation Mock.aliceTransaction)
                 (plcRotationKey (Mock.ctx Mock.localConfig false)))
              (plcRotationKey (Mock.ctx Mock.localConfig false))
              (Ok "signed-by:did:key:zOperator");
            EvConsoleLog "Sending transaction to Prism server:"
              (LogTransaction Mock.aliceTransaction);
            EvAxiosPost ledgerUrl Mock.aliceTransaction (HttpStatus 500);
            EvConsoleLog "" (LogError (AxiosError (Some 500))) ] |}).
Proof.
  apply (settle_delay_is_ten_seconds Mock.World Mock.lib
           "did:prism:alice.example" (tx_operation Mock.aliceTransaction)
           (plcRotationKey (Mock.ctx Mock.localConfig false))
           {| world := Mock.empty (HttpStatus 500) []; trace := [] |}
           "signed-by:did:key:zOperator"
           (Mock.empty (HttpStatus 500) []) (Mock.empty (HttpStatus 500) [])
           (HttpStatus 500)); reflexivity.
Defined.

(** The delay is not configurable: Alice's signup waits 10000 milliseconds,
    and no library, context, configuration, input or world makes any
    request wait for anything else; a zero delay, in particular, cannot be
    had. *)
Lemma settle_delay_not_configurable :
  filter is_timeout (trace (snd (Mock.signup (HttpStatus 200) [])))
  = [EvSetTimeout 10000%N]
  /\ (forall (W : Type) (lib : Imports W) (ctx : AppContext W)
             (input : CreateAccountInput) (auth : AuthOutput) (w : W)
             (ms : N),
         In (EvSetTimeout ms)
            (trace (snd (run (handler lib ctx input auth) w))) ->
         ms = 10000%N).
Proof.
  split; [vm_compute; reflexivity|].
  intros W lib ctx input auth w ms H.
  assert (F : In (EvSetTimeout ms)
                (filter is_ledger
                   (trace (snd (run (handler lib ctx input auth) w)))))
    by (apply filter_In; split; [exact H | reflexivity]).
  destruct (handler_ledger lib ctx input auth w)
    as [E | (plan & s1 & plcOp & V & O & [(e & E) | (sig & o' & E)])];
    rewrite E in F.
  - destruct F.
  - destruct F as [F | []]. discriminate.
  - destruct F as [F | [F | F]]; try discriminate.
    destruct (is_ok (axios_outcome o')); [|destruct F].
    destruct F as [F | []]. injection F as <-. reflexivity.
Qed.

(** ** Rollback *)

Lemma mock_destroy_removes (config : Config) (entryway : bool) (d : string)
  (w w' : Mock.World) :
  actorStore_destroy (Mock.ctx config entryway) d w = (Ok tt, w') ->
  Mock.has_repo d w' = false.
Proof.
  cbn. unfold Mock.op. destruct (Mock.has (Mock.failing w) "destroy");
    [discriminate|].
  intros H. inv_pair. unfold Mock.has_repo, Mock.has. cbn.
  induction (Mock.stores w) as [|d' l IH]; [reflexivity|].
  cbn. destruct (d =? d')%string eqn:E; cbn; [exact IH|].
  rewrite E. exact IH.
Qed.

(** C1, as the code has it. Take a request that passed validation, whose
    actor store and repository were created, and in which a later step of
    the [try] block threw [e]. The handler then calls the destroy of the
    actor store for the did of the plan. When that call completes, the
    handler throws [e] itself, and no repository for the did is left: by
    the first hypothesis, a destroy that completes is taken to do what its
    name says, for whatever notion [has_repo] of a repository being there.
    Nothing is said here of a destroy that throws. *)
Theorem rollback_when_destroy_completes :
  forall (W : Type) (lib : Imports W) (ctx : AppContext W)
         (has_repo : string -> W -> bool)
         (input : CreateAccountInput) (auth : AuthOutput) (s0 s : St W)
         (plan : Plan) (w1 w1' : W) (commit : CommitData) (e : Error)
         (s2 : St W) (w3 : W),
    (forall d w w',
        actorStore_destroy ctx d w = (Ok tt, w') -> has_repo d w' = false) ->
    validateInputs lib ctx input auth s0 = (Ok plan, s) ->
    actorStore_create ctx (plan_did plan) (plan_signingKey plan) (world s)
    = (Ok tt, w1) ->
    actorStore_createRepo ctx (plan_did plan) w1 = (Ok commit, w1') ->
    provision_try lib ctx plan
      {| world := w1;
         trace := trace s
                  ++ [EvActorStoreCreate (plan_did plan)
                        (plan_signingKey plan) (Ok tt)] |}
    = (Err e, s2) ->
    actorStore_destroy ctx (plan_did plan) (world s2) = (Ok tt, w3) ->
    handler lib ctx input auth s0
    = (Err e,
       {| world := w3;
          trace := trace s2
                   ++ [ EvConsoleLog "destroying actor because of error"
                          (LogError e);
                        EvDestroy (plan_did plan) (Ok tt) ] |})
    /\ has_repo (plan_did plan) w3 = false.
Proof.
  intros W lib ctx has_repo input auth s0 s plan w1 w1' commit e s2 w3
    gone V C R T D.
  split; [|exact (gone _ _ _ D)].
  rewrite (handler_validated _ _ _ _ _ _ _ V).
  rewrite (provision_caught _ _ _ _ _ _ _ C T). rewrite D. reflexivity.
Qed.

(** Scenario E on the test double: the ledger answers 500, the repository
    is destroyed and the error of the submission reaches the caller. *)
Lemma rollback_when_destroy_completes_witness :
  fst (Mock.signup (HttpStatus 500) []) = Err submissionError
  /\ destroys (trace (snd (Mock.signup (HttpStatus 500) [])))
     = [("did:prism:alice.example", Ok tt)]
  /\ Mock.has_repo "did:prism:alice.example"
       (world (snd (Mock.signup (HttpStatus 500) []))) = false.
Proof.
  edestruct (rollback_when_destroy_completes Mock.World Mock.lib
               (Mock.ctx Mock.localConfig false) Mock.has_repo Mock.alice
               Mock.anonymous
               {| world := Mock.empty (HttpStatus 500) []; trace := [] |})
    as [H G].
  - apply mock_destroy_removes.
  - vm_compute; reflexivity.
  - vm_compute; reflexivity.
  - vm_compute; reflexivity.
  - vm_compute; reflexivity.
  - vm_compute; reflexivity.
  - unfold Mock.signup, run. rewrite H. cbn [fst snd world trace].
    split; [reflexivity|]. split; [reflexivity | exact G].
Defined.

(** The claim fails when the destroy throws: with a ledger answering 500 and
    a destroy that throws, the repository was created, the caller gets the
    error of the destroy and not the one of the submission, and the
    repository is still there. *)
Lemma rollback_incomplete_when_destroy_throws :
  repoCreations (trace (snd (Mock.signup (HttpStatus 500) ["destroy"])))
  = [("did:prism:alice.example",
      Ok {| cid := "cid-of-did:prism:alice.example";
            rev := "rev-0";
            blocks := "did:prism:alice.example" |})]
  /\ destroys (trace (snd (Mock.signup (HttpStatus 500) ["destroy"])))
     = [("did:prism:alice.example", Err (ExternalError "destroy"))]
  /\ fst (Mock.signup (HttpStatus 500) ["destroy"])
     = Err (ExternalError "destroy")
  /\ Mock.has_repo "did:prism:alice.example"
       (world (snd (Mock.signup (HttpStatus 500) ["destroy"]))) = true.
Proof.
  vm_compute. repeat split; reflexivity.
Qed.

(** On the test double, with a ledger that accepts: whichever later step is
    made to throw, the caller gets the error of that step, the destroy was
    called once and completed, and the repository is gone. *)
Example rollback_at_each_later_step :
  forallb
    (fun step =>
       match Mock.signup (HttpStatus 200) [step] with
       | (Err (ExternalError what), s') =>
           (what =? step)%string
           && negb (Mock.has_repo "did:prism:alice.example" (world s'))
           && match destroys (trace s') with
              | [(_, Ok _)] => true
              | _ => false
              end
       | _ => false
       end)
    [ "addSignature"; "resolve"; "createAccountAndSession";
      "sequenceIdentityEvt"; "sequenceAccountEvt"; "sequenceCommit";
      "sequenceSyncEvt"; "updateRepoRoot"; "clearReservedKeypair" ]
  = true.
Proof. vm_compute. reflexivity. Qed.

(** C2, as the code has it. When the [try] block threw [e] and the destroy
    of the [catch] block throws [e'], the handler throws [e']: the error of
    the destroy replaces the original one, which is left only in the
    console log written before the destroy. *)
Theorem destroy_failure_replaces_error :
  forall (W : Type) (lib : Imports W) (ctx : AppContext W)
         (input : CreateAccountInput) (auth : AuthOutput) (s0 s : St W)
         (plan : Plan) (w1 : W) (e e' : Error) (s2 : St W) (w3 : W),
    validateInputs lib ctx input auth s0 = (Ok plan, s) ->
    actorStore_create ctx (plan_did plan) (plan_signingKey plan) (world s)
    = (Ok tt, w1) ->
    provision_try lib ctx plan
      {| world := w1;
         trace := trace s
                  ++ [EvActorStoreCreate (plan_did plan)
                        (plan_signingKey plan) (Ok tt)] |}
    = (Err e, s2) ->
    actorStore_destroy ctx (plan_did plan) (world s2) = (Err e', w3) ->
    handler lib ctx input auth s0
    = (Err e',
       {| world := w3;
          trace := trace s2
                   ++ [ EvConsoleLog "destroying actor because of error"
                          (LogError e);
                        EvDestroy (plan_did plan) (Err e') ] |}).
Proof.
  intros W lib ctx input auth s0 s plan w1 e e' s2 w3 V C T D.
  rewrite (handler_validated _ _ _ _ _ _ _ V).
  rewrite (provision_caught _ _ _ _ _ _ _ C T). rewrite D. reflexivity.
Qed.

(** On the test double: the account manager throws, then the destroy
    throws; the caller gets the error of the destroy. *)
Lemma destroy_failure_replaces_error_witness :
  exists s',
    handler Mock.lib (Mock.ctx Mock.localConfig false) Mock.alice
      Mock.anonymous
      {| world := Mock.empty (HttpStatus 200)
                    ["createAccountAndSession"; "destroy"];
         trace := [] |}
    = (Err (ExternalError "destroy"), s').
Proof.
  eexists. eapply destroy_failure_replaces_error; vm_compute; reflexivity.
Defined.

(** The claim fails: the account manager throws
    [ExternalError "createAccountAndSession"], which triggers the rollback;
    the destroy throws too, and its error is the one the caller gets. *)
Lemma original_error_lost_when_destroy_throws :
  accountCreations
    (trace (snd (Mock.signup (HttpStatus 200)
                   ["createAccountAndSession"; "destroy"])))
  = [({| acc_did := "did:prism:alice.example";
         acc_handle := "alice.example";
         acc_email := Some "alice@example.com";
         acc_password := Some "hunter2";
         acc_repoCid := "cid-of-did:prism:alice.example";
         acc_repoRev := "rev-0";
         acc_inviteCode := None;
         acc_deactivated := false |},
      Err (ExternalError "createAccountAndSession"))]
  /\ destroys
       (trace (snd (Mock.signup (HttpStatus 200)
                      ["createAccountAndSession"; "destroy"])))
     = [("did:prism:alice.example", Err (ExternalError "destroy"))]
  /\ fst (Mock.signup (HttpStatus 200) ["createAccountAndSession"; "destroy"])
     = Err (ExternalError "destroy").
Proof.
  vm_compute. repeat split; reflexivity.
Qed.

(** ** The rotation key of the service on the entryway path *)

(** C3, as the code has it. Take an entryway request whose operation does
    not list the configured rotation key of the service (or no key is
    configured, or the operation does not even type-check). Validation
    never accepts it, and fails with the world and the trace as they were:
    before any call to a collaborator, so before the verification of the
    operation and of its signature, and whatever these would answer. The
    error is [IncompatibleDidDoc] when the handle normalizes and a did is
    supplied. The checks on the handle and on the did come first: when the
    handle does not normalize the error is the one the normalization threw,
    and when the did (or a truthy operation) is missing it is the
    [InvalidRequestError] about bringing a DID and plcOp, which has no error
    name. *)
Theorem entryway_requires_service_rotation_key :
  forall (W : Type) (lib : Imports W) (ctx : AppContext W)
         (input : CreateAccountInput) (rawOp : RawOp) (s : St W),
    in_plcOp input = Some rawOp ->
    match rawOp with
    | WellTyped plcOp => serviceKeyListed ctx plcOp = false
    | IllTyped _ => True
    end ->
    validateInputsForEntrywayPds lib ctx input s
    = (match baseNormalizeAndValidate lib (in_handle input) with
       | Err e => Err e
       | Ok _ =>
           if JS.truthy (in_did input) && raw_truthy (in_plcOp input) then
             Err (InvalidRequestError
                    match rawOp with
                    | WellTyped _ =>
                        "PLC DID does not include service rotation key"
                    | IllTyped _ => "invalid plc operation"
                    end
                    (Some "IncompatibleDidDoc"))
           else
             Err (InvalidRequestError
                    "non-entryway pds requires bringing a DID and plcOp"
                    None)
       end, s).
Proof.
  intros W lib ctx input rawOp s O K.
  unfold validateInputsForEntrywayPds, serviceKeyListed, JS.truthy in *.
  rewrite O. unfold bind, lift, throw, incompatible.
  destruct (baseNormalizeAndValidate lib (in_handle input)) as [h|e];
    [|reflexivity].
  destruct (in_did input) as [d|]; cbn; [|reflexivity].
  destruct (d =? "")%string; cbn; [reflexivity|].
  destruct rawOp as [plcOp|[|]]; cbn; try reflexivity.
  destruct (cfg_entryway_plcRotationKey (cfg ctx)) as [k|]; [|reflexivity].
  destruct (k =? "")%string; cbn in *; [reflexivity|].
  rewrite K. reflexivity.
Qed.

(** Scenario C on the test double: Bob's operation names another rotation
    key; and the same request with an operation that does not type-check. *)
Lemma entryway_requires_service_rotation_key_witness :
  validateInputsForEntrywayPds Mock.lib (Mock.ctx Mock.entrywayConfig true)
    Mock.bob {| world := Mock.empty (HttpStatus 200) []; trace := [] |}
  = (Err (InvalidRequestError
            "PLC DID does not include service rotation key"
            (Some "IncompatibleDidDoc")),
     {| world := Mock.empty (HttpStatus 200) []; trace := [] |})
  /\ validateInputsForEntrywayPds Mock.lib
       (Mock.ctx Mock.entrywayConfig true)
       {| in_did := Some "did:plc:bob";
          in_handle := "bob.example";
          in_email := None;
          in_password := None;
          in_inviteCode := None;
          in_recoveryKey := None;
          in_plcOp := Some (IllTyped true) |}
       {| world := Mock.empty (HttpStatus 200) []; trace := [] |}
     = (Err (InvalidRequestError "invalid plc operation"
               (Some "IncompatibleDidDoc")),
        {| world := Mock.empty (HttpStatus 200) []; trace := [] |}).
Proof.
  split.
  - exact (entryway_requires_service_rotation_key Mock.World Mock.lib
             (Mock.ctx Mock.entrywayConfig true) Mock.bob
             (WellTyped Mock.foreignOp)
             {| world := Mock.empty (HttpStatus 200) []; trace := [] |}
             eq_refl eq_refl).
  - apply entryway_requires_service_rotation_key with (rawOp := IllTyped true);
      [reflexivity | exact I].
Defined.

(** The claim fails for a request without a did: its operation does not
    list the key of the service, and the error is a plain invalid request,
    with no error name. *)
Lemma entryway_without_did_is_invalid_request :
  serviceKeyListed (Mock.ctx Mock.entrywayConfig true) Mock.foreignOp = false
  /\ fst (run (handler Mock.lib (Mock.ctx Mock.entrywayConfig true)
                 Mock.bobWithoutDid Mock.anonymous)
            (Mock.empty (HttpStatus 200) []))
     = Err (InvalidRequestError
              "non-entryway pds requires bringing a DID and plcOp" None)
  /\ error_name
       (InvalidRequestError
          "non-entryway pds requires bringing a DID and plcOp" None)
     = None.
Proof.
  vm_compute. repeat split; reflexivity.
Qed.

(** What comes next when the key is listed: the first call of the validator
    is the verification of the operation. *)
Lemma entryway_verification_comes_next :
  forall (W : Type) (lib : Imports W) (ctx : AppContext W)
         (input : CreateAccountInput) (plcOp : Operation) (s : St W)
         (h : string),
    in_plcOp input = Some (WellTyped plcOp) ->
    serviceKeyListed ctx plcOp = true ->
    baseNormalizeAndValidate lib (in_handle input) = Ok h ->
    JS.truthy (in_did input) = true ->
    exists rest,
      trace (snd (validateInputsForEntrywayPds lib ctx input s))
      = trace s
        ++ EvAssureValidOp plcOp (fst (plc_assureValidOp lib plcOp (world s)))
           :: rest.
Proof.
  intros W lib ctx input plcOp s h O K B D.
  destruct (validateInputsForEntrywayPds lib ctx input s) as [r s'] eqn:H.
  unfold validateInputsForEntrywayPds, serviceKeyListed, JS.truthy in *.
  rewrite O, B in H.
  destruct (in_did input) as [d|]; [|discriminate].
  destruct (cfg_entryway_plcRotationKey (cfg ctx)) as [k|]; [|discriminate].
  destruct (d =? "")%string; [discriminate|].
  destruct (k =? "")%string; [discriminate|].
  cbn in K. rewrite K in H. unfold_m. cbn in H.
  destruct (plc_assureValidOp lib plcOp (world s)) as [r1 w1] eqn:V.
  cbn [fst snd]. destruct r1; cbn in H; steps H; inv_pair; cbn [trace];
    reassoc; eexists; reflexivity.
Qed.

(** ** The local path with the caller's own did *)




(** ** The rotation keys of a minted operation *)

Lemma dedup_In (l : list string) (y : string) : In y (dedup l) <-> In y l.
Proof.
  induction l as [|x l IH]; simpl; [tauto|].
  rewrite filter_In, IH. split.
  - intros [H | [H _]]; auto.
  - intros [H | H]; [auto|].
    destruct (String.eqb_spec y x) as [E | E]; [left; auto | right; auto].
Qed.



Section LocalFacts.

Context {W : Type} (lib : Imports W) (ctx : AppContext W).


(** A did minted by the local validator comes out of the wrapper. *)
Lemma local_minted_did (input : CreateAccountInput)
  (requester : option string) (s s' : St W) (plan : Plan) :
  validateInputsForLocalPds lib ctx input requester s = (Ok plan, s') ->
  plan_deactivated plan = false ->
  exists i w r w',
    plc_lib_createOp lib i w = (Ok r, w')
    /\ plan_did plan = JS.replace "did:plc:" "did:prism:" (res_did r)
    /\ plan_plcOp plan = Some (res_op r).
Proof.
  intros H.
  unfold validateInputsForLocalPds, bind in H.
  destruct (localChecks lib ctx input s) as [[[[handle email] sk]|e] s1];
    [|discriminate].
  unfold localIdentity, formatDidAndPlcOp, createOp in H.
  unfold_m. cbn in H. steps H; inv_pair; cbn; intros D; try discriminate.
  all: do 4 eexists; split; [eassumption | split; reflexivity].
Qed.

End LocalFacts.




(** ** The did of a minted operation *)

(** C10. When the library's [createOp] succeeds with result [r], the wrapper
    succeeds with the same operation and with the did of [r] in which the
    prefix did:plc: is replaced by did:prism: (the rest of the did is kept).
    Consequently, the library giving dids that start with did:plc:, every
    did minted by the local validator starts with did:prism:. *)
Theorem createOp_rewrites_did_prefix :
  forall (W : Type) (lib : Imports W),
    (forall (input : CreateOpInput) (s : St W) (r : CreateOpResult) (w' : W)
            (rest : string),
        plc_lib_createOp lib input (world s) = (Ok r, w') ->
        res_did r = ("did:plc:" ++ rest)%string ->
        createOp lib input s
        = (Ok {| res_op := res_op r;
                 res_did := ("did:prism:" ++ rest)%string |},
           {| world := w';
              trace := trace s ++ [EvPlcCreateOp input (Ok r)] |}))
    /\ ((forall i w r w',
            plc_lib_createOp lib i w = (Ok r, w') ->
            prefix "did:plc:" (res_did r) = true) ->
        forall (ctx : AppContext W) (input : CreateAccountInput)
               (requester : option string) (s s' : St W) (plan : Plan),
          validateInputsForLocalPds lib ctx input requester s = (Ok plan, s') ->
          plan_deactivated plan = false ->
          prefix "did:prism:" (plan_did plan) = true).
Proof.
  intros W lib. split.
  - intros input s r w' rest L D.
    unfold createOp, bind, invoke, ret. rewrite L.
    rewrite replace_prefix by (rewrite D; apply prefix_append).
    rewrite D, drop_append. reflexivity.
  - intros contract ctx input requester s s' plan V D.
    destruct (local_minted_did _ _ _ _ _ _ _ V D)
      as (i & w & r & w' & L & E & _).
    rewrite E, replace_prefix by exact (contract _ _ _ _ L).
    apply prefix_append.
Qed.

Lemma mock_createOp_prefix (i : CreateOpInput) (w : Mock.World)
  (r : CreateOpResult) (w' : Mock.World) :
  plc_lib_createOp Mock.lib i w = (Ok r, w') ->
  prefix "did:plc:" (res_did r) = true.
Proof.
  cbn. unfold Mock.op. destruct (Mock.has (Mock.failing w) "createOp");
    [discriminate|].
  intros H. inv_pair. exact (prefix_append "did:plc:" (co_handle i)).
Qed.

(** On the test double: the did minted for Alice. *)
Lemma createOp_rewrites_did_prefix_witness :
  (exists r w',
      plc_lib_createOp Mock.lib
        {| co_signingKey := "did:key:zFresh";
           co_rotationKeys := ["did:key:zOperator"];
           co_handle := "alice.example";
           co_pds := "https://pds.test";
           co_signer := plcRotationKey (Mock.ctx Mock.localConfig false) |}
        (Mock.empty (HttpStatus 200) [])
      = (Ok r, w')
      /\ res_did r = "did:plc:alice.example"
      /\ fst (createOp Mock.lib
                {| co_signingKey := "did:key:zFresh";
                   co_rotationKeys := ["did:key:zOperator"];
                   co_handle := "alice.example";
                   co_pds := "https://pds.test";
                   co_signer :=
                     plcRotationKey (Mock.ctx Mock.localConfig false) |}
                {| world := Mock.empty (HttpStatus 200) []; trace := [] |})
         = Ok {| res_op := res_op r; res_did := "did:prism:alice.example" |})
  /\ (exists plan s',
         validateInputsForLocalPds Mock.lib (Mock.ctx Mock.localConfig false)
           Mock.alice None
           {| world := Mock.empty (HttpStatus 200) []; trace := [] |}
         = (Ok plan, s')
         /\ prefix "did:prism:" (plan_did plan) = true).
Proof.
  destruct (createOp_rewrites_did_prefix Mock.World Mock.lib) as [A B].
  split.
  - do 2 eexists. split; [vm_compute; reflexivity|]. split; [reflexivity|].
    erewrite A; [reflexivity | vm_compute; reflexivity | reflexivity].
  - do 2 eexists. split; cycle 1.
    + eapply (B mock_createOp_prefix (Mock.ctx Mock.localConfig false)
                Mock.alice None
                {| world := Mock.empty (HttpStatus 200) []; trace := [] |});
        [vm_compute; reflexivity | reflexivity].
    + vm_compute. reflexivity.
Defined.

(** * Further properties of the code *)

(** ** The provisioning as a pipeline *)

Section PipelineFacts.

Context {W : Type} (lib : Imports W) (ctx : AppContext W).

(** Every run of a provisioning, step by step. *)
Lemma provision_runs (plan : Plan) (s s' : St W) (r : Result HandlerOutput) :
  provision lib ctx plan s = (r, s') ->
  exists delta rest,
    trace s' = trace s ++ delta
    /\ failStop delta = true
    /\ is_ok r = negb (existsb failed delta)
    /\ pipeline plan = stepsOf delta ++ rest
    /\ (is_ok r = true -> rest = []).
Proof.
  intros H. unfold provision, provision_try, provision_catch in H.
  unfold pipeline.
  unfold_m. cbn in H. steps H; inv_pair; units.
  all: eexists; eexists; split; [cbn [trace]; reassoc; reflexivity|].
  all: cbn.
  all: repeat match goal with
              | E : axios_outcome _ = _ |- _ => rewrite E
              end.
  all: cbn.
  all: repeat match goal with
              | E : negb ?b = _ |- _ =>
                  destruct b; try discriminate; clear E
              end.
  all: repeat split; try reflexivity; try discriminate.
Qed.

(** Every run of a provisioning, call by call: the entries added to the
    trace are the calls that were made, each on the world the one before it
    left, up to the final world. *)
Lemma provision_replays (plan : Plan) (s s' : St W) (r : Result HandlerOutput) :
  provision lib ctx plan s = (r, s') ->
  exists delta rest,
    trace s' = trace s ++ delta
    /\ replays lib ctx delta (world s) (world s')
    /\ pipeline plan = stepsOf delta ++ rest
    /\ (is_ok r = true -> rest = []).
Proof.
  intros H. unfold provision, provision_try, provision_catch in H.
  unfold pipeline.
  unfold_m. cbn in H. steps H; inv_pair; units.
  all: eexists; eexists; split; [cbn [trace]; reassoc; reflexivity|].
  all: unfold submissionEvents.
  all: cbn [world app replays performs].
  all: split;
    [ repeat (eexists; split; [first [eassumption | reflexivity]|]);
      reflexivity |].
  all: cbn.
  all: repeat match goal with
              | E : negb ?b = _ |- _ =>
                  destruct b; try discriminate; clear E
              end.
  all: repeat split; try reflexivity; try discriminate.
Qed.


Lemma destroys_validation (l : list Event) :
  forallb is_validation l = true -> destroys l = [].
Proof.
  intros F. unfold destroys. apply flat_map_validation; [|assumption].
  intros [] E; (discriminate || reflexivity).
Qed.

Lemma storeCreations_validation (l : list Event) :
  forallb is_validation l = true -> storeCreations l = [].
Proof.
  intros F. unfold storeCreations. apply flat_map_validation; [|assumption].
  intros [] E; (discriminate || reflexivity).
Qed.

End PipelineFacts.

(** X1. A provisioning stops at the first call that throws: up to that call
    no destroy is made; after it the handler only writes logs and calls
    destroy at most once, as its last call (not at all when the call that
    threw is the creation of the actor store). The provisioning succeeds
    exactly when no call threw. *)
Theorem provision_stops_at_first_failure :
  forall (W : Type) (lib : Imports W) (ctx : AppContext W) (plan : Plan)
         (s : St W),
  exists delta,
    trace (snd (provision lib ctx plan s)) = trace s ++ delta
    /\ failStop delta = true
    /\ is_ok (fst (provision lib ctx plan s)) = negb (existsb failed delta).
Proof.
  intros W lib ctx plan s.
  destruct (provision lib ctx plan s) as [r s'] eqn:P.
  destruct (provision_runs _ _ _ _ _ _ P) as (delta & rest & T & F & O & _).
  exists delta. cbn [fst snd]. repeat split; assumption.
Qed.

(** X2. The calls of a provisioning are made in the order of the code and
    none is skipped. The entries that a provisioning adds to the trace are
    the calls it made: each entry names a call, its arguments and its
    outcome, the first was made on the world the provisioning started from,
    each next one on the world the one before it left, and the last one left
    the final world. Their steps are an initial part of create store, create
    repo, (sign, post, wait, when the plan has an operation), resolve,
    create account, (the four sequencing calls, when the plan is not
    deactivated), update root, clear key; a provisioning that succeeds has
    gone through all of them. *)
Theorem provision_follows_pipeline :
  forall (W : Type) (lib : Imports W) (ctx : AppContext W) (plan : Plan)
         (s : St W),
  exists delta rest,
    trace (snd (provision lib ctx plan s)) = trace s ++ delta
    /\ replays lib ctx delta (world s)
         (world (snd (provision lib ctx plan s)))
    /\ pipeline plan = stepsOf delta ++ rest
    /\ (is_ok (fst (provision lib ctx plan s)) = true -> rest = []).
Proof.
  intros W lib ctx plan s.
  destruct (provision lib ctx plan s) as [r s'] eqn:P.
  destruct (provision_replays _ _ _ _ _ _ P) as (delta & rest & T & R & L & E).
  exists delta, rest. cbn [fst snd]. repeat split; assumption.
Qed.

(** X3. A request that the validator rejects ends with the error of the
    validator, after the calls of the validator alone: no actor store or
    repository is created or destroyed, nothing is signed or sent to the
    ledger, no account is created and nothing is sequenced. *)
Theorem rejected_request_touches_nothing :
  forall (W : Type) (lib : Imports W) (ctx : AppContext W)
         (input : CreateAccountInput) (auth : AuthOutput) (w : W)
         (e : Error) (s1 : St W),
    run (validateInputs lib ctx input auth) w = (Err e, s1) ->
    run (handler lib ctx input auth) w = (Err e, s1)
    /\ storeCreations (trace s1) = []
    /\ repoCreations (trace s1) = []
    /\ destroys (trace s1) = []
    /\ filter is_ledger (trace s1) = []
    /\ accountCreations (trace s1) = []
    /\ filter is_sequencing (trace s1) = []
    /\ repoRootUpdates (trace s1) = [].
Proof.
  intros W lib ctx input auth w e s1 V. unfold run in *.
  destruct (validateInputs_trace _ _ _ _ _ _ _ V) as (delta & D & F).
  simpl in D. rewrite <- D in F.
  split; [exact (handler_rejected _ _ _ _ _ _ _ V)|].
  split; [exact (storeCreations_validation _ F)|].
  split; [exact (repoCreations_validation _ F)|].
  split; [exact (destroys_validation _ F)|].
  split; [exact (ledger_validation _ F)|].
  split; [exact (accountCreations_validation _ F)|].
  split; [exact (sequencing_validation _ F)|].
  exact (repoRootUpdates_validation _ F).
Qed.

(** Carol without an email: rejected, and nothing was touched. *)
Lemma rejected_request_touches_nothing_witness :
  run (handler Mock.lib Cases.local Mock.carolWithoutEmail Mock.anonymous)
    (Mock.empty (HttpStatus 200) [])
  = (Err (InvalidRequestError "Email is required" None),
     Cases.start (Mock.empty (HttpStatus 200) []))
  /\ storeCreations (trace (Cases.start (Mock.empty (HttpStatus 200) [])))
     = []
  /\ repoCreations (trace (Cases.start (Mock.empty (HttpStatus 200) []))) = []
  /\ destroys (trace (Cases.start (Mock.empty (HttpStatus 200) []))) = []
  /\ filter is_ledger (trace (Cases.start (Mock.empty (HttpStatus 200) [])))
     = []
  /\ accountCreations (trace (Cases.start (Mock.empty (HttpStatus 200) [])))
     = []
  /\ filter is_sequencing
       (trace (Cases.start (Mock.empty (HttpStatus 200) []))) = []
  /\ repoRootUpdates (trace (Cases.start (Mock.empty (HttpStatus 200) [])))
     = [].
Proof.
  apply (rejected_request_touches_nothing Mock.World Mock.lib Cases.local
           Mock.carolWithoutEmail Mock.anonymous
           (Mock.empty (HttpStatus 200) [])).
  vm_compute. reflexivity.
Defined.

(** X4. When the creation of the actor store throws, the handler throws
    the same error at once: the repository is not created and, the call
    being outside the [try] block, no destroy is made. *)
Theorem store_creation_failure_is_not_rolled_back :
  forall (W : Type) (lib : Imports W) (ctx : AppContext W)
         (input : CreateAccountInput) (auth : AuthOutput) (s0 s : St W)
         (plan : Plan) (e : Error) (w1 : W),
    validateInputs lib ctx input auth s0 = (Ok plan, s) ->
    actorStore_create ctx (plan_did plan) (plan_signingKey plan) (world s)
    = (Err e, w1) ->
    handler lib ctx input auth s0
    = (Err e,
       {| world := w1;
          trace := trace s
                   ++ [EvActorStoreCreate (plan_did plan)
                         (plan_signingKey plan) (Err e)] |}).
Proof.
  intros W lib ctx input auth s0 s plan e w1 V C.
  rewrite (handler_validated _ _ _ _ _ _ _ V).
  unfold provision. unfold bind at 1. unfold invoke at 1. rewrite C.
  reflexivity.
Qed.

(** On the test double: the creation of the store throws. *)
Lemma store_creation_failure_is_not_rolled_back_witness :
  exists s',
    handler Mock.lib Cases.local Mock.alice Mock.anonymous
      (Cases.start (Mock.empty (HttpStatus 200) ["create"]))
    = (Err (ExternalError "create"), s')
    /\ destroys (trace s') = [].
Proof.
  eexists. split.
  - eapply store_creation_failure_is_not_rolled_back; vm_compute;
      reflexivity.
  - vm_compute. reflexivity.
Defined.

(** X5. When the creation of the repository itself throws, the rollback
    runs all the same, the call being inside the [try] block: the handler
    logs the error, calls destroy for the did, and throws the error of the
    creation if the destroy completes, the error of the destroy if not.
    Nothing is sent to the ledger and no account is created. *)
Theorem repo_creation_failure_is_rolled_back :
  forall (W : Type) (lib : Imports W) (ctx : AppContext W)
         (input : CreateAccountInput) (auth : AuthOutput) (s0 s : St W)
         (plan : Plan) (e : Error) (w1 w2 w3 : W) (rd : Result unit),
    validateInputs lib ctx input auth s0 = (Ok plan, s) ->
    actorStore_create ctx (plan_did plan) (plan_signingKey plan) (world s)
    = (Ok tt, w1) ->
    actorStore_createRepo ctx (plan_did plan) w1 = (Err e, w2) ->
    actorStore_destroy ctx (plan_did plan) w2 = (rd, w3) ->
    handler lib ctx input auth s0
    = (Err match rd with Ok _ => e | Err e' => e' end,
       {| world := w3;
          trace := trace s
                   ++ [ EvActorStoreCreate (plan_did plan)
                          (plan_signingKey plan) (Ok tt);
                        EvCreateRepo (plan_did plan) (Err e);
                        EvConsoleLog "destroying actor because of error"
                          (LogError e);
                        EvDestroy (plan_did plan) rd ] |}).
Proof.
  intros W lib ctx input auth s0 s plan e w1 w2 w3 rd V C R D.
  rewrite (handler_validated _ _ _ _ _ _ _ V).
  assert (T : provision_try lib ctx plan
                {| world := w1;
                   trace := trace s
                            ++ [EvActorStoreCreate (plan_did plan)
                                  (plan_signingKey plan) (Ok tt)] |}
              = (Err e,
                 {| world := w2;
                    trace := (trace s
                              ++ [EvActorStoreCreate (plan_did plan)
                                    (plan_signingKey plan) (Ok tt)])
                             ++ [EvCreateRepo (plan_did plan) (Err e)] |})).
  { unfold provision_try. unfold bind at 1. unfold invoke at 1.
    cbn [world]. rewrite R. reflexivity. }
  rewrite (provision_caught _ _ _ _ _ _ _ C T).
  cbn [world]. rewrite D. cbn [trace]. unfold rollbackEvents. reassoc.
  reflexivity.
Qed.

(** On the test double: the creation of the repository throws. *)
Lemma repo_creation_failure_is_rolled_back_witness :
  exists s',
    handler Mock.lib Cases.local Mock.alice Mock.anonymous
      (Cases.start (Mock.empty (HttpStatus 200) ["createRepo"]))
    = (Err (ExternalError "createRepo"), s')
    /\ destroys (trace s') = [("did:prism:alice.example", Ok tt)].
Proof.
  eexists. split.
  - eapply repo_creation_failure_is_rolled_back with (rd := Ok tt);
      vm_compute; reflexivity.
  - vm_compute. reflexivity.
Defined.

(** X6. The answer to a successful request: JSON, with the handle and the
    did of the plan, the document that the resolver returned when it was
    called for that did with a forced refresh (after the store and the
    repository were created and the operation, if any, was submitted), and
    the two tokens that the account manager returned when it was then
    called to create the account, which it is once; and a successful
    request never calls destroy. *)
Theorem successful_response :
  forall (W : Type) (lib : Imports W) (ctx : AppContext W)
         (input : CreateAccountInput) (auth : AuthOutput) (w : W)
         (out : HandlerOutput) (s' : St W),
    run (handler lib ctx input auth) w = (Ok out, s') ->
    exists plan s1 commit creds w1 w2 w3 w4 w5,
      run (validateInputs lib ctx input auth) w = (Ok plan, s1)
      /\ encoding out = "application/json"
      /\ body_handle (body out) = plan_handle plan
      /\ body_did (body out) = plan_did plan
      /\ actorStore_create ctx (plan_did plan) (plan_signingKey plan)
           (world s1) = (Ok tt, w1)
      /\ actorStore_createRepo ctx (plan_did plan) w1 = (Ok commit, w2)
      /\ match plan_plcOp plan with
         | Some plcOp =>
             exists sub,
               run (createAndSendPrismTransaction lib (plan_did plan) plcOp
                      (plcRotationKey ctx)) w2 = (Ok tt, sub)
               /\ w3 = world sub
         | None => w3 = w2
         end
      /\ safeResolveDidDoc lib (plan_did plan) true w3
         = (Ok (body_didDoc (body out)), w4)
      /\ accountManager_createAccountAndSession ctx
           {| acc_did := plan_did plan;
              acc_handle := plan_handle plan;
              acc_email := plan_email plan;
              acc_password := plan_password plan;
              acc_repoCid := cid commit;
              acc_repoRev := rev commit;
              acc_inviteCode := plan_inviteCode plan;
              acc_deactivated := plan_deactivated plan |} w4
         = (Ok creds, w5)
      /\ body_accessJwt (body out) = accessJwt creds
      /\ body_refreshJwt (body out) = refreshJwt creds
      /\ accountCreations (trace s')
         = [({| acc_did := plan_did plan;
                acc_handle := plan_handle plan;
                acc_email := plan_email plan;
                acc_password := plan_password plan;
                acc_repoCid := cid commit;
                acc_repoRev := rev commit;
                acc_inviteCode := plan_inviteCode plan;
                acc_deactivated := plan_deactivated plan |}, Ok creds)]
      /\ destroys (trace s') = [].
Proof.
  intros W lib ctx input auth w out s' H.
  destruct (handler_ok_calls _ _ _ _ _ _ _ H) as (plan & s1 & V & F & P).
  destruct (provision_ok_calls _ _ _ _ _ _ P)
    as (commit & mid & didDoc & creds & w1 & w2 & w3 & w4 & w5 & w6 & w7
        & C1 & C2 & C3 & C4 & C5 & C6 & C7 & C8 & L & T & O).
  subst out. cbn [encoding body body_handle body_did body_didDoc
                    body_accessJwt body_refreshJwt].
  exists plan, s1, commit, creds, w1, w2, w3, w4, w5.
  split; [exact V|]. do 3 (split; [reflexivity|]).
  do 5 (split; [assumption|]). do 2 (split; [reflexivity|]).
  rewrite T. unfold accountCreations, destroys. rewrite !flat_map_app.
  fold (accountCreations (trace s1)) (destroys (trace s1)).
  rewrite (accountCreations_validation _ F), (destroys_validation _ F).
  unfold successEvents, tryEvents, ledgerPart, accountOptsFor in *.
  destruct (plan_plcOp plan);
    [destruct L as (sig & po & _ & ->) | subst mid];
    destruct (plan_deactivated plan); split; reflexivity.
Qed.

(** Scenario A on the test double. *)
Lemma successful_response_witness :
  exists out plan s1 commit creds w1 w2 w3 w4 w5,
    fst (Mock.signup (HttpStatus 200) []) = Ok out
    /\ out
       = mkOutput "application/json"
           (mkBody "alice.example" "did:prism:alice.example"
              (Some (mkDidDocument "did:prism:alice.example" [] [] []))
              "access:did:prism:alice.example"
              "refresh:did:prism:alice.example")
    /\ (run (validateInputs Mock.lib Cases.local Mock.alice Mock.anonymous)
        (Mock.empty (HttpStatus 200) [])
      = (Ok plan, s1)
      /\ encoding out = "application/json"
      /\ body_handle (body out) = plan_handle plan
      /\ body_did (body out) = plan_did plan
      /\ actorStore_create Cases.local (plan_did plan) (plan_signingKey plan)
           (world s1) = (Ok tt, w1)
      /\ actorStore_createRepo Cases.local (plan_did plan) w1
         = (Ok commit, w2)
      /\ match plan_plcOp plan with
         | Some plcOp =>
             exists sub,
               run (createAndSendPrismTransaction Mock.lib (plan_did plan)
                      plcOp (plcRotationKey Cases.local)) w2
               = (Ok tt, sub)
               /\ w3 = world sub
         | None => w3 = w2
         end
      /\ safeResolveDidDoc Mock.lib (plan_did plan) true w3
         = (Ok (body_didDoc (body out)), w4)
      /\ accountManager_createAccountAndSession Cases.local
           {| acc_did := plan_did plan;
              acc_handle := plan_handle plan;
              acc_email := plan_email plan;
              acc_password := plan_password plan;
              acc_repoCid := cid commit;
              acc_repoRev := rev commit;
              acc_inviteCode := plan_inviteCode plan;
              acc_deactivated := plan_deactivated plan |} w4
         = (Ok creds, w5)
      /\ body_accessJwt (body out) = accessJwt creds
      /\ body_refreshJwt (body out) = refreshJwt creds
      /\ accountCreations (trace (snd (Mock.signup (HttpStatus 200) [])))
         = [({| acc_did := plan_did plan;
                acc_handle := plan_handle plan;
                acc_email := plan_email plan;
                acc_password := plan_password plan;
                acc_repoCid := cid commit;
                acc_repoRev := rev commit;
                acc_inviteCode := plan_inviteCode plan;
                acc_deactivated := plan_deactivated plan |}, Ok creds)]
      /\ destroys (trace (snd (Mock.signup (HttpStatus 200) []))) = []).
Proof.
  exists (mkOutput "application/json"
            (mkBody "alice.example" "did:prism:alice.example"
               (Some (mkDidDocument "did:prism:alice.example" [] [] []))
               "access:did:prism:alice.example"
               "refresh:did:prism:alice.example")).
  assert (R : run (handler Mock.lib Cases.local Mock.alice Mock.anonymous)
                (Mock.empty (HttpStatus 200) [])
              = (Ok (mkOutput "application/json"
                       (mkBody "alice.example" "did:prism:alice.example"
                          (Some (mkDidDocument "did:prism:alice.example"
                                   [] [] []))
                          "access:did:prism:alice.example"
                          "refresh:did:prism:alice.example")),
                 snd (Mock.signup (HttpStatus 200) [])))
    by (vm_compute; reflexivity).
  destruct (successful_response _ _ _ _ _ _ _ _ R)
    as (plan & s1 & commit & creds & w1 & w2 & w3 & w4 & w5 & C).
  exists plan, s1, commit, creds, w1, w2, w3, w4, w5.
  split; [vm_compute; reflexivity|]. split; [reflexivity|]. exact C.
Defined.



(** ** The submitter *)

(** X8. When the signing of the transaction throws, the submitter throws
    the same error, unchanged, and has done nothing else: nothing is written
    to the console, nothing is posted, there is no wait. (An error of the
    POST, in contrast, is replaced by a fixed one.) *)
Theorem signing_failure_posts_nothing :
  forall (W : Type) (lib : Imports W) (did : string) (plcOp : Operation)
         (signer : Keypair) (s : St W) (e : Error) (w1 : W),
    plc_addSignature lib (unsignedFor did plcOp signer) signer (world s)
    = (Err e, w1) ->
    createAndSendPrismTransaction lib did plcOp signer s
    = (Err e,
       {| world := w1;
          trace := trace s
                   ++ [EvAddSignature (unsignedFor did plcOp signer) signer
                         (Err e)] |}).
Proof.
  intros W lib did plcOp signer s e w1 S.
  rewrite submit_spec. cbv zeta. rewrite S. reflexivity.
Qed.

(** On the test double: the signer throws. *)
Lemma signing_failure_posts_nothing_witness :
  createAndSendPrismTransaction Mock.lib "did:prism:alice.example"
    (tx_operation Mock.aliceTransaction) (plcRotationKey Cases.local)
    (Cases.start (Mock.empty (HttpStatus 200) ["addSignature"]))
  = (Err (ExternalError "addSignature"),
     {| world := Mock.empty (HttpStatus 200) ["addSignature"];
        trace :=
          [] ++ [EvAddSignature
                   (unsignedFor "did:prism:alice.example"
                      (tx_operation Mock.aliceTransaction)
                      (plcRotationKey Cases.local))
                   (plcRotationKey Cases.local)
                   (Err (ExternalError "addSignature"))] |}).
Proof.
  apply (signing_failure_posts_nothing Mock.World Mock.lib
           "did:prism:alice.example" (tx_operation Mock.aliceTransaction)
           (plcRotationKey Cases.local)
           (Cases.start (Mock.empty (HttpStatus 200) ["addSignature"]))).
  reflexivity.
Defined.

(** X9. When the submitter throws, for whatever reason, the [try] block of
    the handler writes one line to the log of the request, with the public
    identifier of the operator key and the handle of the plan, and throws
    the same error on; no later step of the provisioning is run. *)
Theorem submission_failure_logged_and_rethrown :
  forall (W : Type) (lib : Imports W) (ctx : AppContext W) (plan : Plan)
         (plcOp : Operation) (s : St W) (commit : CommitData) (w1 : W)
         (e : Error) (s2 : St W),
    plan_plcOp plan = Some plcOp ->
    actorStore_createRepo ctx (plan_did plan) (world s) = (Ok commit, w1) ->
    createAndSendPrismTransaction lib (plan_did plan) plcOp
      (plcRotationKey ctx)
      {| world := w1;
         trace := trace s ++ [EvCreateRepo (plan_did plan) (Ok commit)] |}
    = (Err e, s2) ->
    provision_try lib ctx plan s
    = (Err e,
       {| world := world s2;
          trace := trace s2
                   ++ [EvReqLogError (keypair_did (plcRotationKey ctx))
                         (plan_handle plan)
                         "failed to create did with Prism"] |}).
Proof.
  intros W lib ctx plan plcOp s commit w1 e s2 O R S.
  unfold provision_try. rewrite O.
  unfold bind at 1. unfold invoke at 1. rewrite R.
  unfold bind at 1. unfold try_catch at 1. rewrite S.
  reflexivity.
Qed.

(** On the test double: the ledger answers 500. *)
Lemma submission_failure_logged_and_rethrown_witness :
  exists s',
    provision_try Mock.lib Cases.local
      (mkPlan "did:prism:alice.example" "alice.example"
         (Some "alice@example.com") (Some "hunter2") None
         (mkKeypair "did:key:zFresh" "fresh-secret")
         (Some (tx_operation Mock.aliceTransaction)) false)
      (Cases.start (Mock.empty (HttpStatus 500) []))
    = (Err submissionError, s')
    /\ In (EvReqLogError "did:key:zOperator" "alice.example"
             "failed to create did with Prism") (trace s').
Proof.
  eexists. split.
  - eapply submission_failure_logged_and_rethrown; vm_compute; reflexivity.
  - vm_compute. repeat (first [left; reflexivity | right]).
Defined.

(** ** The checks of the validators *)

(** X10. [validateAtprotoData] accepts exactly when the handle, the service
    endpoint and the signing key of the document are the expected ones;
    every rejection has the error name IncompatibleDidDoc. *)
Theorem validateAtprotoData_accepts_iff :
  forall (data : AtprotoData) (expected : Expected),
    (validateAtprotoData data expected = Ok tt
     <-> data_handle data = exp_handle expected
         /\ data_pds data = exp_pds expected
         /\ data_signingKey data = exp_signingKey expected)
    /\ (forall e,
           validateAtprotoData data expected = Err e ->
           error_name e = Some "IncompatibleDidDoc").
Proof.
  intros data expected. unfold validateAtprotoData.
  destruct (String.eqb_spec (data_handle data) (exp_handle expected)) as [H|H];
    cbn.
  - destruct (String.eqb_spec (data_pds data) (exp_pds expected)) as [P|P];
      cbn.
    + destruct (String.eqb_spec (data_signingKey data)
                  (exp_signingKey expected)) as [K|K]; cbn.
      * split; [tauto | discriminate].
      * split; [split; [discriminate | tauto]|].
        intros e E. injection E as <-. reflexivity.
    + split; [split; [discriminate | tauto]|].
      intros e E. injection E as <-. reflexivity.
  - split; [split; [discriminate | tauto]|].
    intros e E. injection E as <-. reflexivity.
Qed.

Lemma includes_In (l : list string) (k : string) :
  JS.includes l k = true <-> In k l.
Proof.
  unfold JS.includes. rewrite existsb_exists. split.
  - intros (x & I & E). apply String.eqb_eq in E. subst. exact I.
  - intros I. exists k. split; [exact I | apply String.eqb_refl].
Qed.

Lemma validateAtprotoData_Ok (data : AtprotoData) (expected : Expected) :
  validateAtprotoData data expected = Ok tt ->
  data_handle data = exp_handle expected
  /\ data_pds data = exp_pds expected
  /\ data_signingKey data = exp_signingKey expected.
Proof.
  unfold validateAtprotoData.
  destruct (String.eqb_spec (data_handle data) (exp_handle expected));
    [|discriminate].
  destruct (String.eqb_spec (data_pds data) (exp_pds expected));
    [|discriminate].
  destruct (String.eqb_spec (data_signingKey data) (exp_signingKey expected));
    [|discriminate].
  tauto.
Qed.

(** X11. What the entryway validator accepts. A plan comes out only for a
    request that supplies a did and an operation that type-checks, lists the
    configured rotation key of the service, and passed both verifications
    (of the operation, then of its signature by that key alone); the plan
    has that did and that operation, no email, password or invite code, and
    is not deactivated; its handle is the normalized handle of the request
    and its signing key is a reserved one: the actor store was asked for the
    key reserved under the did first, and for the key reserved under the
    signing key of the document only when it had none under the did; and
    the document of the operation names that handle, the public URL of the
    service and that signing key. Each of these calls was made on the world
    the call before it left. *)
Theorem entryway_accepts_only :
  forall (W : Type) (lib : Imports W) (ctx : AppContext W)
         (input : CreateAccountInput) (s s' : St W) (plan : Plan),
    validateInputsForEntrywayPds lib ctx input s = (Ok plan, s') ->
    exists d plcOp k doc data sigKey rest w1 w2,
      in_did input = Some d /\ d <> ""
      /\ in_plcOp input = Some (WellTyped plcOp)
      /\ cfg_entryway_plcRotationKey (cfg ctx) = Some k /\ k <> ""
      /\ In k (rotationKeys plcOp)
      /\ baseNormalizeAndValidate lib (in_handle input)
         = Ok (plan_handle plan)
      /\ plc_formatDidDoc lib d plcOp = Ok doc
      /\ ensureAtpDocument lib doc = Ok data
      /\ data_handle data = plan_handle plan
      /\ data_pds data = cfg_service_publicUrl (cfg ctx)
      /\ data_signingKey data = keypair_did (plan_signingKey plan)
      /\ plan_did plan = d
      /\ plan_plcOp plan = Some plcOp
      /\ plan_email plan = None
      /\ plan_password plan = None
      /\ plan_inviteCode plan = None
      /\ plan_deactivated plan = false
      /\ plc_assureValidOp lib plcOp (world s) = (Ok tt, w1)
      /\ plc_assureValidSig lib [k] plcOp w1 = (Ok sigKey, w2)
      /\ trace s' = trace s
                    ++ EvAssureValidOp plcOp (Ok tt)
                       :: EvAssureValidSig [k] plcOp (Ok sigKey)
                       :: rest
      /\ ((actorStore_getReservedKeypair ctx d w2
           = (Ok (Some (plan_signingKey plan)), world s')
           /\ rest
              = [EvGetReservedKeypair d (Ok (Some (plan_signingKey plan)))])
          \/ (exists w3,
                actorStore_getReservedKeypair ctx d w2 = (Ok None, w3)
                /\ actorStore_getReservedKeypair ctx (data_signingKey data) w3
                   = (Ok (Some (plan_signingKey plan)), world s')
                /\ rest
                   = [EvGetReservedKeypair d (Ok None);
                      EvGetReservedKeypair (data_signingKey data)
                        (Ok (Some (plan_signingKey plan)))])).
Proof.
  intros W lib ctx input s s' plan H.
  unfold validateInputsForEntrywayPds in H.
  unfold JS.truthy, incompatible in H.
  unfold_m. cbn in H.
  destruct (baseNormalizeAndValidate lib (in_handle input)) as [h|] eqn:B;
    [|discriminate].
  destruct (in_did input) as [d|]; [|discriminate].
  destruct (in_plcOp input) as [[plcOp|]|]; cbn in H;
    try (destruct (d =? "")%string; discriminate).
  2: { destruct (d =? "")%string; [discriminate|].
       destruct isTruthy; discriminate. }
  destruct (String.eqb_spec d "") as [|D]; [discriminate|]. cbn in H.
  destruct (cfg_entryway_plcRotationKey (cfg ctx)) as [k|]; [|discriminate].
  destruct (String.eqb_spec k "") as [|K]; [discriminate|]. cbn in H.
  destruct (JS.includes (rotationKeys plcOp) k) eqn:I; [|discriminate].
  apply includes_In in I. cbn in H.
  destruct (plc_formatDidDoc lib d plcOp) as [doc|] eqn:FD;
    [|steps H].
  destruct (ensureAtpDocument lib doc) as [data|] eqn:EA;
    [|steps H].
  remember validateAtprotoData as vad eqn:Evad.
  steps H; inv_pair; units.
  all: match goal with
       | V : _ _ _ = Ok tt |- _ =>
           apply validateAtprotoData_Ok in V; cbn in V;
           destruct V as (V1 & V2 & V3)
       end.
  all: exists d, plcOp, k, doc, data.
  all: do 4 eexists.
  all: cbn [plan_did plan_handle plan_email plan_password plan_inviteCode
              plan_signingKey plan_plcOp plan_deactivated world trace].
  all: repeat (split; [first [reflexivity | eassumption]|]).
  all: split; [reassoc; reflexivity|].
  all: first
         [ left; split; [eassumption | reflexivity]
         | right; eexists; split; [eassumption|];
           split; [eassumption | reflexivity] ].
Qed.

(** On the test double: Dave, whose key is reserved under his did, so that
    one lookup is made; and Dave again with the key reserved under the
    signing key of his document, which the second lookup finds. *)
Lemma entryway_accepts_only_witness :
  (exists plan s',
     validateInputsForEntrywayPds Mock.lib Cases.entryway Cases.dave
       (Cases.start (Cases.reservedUnder "did:plc:dave" []))
     = (Ok plan, s')
     /\ plan_did plan = "did:plc:dave"
     /\ plan_plcOp plan = Some Cases.listedOp
     /\ plan_deactivated plan = false
     /\ plan_signingKey plan = Cases.reservedKey
     /\ reservedLookups (trace s')
        = [("did:plc:dave", Ok (Some Cases.reservedKey))])
  /\ (exists plan s',
        validateInputsForEntrywayPds Mock.lib Cases.entryway Cases.dave
          (Cases.start (Cases.reservedUnder "did:key:zReserved" []))
        = (Ok plan, s')
        /\ plan_did plan = "did:plc:dave"
        /\ plan_signingKey plan = Cases.reservedKey
        /\ reservedLookups (trace s')
           = [("did:plc:dave", Ok None);
              ("did:key:zReserved", Ok (Some Cases.reservedKey))]).
Proof.
  split.
  - destruct (validateInputsForEntrywayPds Mock.lib Cases.entryway Cases.dave
                (Cases.start (Cases.reservedUnder "did:plc:dave" [])))
      as [[plan|e] s'] eqn:V; [|vm_compute in V; discriminate].
    destruct (entryway_accepts_only _ _ _ _ _ _ _ V)
      as (d & plcOp & k & doc & data & sigKey & rest & w1 & w2 & A1 & _ & A2
          & _ & _ & _ & _ & _ & _ & _ & _ & _ & A3 & A4 & _ & _ & _ & A5 & _).
    exists plan, s'. split; [reflexivity|].
    injection A1 as <-. injection A2 as <-.
    split; [exact A3|]. split; [exact A4|]. split; [exact A5|].
    vm_compute in V. injection V as <- <-. split; reflexivity.
  - destruct (validateInputsForEntrywayPds Mock.lib Cases.entryway Cases.dave
                (Cases.start (Cases.reservedUnder "did:key:zReserved" [])))
      as [[plan|e] s'] eqn:V; [|vm_compute in V; discriminate].
    destruct (entryway_accepts_only _ _ _ _ _ _ _ V)
      as (d & plcOp & k & doc & data & sigKey & rest & w1 & w2 & A1 & _ & _
          & _ & _ & _ & _ & _ & _ & _ & _ & _ & A3 & _).
    exists plan, s'. split; [reflexivity|].
    injection A1 as <-.
    split; [exact A3|].
    vm_compute in V. injection V as <- <-. split; reflexivity.
Defined.

(** X12. On the entryway path a failed verification tells the caller
    nothing: whatever error the verification of the operation throws, and
    whatever error the verification of its signature throws, the validator
    throws the one InvalidRequestError "invalid plc operation"
    with the name IncompatibleDidDoc. When the operation does not verify, its
    signature is not looked at. *)
Theorem entryway_verification_errors_collapse :
  forall (W : Type) (lib : Imports W) (ctx : AppContext W)
         (input : CreateAccountInput) (s : St W) (d h k : string)
         (plcOp : Operation),
    baseNormalizeAndValidate lib (in_handle input) = Ok h ->
    in_did input = Some d -> d <> "" ->
    in_plcOp input = Some (WellTyped plcOp) ->
    cfg_entryway_plcRotationKey (cfg ctx) = Some k -> k <> "" ->
    In k (rotationKeys plcOp) ->
    (forall e w1,
        plc_assureValidOp lib plcOp (world s) = (Err e, w1) ->
        validateInputsForEntrywayPds lib ctx input s
        = (Err (InvalidRequestError "invalid plc operation"
                  (Some "IncompatibleDidDoc")),
           {| world := w1;
              trace := trace s ++ [EvAssureValidOp plcOp (Err e)] |}))
    /\ (forall w1 e w2,
           plc_assureValidOp lib plcOp (world s) = (Ok tt, w1) ->
           plc_assureValidSig lib [k] plcOp w1 = (Err e, w2) ->
           validateInputsForEntrywayPds lib ctx input s
           = (Err (InvalidRequestError "invalid plc operation"
                     (Some "IncompatibleDidDoc")),
              {| world := w2;
                 trace := trace s
                          ++ [ EvAssureValidOp plcOp (Ok tt);
                               EvAssureValidSig [k] plcOp (Err e) ] |})).
Proof.
  intros W lib ctx input s d h k plcOp B D N O C K I.
  apply String.eqb_neq in N. apply String.eqb_neq in K.
  apply includes_In in I.
  unfold validateInputsForEntrywayPds.
  rewrite B, D, O, C. unfold bind at 1. unfold lift at 1.
  cbn. rewrite N, K, I. cbn.
  split.
  - intros e w1 V. unfold bind at 1. unfold try_catch, bind, invoke.
    rewrite V. reflexivity.
  - intros w1 e w2 V S. unfold bind at 1. unfold try_catch, bind, invoke.
    rewrite V. cbn. rewrite S. cbn. reassoc. reflexivity.
Qed.

(** On the test double: Dave with a forged signature. *)
Lemma entryway_verification_errors_collapse_witness :
  validateInputsForEntrywayPds Mock.lib Cases.entryway Cases.daveForged
    (Cases.start (Cases.reservedUnder "did:plc:dave" []))
  = (Err (InvalidRequestError "invalid plc operation"
            (Some "IncompatibleDidDoc")),
     {| world := Cases.reservedUnder "did:plc:dave" [];
        trace :=
          [] ++ [ EvAssureValidOp Cases.forgedOp (Ok tt);
                  EvAssureValidSig ["did:key:zEntryway"] Cases.forgedOp
                    (Err (ExternalError "Invalid signature")) ] |}).
Proof.
  apply (proj2 (entryway_verification_errors_collapse Mock.World Mock.lib
                  Cases.entryway Cases.daveForged
                  (Cases.start (Cases.reservedUnder "did:plc:dave" []))
                  "did:plc:dave" "dave.example" "did:key:zEntryway"
                  Cases.forgedOp eq_refl eq_refl
                  ltac:(discriminate) eq_refl eq_refl ltac:(discriminate)
                  ltac:(right; left; reflexivity))
           (Cases.reservedUnder "did:plc:dave" [])
           (ExternalError "Invalid signature")
           (Cases.reservedUnder "did:plc:dave" []) eq_refl eq_refl).
Defined.

(** X13. On the entryway path, a key pair must have been reserved: when the
    lookup under the did and the lookup under the signing key of the
    document both find nothing, the validator throws
    InvalidRequestError "reserved signing key does not exist", which
    has no error name. The validator makes at most two lookups. *)
Theorem entryway_needs_reserved_key :
  forall (W : Type) (lib : Imports W) (ctx : AppContext W)
         (input : CreateAccountInput) (w : W),
    length (reservedLookups
              (trace (snd (run (validateInputsForEntrywayPds lib ctx input)
                             w)))) <= 2
    /\ (map snd
          (reservedLookups
             (trace (snd (run (validateInputsForEntrywayPds lib ctx input)
                            w))))
        = [Ok None; Ok None] ->
        fst (run (validateInputsForEntrywayPds lib ctx input) w)
        = Err (InvalidRequestError "reserved signing key does not exist"
                 None)).
Proof.
  intros W lib ctx input w. unfold run.
  destruct (validateInputsForEntrywayPds lib ctx input
              {| world := w; trace := [] |}) as [r s'] eqn:H.
  cbn [fst snd].
  unfold validateInputsForEntrywayPds in H.
  unfold JS.truthy, incompatible in H.
  unfold_m. cbn in H.
  remember validateAtprotoData as vad eqn:Evad.
  steps H; inv_pair; cbn; split; try lia; try discriminate; reflexivity.
Qed.

(** On the test double: Dave, for whom no key is reserved. *)
Lemma entryway_needs_reserved_key_witness :
  fst (run (validateInputsForEntrywayPds Mock.lib Cases.entryway Cases.dave)
         (Mock.empty (HttpStatus 200) []))
  = Err (InvalidRequestError "reserved signing key does not exist" None).
Proof.
  apply (proj2 (entryway_needs_reserved_key Mock.World Mock.lib
                  Cases.entryway Cases.dave
                  (Mock.empty (HttpStatus 200) []))).
  vm_compute. reflexivity.
Defined.

(** X14. What the checks of the local validator let through. They succeed
    only for a request without an operation, whose password, if any, has
    at most the maximum number of UTF-16 code units, that has an invite code
    if invites are required, and whose email is there, well formed and not
    disposable; and only after the account manager normalized the handle of
    the request (given its did), found the invite code available (asked
    only when invites are required), and answered, asked about the
    normalized handle and about the email, that neither is taken; the
    signing key is generated last. Each of these calls was made on the
    world the call before it left. *)
Theorem local_checks_accept_only :
  forall (W : Type) (lib : Imports W) (ctx : AppContext W)
         (input : CreateAccountInput) (s s' : St W) (handle email : string)
         (signingKey : Keypair),
    localChecks lib ctx input s = (Ok (handle, email, signingKey), s') ->
    raw_truthy (in_plcOp input) = false
    /\ (forall p, in_password input = Some p ->
                  JS.length p <= NEW_PASSWORD_MAX_LENGTH lib)
    /\ (cfg_invites_required (cfg ctx) = true ->
        JS.truthy (in_inviteCode input) = true)
    /\ in_email input = Some email /\ email <> ""
    /\ isEmailValid lib email = true
    /\ isDisposableEmail lib email = false
    /\ exists w1 w2 w3 w4,
         accountManager_normalizeAndValidateHandle ctx (in_handle input)
           (in_did input) (world s) = (Ok handle, w1)
         /\ match in_inviteCode input with
            | Some code =>
                if cfg_invites_required (cfg ctx) && negb (code =? "")
                then accountManager_ensureInviteIsAvailable ctx code w1
                     = (Ok tt, w2)
                else w2 = w1
            | None => w2 = w1
            end
         /\ accountManager_getAccount ctx handle w2 = (Ok false, w3)
         /\ accountManager_getAccountByEmail ctx email w3 = (Ok false, w4)
         /\ Secp256k1Keypair_create lib w4 = (Ok signingKey, world s')
         /\ trace s'
            = trace s
              ++ [EvNormalizeAndValidateHandle (in_handle input)
                    (in_did input) (Ok handle)]
              ++ match in_inviteCode input with
                 | Some code =>
                     if cfg_invites_required (cfg ctx) && negb (code =? "")
                     then [EvEnsureInviteIsAvailable code (Ok tt)]
                     else []
                 | None => []
                 end
              ++ [ EvGetAccount handle (Ok false);
                   EvGetAccountByEmail email (Ok false);
                   EvKeypairCreate (Ok signingKey) ].
Proof.
  intros W lib ctx input s s' handle email signingKey H.
  unfold localChecks in H. unfold JS.truthy in *.
  destruct (raw_truthy (in_plcOp input)); [discriminate|].
  split; [reflexivity|].
  destruct (match in_password input with
            | Some p =>
                negb (p =? "")
                && Nat.ltb (NEW_PASSWORD_MAX_LENGTH lib) (JS.length p)
            | None => false
            end) eqn:P; [discriminate|].
  split.
  { intros p E. rewrite E in P.
    destruct (String.eqb_spec p "") as [Z|Z]; cbn in P.
    - rewrite Z. cbn. lia.
    - apply Nat.ltb_ge in P. exact P. }
  destruct (cfg_invites_required (cfg ctx)
            && negb match in_inviteCode input with
                    | Some s0 => negb (s0 =? "")
                    | None => false
                    end) eqn:Q; [discriminate|].
  split.
  { intros R. rewrite R in Q. cbn in Q. apply negb_false_iff in Q. exact Q. }
  clear P Q.
  destruct (in_email input) as [em|]; [|discriminate].
  destruct (String.eqb_spec em "") as [|N]; [discriminate|].
  destruct (isEmailValid lib em) eqn:V; [|discriminate].
  destruct (isDisposableEmail lib em) eqn:X; [discriminate|].
  cbn in H. unfold_m. cbn in H.
  steps H; inv_pair; units; cbn [world trace].
  all: do 4 (split; [first [reflexivity | assumption]|]).
  all: do 4 eexists.
  all: split; [reflexivity|].
  all: split; [first [eassumption | reflexivity]|].
  all: do 3 (split; [eassumption|]).
  all: cbn; reassoc; reflexivity.
Qed.

(** On the test double: Alice with an invite code, on a service that
    requires one. *)
Lemma local_checks_accept_only_witness :
  exists s' w1 w2 w3 w4,
    localChecks Mock.lib Cases.inviteOnly Cases.aliceInvited
      (Cases.start (Mock.empty (HttpStatus 200) []))
    = (Ok ("alice.example", "alice@example.com",
           mkKeypair "did:key:zFresh" "fresh-secret"), s')
    /\ JS.length "hunter2" <= NEW_PASSWORD_MAX_LENGTH Mock.lib
    /\ accountManager_normalizeAndValidateHandle Cases.inviteOnly
         "alice.example" None (Mock.empty (HttpStatus 200) [])
       = (Ok "alice.example", w1)
    /\ accountManager_ensureInviteIsAvailable Cases.inviteOnly "invite-1" w1
       = (Ok tt, w2)
    /\ accountManager_getAccount Cases.inviteOnly "alice.example" w2
       = (Ok false, w3)
    /\ accountManager_getAccountByEmail Cases.inviteOnly "alice@example.com"
         w3
       = (Ok false, w4)
    /\ Secp256k1Keypair_create Mock.lib w4
       = (Ok (mkKeypair "did:key:zFresh" "fresh-secret"), world s')
    /\ trace s'
       = [ EvNormalizeAndValidateHandle "alice.example" None
             (Ok "alice.example");
           EvEnsureInviteIsAvailable "invite-1" (Ok tt);
           EvGetAccount "alice.example" (Ok false);
           EvGetAccountByEmail "alice@example.com" (Ok false);
           EvKeypairCreate (Ok (mkKeypair "did:key:zFresh" "fresh-secret")) ].
Proof.
  destruct (localChecks Mock.lib Cases.inviteOnly Cases.aliceInvited
              (Cases.start (Mock.empty (HttpStatus 200) [])))
    as [r s'] eqn:V.
  assert (R : r = Ok ("alice.example", "alice@example.com",
                      mkKeypair "did:key:zFresh" "fresh-secret"))
    by (vm_compute in V; injection V as <- _; reflexivity).
  subst r.
  destruct (local_checks_accept_only _ _ _ _ _ _ _ _ _ V)
    as (_ & P & _ & _ & _ & _ & _ & w1 & w2 & w3 & w4
        & C1 & C2 & C3 & C4 & C5 & T).
  exists s', w1, w2, w3, w4.
  split; [reflexivity|]. split; [exact (P _ eq_refl)|].
  split; [exact C1|]. split; [exact C2|]. split; [exact C3|].
  split; [exact C4|]. split; [exact C5|]. exact T.
Defined.

(** The length of a password is counted as the code counts it: 129 Cyrillic
    letters are 258 bytes and 129 code units, and pass where the maximum is
    256; 257 of them do not. *)
Example password_length_in_code_units :
  String.length (Cases.letters 129) = 258
  /\ JS.length (Cases.letters 129) = 129
  /\ NEW_PASSWORD_MAX_LENGTH Mock.lib = 256
  /\ is_ok (fst (localChecks Mock.lib Cases.local
                   (Cases.aliceWithPassword (Cases.letters 129))
                   (Cases.start (Mock.empty (HttpStatus 200) []))))
     = true
  /\ fst (localChecks Mock.lib Cases.local
            (Cases.aliceWithPassword (Cases.letters 257))
            (Cases.start (Mock.empty (HttpStatus 200) [])))
     = Err (InvalidRequestError
              "Password too long. Maximum length is 256 characters." None).
Proof. vm_compute. repeat split; reflexivity. Qed.

(** The local validator copies the invite code of the request into its
    plan. *)
Lemma local_plan_inviteCode :
  forall (W : Type) (lib : Imports W) (ctx : AppContext W)
         (input : CreateAccountInput) (requester : option string)
         (s s1 : St W) (plan : Plan),
    validateInputsForLocalPds lib ctx input requester s = (Ok plan, s1) ->
    plan_inviteCode plan = in_inviteCode input.
Proof.
  intros W lib ctx input requester s s1 plan H.
  unfold validateInputsForLocalPds in H. unfold bind at 1 in H.
  destruct (localChecks lib ctx input s) as [[[[h e] k]|x] s0];
    [|discriminate].
  unfold bind at 1 in H.
  destruct (localIdentity lib ctx input requester h k s0)
    as [[[[d o] dd]|x] s2]; [|discriminate].
  unfold ret in H. inv_pair. reflexivity.
Qed.

(** X15. The invite code is checked for availability only on a service that
    requires invites. On a service that does not, the local validator never
    asks whether the code is available; and a code that the request carries
    goes into the plan all the same, and in a successful request the
    account manager is called to create the account with that very code,
    unchecked. *)
Theorem invite_checked_only_when_required :
  forall (W : Type) (lib : Imports W) (ctx : AppContext W)
         (input : CreateAccountInput) (auth : AuthOutput) (w : W),
    (cfg_invites_required (cfg ctx) = false ->
     inviteChecks
       (trace (snd (run (validateInputsForLocalPds lib ctx input
                           (credentials_did auth)) w))) = [])
    /\ (forall out s',
           entrywayAgent ctx = false ->
           run (handler lib ctx input auth) w = (Ok out, s') ->
           exists plan s1 commit didDoc creds w1 w2 w3 w4 w5,
             run (validateInputsForLocalPds lib ctx input (credentials_did auth))
              w
            = (Ok plan, s1)
            /\ plan_inviteCode plan = in_inviteCode input
            /\ actorStore_create ctx (plan_did plan) (plan_signingKey plan)
                 (world s1) = (Ok tt, w1)
            /\ actorStore_createRepo ctx (plan_did plan) w1 = (Ok commit, w2)
            /\ match plan_plcOp plan with
               | Some plcOp =>
                   exists sub,
                     run (createAndSendPrismTransaction lib (plan_did plan)
                            plcOp (plcRotationKey ctx)) w2 = (Ok tt, sub)
                     /\ w3 = world sub
               | None => w3 = w2
               end
            /\ safeResolveDidDoc lib (plan_did plan) true w3 = (Ok didDoc, w4)
            /\ accountManager_createAccountAndSession ctx
                 {| acc_did := plan_did plan;
                    acc_handle := plan_handle plan;
                    acc_email := plan_email plan;
                    acc_password := plan_password plan;
                    acc_repoCid := cid commit;
                    acc_repoRev := rev commit;
                    acc_inviteCode := in_inviteCode input;
                    acc_deactivated := plan_deactivated plan |} w4
               = (Ok creds, w5)).
Proof.
  intros W lib ctx input auth w. split.
  - unfold run.
    destruct (validateInputsForLocalPds lib ctx input (credentials_did auth)
                {| world := w; trace := [] |}) as [r s'] eqn:H.
    cbn [fst snd].
    unfold validateInputsForLocalPds, localChecks, localIdentity,
      formatDidAndPlcOp, createOp in H.
    unfold_m. cbn in H.
    intros R. rewrite R in H. cbn in H.
    steps H; inv_pair; reflexivity.
  - intros out s' E H.
    destruct (handler_ok_calls _ _ _ _ _ _ _ H) as (plan & s1 & V & F & P).
    destruct (provision_ok_calls _ _ _ _ _ _ P)
      as (commit & mid & didDoc & creds & w1 & w2 & w3 & w4 & w5 & w6 & w7
          & C1 & C2 & C3 & C4 & C5 & _).
    unfold run, validateInputs in V. rewrite E in V.
    pose proof (local_plan_inviteCode _ _ _ _ _ _ _ _ V) as I.
    exists plan, s1, commit, didDoc, creds, w1, w2, w3, w4, w5.
    split; [exact V|]. split; [exact I|].
    do 4 (split; [assumption|]).
    rewrite <- I. exact C5.
Qed.

(** On the test double: Alice sends an invite code to a service that does
    not require one; the code is in the account that the double stored. *)
Lemma invite_checked_only_when_required_witness :
  inviteChecks
    (trace (snd (run (validateInputsForLocalPds Mock.lib Cases.local
                        Cases.aliceInvited None)
                   (Mock.empty (HttpStatus 200) [])))) = []
  /\ (exists plan s1 commit didDoc creds w1 w2 w3 w4 w5,
        run (validateInputsForLocalPds Mock.lib Cases.local
               Cases.aliceInvited None)
          (Mock.empty (HttpStatus 200) [])
        = (Ok plan, s1)
        /\ plan_inviteCode plan = Some "invite-1"
        /\ actorStore_create Cases.local (plan_did plan) (plan_signingKey plan)
             (world s1) = (Ok tt, w1)
        /\ actorStore_createRepo Cases.local (plan_did plan) w1
           = (Ok commit, w2)
        /\ match plan_plcOp plan with
           | Some plcOp =>
               exists sub,
                 run (createAndSendPrismTransaction Mock.lib (plan_did plan)
                        plcOp (plcRotationKey Cases.local)) w2
                 = (Ok tt, sub)
                 /\ w3 = world sub
           | None => w3 = w2
           end
        /\ safeResolveDidDoc Mock.lib (plan_did plan) true w3 = (Ok didDoc, w4)
        /\ accountManager_createAccountAndSession Cases.local
             {| acc_did := plan_did plan;
                acc_handle := plan_handle plan;
                acc_email := plan_email plan;
                acc_password := plan_password plan;
                acc_repoCid := cid commit;
                acc_repoRev := rev commit;
                acc_inviteCode := Some "invite-1";
                acc_deactivated := plan_deactivated plan |} w4
           = (Ok creds, w5))
  /\ map acc_inviteCode
       (Mock.accounts
          (world (snd (run (handler Mock.lib Cases.local Cases.aliceInvited
                              Mock.anonymous)
                         (Mock.empty (HttpStatus 200) [])))))
     = [Some "invite-1"].
Proof.
  split; [|split]; [| |vm_compute; reflexivity].
  - apply (proj1 (invite_checked_only_when_required Mock.World Mock.lib
                    Cases.local Cases.aliceInvited Mock.anonymous
                    (Mock.empty (HttpStatus 200) []))).
    reflexivity.
  - eapply (proj2 (invite_checked_only_when_required Mock.World Mock.lib
                     Cases.local Cases.aliceInvited Mock.anonymous
                     (Mock.empty (HttpStatus 200) []))).
    + reflexivity.
    + vm_compute. reflexivity.
Defined.

(** ** The wrapper of [createOp], outside of dids of the plc method *)

Lemma replace_absent (pat rep s : string) :
  occurs pat s = false -> JS.replace pat rep s = s.
Proof.
  induction s as [|c s IH]; cbn [occurs JS.replace]; intros H;
    apply orb_false_iff in H; destruct H as [P O]; rewrite P.
  - reflexivity.
  - rewrite (IH O). reflexivity.
Qed.

(** X16. The wrapper changes nothing that is not a did with did:plc: in
    it: an error of the library is thrown on unchanged, and a result whose
    did does not contain did:plc: is returned as it is, did included. So
    the wrapper does not make a did:prism: did out of a did of another
    method. *)
Theorem createOp_passes_through :
  forall (W : Type) (lib : Imports W) (input : CreateOpInput) (s : St W),
    (forall e w',
        plc_lib_createOp lib input (world s) = (Err e, w') ->
        createOp lib input s
        = (Err e,
           {| world := w';
              trace := trace s ++ [EvPlcCreateOp input (Err e)] |}))
    /\ (forall r w',
           plc_lib_createOp lib input (world s) = (Ok r, w') ->
           occurs "did:plc:" (res_did r) = false ->
           createOp lib input s
           = (Ok r,
              {| world := w';
                 trace := trace s ++ [EvPlcCreateOp input (Ok r)] |})).
Proof.
  intros W lib input s. unfold createOp, bind, invoke, ret. split.
  - intros e w' L. rewrite L. reflexivity.
  - intros r w' L O. rewrite L, (replace_absent _ _ _ O).
    destruct r. reflexivity.
Qed.

(** On the test double: a library that mints a did of the web method. *)
Lemma createOp_passes_through_witness :
  fst (createOp Cases.webLib
         (mkCreateOpInput "did:key:zFresh" ["did:key:zOperator"]
            "alice.example" "https://pds.test" (plcRotationKey Cases.local))
         (Cases.start (Mock.empty (HttpStatus 200) [])))
  = Ok {| res_op := Cases.listedOp; res_did := "did:web:example.com" |}.
Proof.
  erewrite (proj2 (createOp_passes_through Mock.World Cases.webLib
                     (mkCreateOpInput "did:key:zFresh" ["did:key:zOperator"]
                        "alice.example" "https://pds.test"
                        (plcRotationKey Cases.local))
                     (Cases.start (Mock.empty (HttpStatus 200) [])))
              {| res_op := Cases.listedOp;
                 res_did := "did:web:example.com" |}
              (Mock.empty (HttpStatus 200) []) eq_refl eq_refl).
  reflexivity.
Defined.

(** ** The environment of the bsky service *)

Lemma or_else_none (a : option string) :
  BskyApi.or_else a None <> Some "".
Proof.
  unfold BskyApi.or_else, JS.truthy. destruct a as [x|]; [|discriminate].
  destruct (String.eqb_spec x ""); cbn; [discriminate|]. congruence.
Qed.

Lemma truthy_or_else (a : option string) :
  JS.truthy a = JS.truthy (BskyApi.or_else a None).
Proof.
  unfold BskyApi.or_else. destruct (JS.truthy a) eqn:E; [exact (eq_sym E)|].
  reflexivity.
Qed.

Lemma or_else_same (a a' b b' : option string) :
  BskyApi.or_else a None = BskyApi.or_else a' None ->
  BskyApi.or_else b None = BskyApi.or_else b' None ->
  BskyApi.or_else (BskyApi.or_else a b) None
  = BskyApi.or_else (BskyApi.or_else a' b') None.
Proof.
  unfold BskyApi.or_else, JS.truthy.
  destruct a as [x|], a' as [x'|], b as [y|], b' as [y'|];
    repeat match goal with
           | |- context [(?z =? "")%string] =>
               destruct (String.eqb_spec z ""); subst; cbn
           end;
    intros; congruence.
Qed.

(** X17. When the dependencies are embedded. BSKY_EMBED_DEPS set to true
    embeds them and set to false does not, whatever else is set; with any
    other value, or unset, they are embedded exactly when a dataplane URL
    (BSKY_DATAPLANE_URLS or BSKY_DATAPLANE_URL) or the bsync URL
    (BSKY_BSYNC_URL) is missing, where a variable set to the empty string
    counts as missing. So a service configured with only one of the two
    still embeds both. *)
Theorem shouldEmbedDeps_spec :
  forall env : BskyApi.Env,
    (env "BSKY_EMBED_DEPS" = Some "true" ->
     BskyApi.shouldEmbedDeps env = true)
    /\ (env "BSKY_EMBED_DEPS" = Some "false" ->
        BskyApi.shouldEmbedDeps env = false)
    /\ (env "BSKY_EMBED_DEPS" <> Some "true" ->
        env "BSKY_EMBED_DEPS" <> Some "false" ->
        (BskyApi.shouldEmbedDeps env = false
         <-> (JS.truthy (env "BSKY_DATAPLANE_URLS") = true
              \/ JS.truthy (env "BSKY_DATAPLANE_URL") = true)
             /\ JS.truthy (env "BSKY_BSYNC_URL") = true)).
Proof.
  intros env. unfold BskyApi.shouldEmbedDeps, BskyApi.is_set_to.
  split; [intros ->; reflexivity|].
  split; [intros ->; reflexivity|].
  intros T F.
  destruct (env "BSKY_EMBED_DEPS") as [v|].
  - destruct (String.eqb_spec v "true") as [->|_]; [congruence|].
    destruct (String.eqb_spec v "false") as [->|_]; [congruence|].
    cbv zeta. unfold BskyApi.or_else.
    destruct (JS.truthy (env "BSKY_DATAPLANE_URLS")) eqn:A;
      [rewrite A|]; destruct (JS.truthy (env "BSKY_DATAPLANE_URL"));
      destruct (JS.truthy (env "BSKY_BSYNC_URL")); cbn; split; intros;
      try discriminate; try tauto; intuition discriminate.
  - cbv zeta. unfold BskyApi.or_else.
    destruct (JS.truthy (env "BSKY_DATAPLANE_URLS")) eqn:A;
      [rewrite A|]; destruct (JS.truthy (env "BSKY_DATAPLANE_URL"));
      destruct (JS.truthy (env "BSKY_BSYNC_URL")); cbn; split; intros;
      try discriminate; try tauto; intuition discriminate.
Qed.

(** X18. A variable that is set to the empty string is as good as unset:
    two environments that agree on the variables with a value that is not
    empty give the same decision on embedding, the same signing key and the
    same embedded settings. And no setting that is read is ever the empty
    string: it is a string that is not empty, or undefined, and the URL of
    the PLC directory always has a value. *)
Theorem empty_variables_are_unset :
  forall env env' : BskyApi.Env,
    BskyApi.sameSettings env env' ->
    BskyApi.shouldEmbedDeps env = BskyApi.shouldEmbedDeps env'
    /\ BskyApi.getEnv env = BskyApi.getEnv env'
    /\ BskyApi.getEmbeddedEnv env = BskyApi.getEmbeddedEnv env'
    /\ BskyApi.getEnv env <> Some ""
    /\ BskyApi.dbUrl (BskyApi.getEmbeddedEnv env) <> Some ""
    /\ BskyApi.dbSchema (BskyApi.getEmbeddedEnv env) <> Some ""
    /\ BskyApi.repoProvider (BskyApi.getEmbeddedEnv env) <> Some ""
    /\ BskyApi.plcUrl (BskyApi.getEmbeddedEnv env) <> "".
Proof.
  intros env env' S.
  assert (T : forall k, JS.truthy (env k) = JS.truthy (env' k))
    by (intros k; rewrite (truthy_or_else (env k)),
          (truthy_or_else (env' k)), (S k); reflexivity).
  assert (I : forall k v, v <> "" ->
                BskyApi.is_set_to (env k) v = BskyApi.is_set_to (env' k) v).
  { intros k v N. specialize (S k). unfold BskyApi.is_set_to.
    unfold BskyApi.or_else, JS.truthy in S.
    destruct (env k) as [x|], (env' k) as [x'|]; cbn in *;
      repeat match goal with
             | H : context [(?z =? "")%string] |- _ =>
                 destruct (String.eqb_spec z ""); subst; cbn in H
             end;
      try congruence;
      try (destruct (String.eqb_spec "" v); congruence). }
  split; [|split; [|split; [|split; [|split; [|split; [|split]]]]]].
  - unfold BskyApi.shouldEmbedDeps.
    rewrite (I _ "true"), (I _ "false") by discriminate.
    rewrite (T "BSKY_BSYNC_URL").
    rewrite (truthy_or_else (BskyApi.or_else _ _)).
    rewrite (or_else_same _ _ _ _ (S "BSKY_DATAPLANE_URLS")
               (S "BSKY_DATAPLANE_URL")).
    rewrite <- truthy_or_else. reflexivity.
  - apply S.
  - unfold BskyApi.getEmbeddedEnv. f_equal.
    + apply or_else_same; apply S.
    + apply or_else_same; apply S.
    + apply or_else_same; apply S.
    + specialize (S "BSKY_DID_PLC_URL").
      unfold BskyApi.or_else, JS.truthy in S.
      destruct (env "BSKY_DID_PLC_URL") as [x|],
               (env' "BSKY_DID_PLC_URL") as [x'|]; cbn in *;
        repeat match goal with
               | H : context [(?z =? "")%string] |- _ =>
                   destruct (String.eqb_spec z ""); subst; cbn in H
               end;
        cbn; try congruence;
        repeat match goal with
               | |- context [(?z =? "")%string] =>
                   destruct (String.eqb_spec z ""); subst; cbn
               end; congruence.
  - apply or_else_none.
  - apply or_else_none.
  - apply or_else_none.
  - apply or_else_none.
  - cbn. destruct (env "BSKY_DID_PLC_URL") as [x|]; [|discriminate].
    destruct (String.eqb_spec x ""); [discriminate | assumption].
Qed.

(** Two environments: one sets the bsync URL and the schema to the empty
    string, the other does not set them. *)
Lemma empty_variables_are_unset_witness :
  BskyApi.shouldEmbedDeps
    (Cases.envOf [("BSKY_DATAPLANE_URL", "http://dataplane");
                  ("BSKY_BSYNC_URL", ""); ("DB_POSTGRES_SCHEMA", "")])
  = BskyApi.shouldEmbedDeps
      (Cases.envOf [("BSKY_DATAPLANE_URL", "http://dataplane")])
  /\ BskyApi.getEmbeddedEnv
       (Cases.envOf [("BSKY_DATAPLANE_URL", "http://dataplane");
                     ("BSKY_BSYNC_URL", ""); ("DB_POSTGRES_SCHEMA", "")])
     = BskyApi.getEmbeddedEnv
         (Cases.envOf [("BSKY_DATAPLANE_URL", "http://dataplane")]).
Proof.
  destruct (empty_variables_are_unset
              (Cases.envOf [("BSKY_DATAPLANE_URL", "http://dataplane");
                            ("BSKY_BSYNC_URL", "");
                            ("DB_POSTGRES_SCHEMA", "")])
              (Cases.envOf [("BSKY_DATAPLANE_URL", "http://dataplane")]))
    as (A & _ & B & _).
  - intros k. unfold Cases.envOf. cbn.
    destruct (k =? "BSKY_DATAPLANE_URL")%string; [reflexivity|].
    destruct (k =? "BSKY_BSYNC_URL")%string; [reflexivity|].
    destruct (k =? "DB_POSTGRES_SCHEMA")%string; reflexivity.
  - split; assumption.
Defined.

(** ** The resolver of did:prism dids *)

Lemma split_free (sep : ascii) (s : string) :
  PrismResolver.free_of sep s = true -> PrismResolver.split sep s = [s].
Proof.
  induction s as [|c s IH]; cbn; intros F; [reflexivity|].
  apply andb_prop in F. destruct F as [C F].
  apply negb_true_iff in C. rewrite C, (IH F). reflexivity.
Qed.

Lemma split_segment (sep : ascii) (a b : string) :
  PrismResolver.free_of sep a = true ->
  PrismResolver.split sep (a ++ String sep b)
  = a :: PrismResolver.split sep b.
Proof.
  induction a as [|c a IH]; cbn; intros F.
  - rewrite Ascii.eqb_refl. reflexivity.
  - apply andb_prop in F. destruct F as [C F].
    apply negb_true_iff in C. rewrite C, (IH F). reflexivity.
Qed.

Lemma split_cons (sep : ascii) (s : string) :
  exists x xs, PrismResolver.split sep s = x :: xs.
Proof.
  induction s as [|c s (x & xs & IH)]; cbn.
  - eexists; eexists; reflexivity.
  - destruct (Ascii.eqb c sep); [eexists; eexists; reflexivity|].
    rewrite IH. eexists; eexists; reflexivity.
Qed.

(** Splitting and joining again gives the string back. *)
Lemma join_split (sep : ascii) (s : string) :
  PrismResolver.join sep (PrismResolver.split sep s) = s.
Proof.
  induction s as [|c s IH]; [reflexivity|].
  cbn [PrismResolver.split].
  destruct (split_cons sep s) as (x & xs & E). rewrite E in *.
  destruct (Ascii.eqb_spec c sep) as [->|N].
  - change (PrismResolver.join sep (EmptyString :: x :: xs))
      with (String sep (PrismResolver.join sep (x :: xs))).
    rewrite IH. reflexivity.
  - destruct xs as [|y ys].
    + cbn in *. rewrite IH. reflexivity.
    + change (PrismResolver.join sep (String c x :: y :: ys))
        with (String c (PrismResolver.join sep (x :: y :: ys))).
      rewrite IH. reflexivity.
Qed.

(** X19. The resolver asks the ledger for the third segment of the did and
    looks at nothing else of it: the method is not checked, and whatever
    follows a further colon is dropped. So a did of any method and a did
    with more segments are resolved exactly as the did:prism: did of the
    same third segment. *)
Theorem resolver_uses_third_segment_only :
  forall (W Signal : Type) (platform : PrismResolver.Platform W Signal)
         (self : PrismResolver.DidPrismResolver) (scheme method id : string)
         (w : W),
    PrismResolver.free_of ":" scheme = true ->
    PrismResolver.free_of ":" method = true ->
    PrismResolver.free_of ":" id = true ->
    PrismResolver.accountIdOf (scheme ++ ":" ++ method ++ ":" ++ id)
    = Some id
    /\ PrismResolver.resolveNoCheck platform self
         (scheme ++ ":" ++ method ++ ":" ++ id) w
       = PrismResolver.resolveNoCheck platform self ("did:prism:" ++ id) w
    /\ forall more,
         PrismResolver.resolveNoCheck platform self
           (scheme ++ ":" ++ method ++ ":" ++ id ++ ":" ++ more) w
         = PrismResolver.resolveNoCheck platform self ("did:prism:" ++ id) w.
Proof.
  intros W Signal platform self scheme method id w S M I.
  assert (A : forall a b, PrismResolver.free_of ":" a = true ->
                PrismResolver.free_of ":" b = true ->
                PrismResolver.accountIdOf (a ++ ":" ++ b ++ ":" ++ id)
                = Some id).
  { intros a b Fa Fb. unfold PrismResolver.accountIdOf.
    change (a ++ ":" ++ b ++ ":" ++ id)%string
      with (a ++ String ":" (b ++ String ":" id))%string.
    rewrite (split_segment _ _ _ Fa), (split_segment _ _ _ Fb),
      (split_free _ _ I). reflexivity. }
  assert (B : forall a b more, PrismResolver.free_of ":" a = true ->
                PrismResolver.free_of ":" b = true ->
                PrismResolver.accountIdOf
                  (a ++ ":" ++ b ++ ":" ++ id ++ ":" ++ more)
                = Some id).
  { intros a b more Fa Fb. unfold PrismResolver.accountIdOf.
    change (a ++ ":" ++ b ++ ":" ++ id ++ ":" ++ more)%string
      with (a ++ String ":" (b ++ String ":" (id ++ String ":" more)))%string.
    rewrite (split_segment _ _ _ Fa), (split_segment _ _ _ Fb),
      (split_segment _ _ _ I). reflexivity. }
  assert (P : PrismResolver.accountIdOf ("did:prism:" ++ id) = Some id)
    by (exact (A "did" "prism" eq_refl eq_refl)).
  split; [exact (A _ _ S M)|]. split.
  - unfold PrismResolver.resolveNoCheck. rewrite (A _ _ S M), P. reflexivity.
  - intros more. unfold PrismResolver.resolveNoCheck.
    rewrite (B _ _ more S M), P. reflexivity.
Qed.

(** On the test platform: a did of the web method with a path is resolved
    by asking for its third segment. *)
Lemma resolver_uses_third_segment_only_witness :
  PrismResolver.accountIdOf ("did" ++ ":" ++ "web" ++ ":" ++ "abc123")
  = Some "abc123"
  /\ PrismResolver.resolveNoCheck
       (Cases.platform (PrismResolver.mkResponse 200 "OK"
                          (inr (PrismResolver.JObject (Some "document")))))
       (PrismResolver.mkResolver "http://prism" 3000%N)
       ("did" ++ ":" ++ "web" ++ ":" ++ "abc123") ([], [])
     = PrismResolver.resolveNoCheck
         (Cases.platform (PrismResolver.mkResponse 200 "OK"
                            (inr (PrismResolver.JObject (Some "document")))))
         (PrismResolver.mkResolver "http://prism" 3000%N)
         ("did:prism:" ++ "abc123") ([], [])
  /\ forall more,
       PrismResolver.resolveNoCheck
         (Cases.platform (PrismResolver.mkResponse 200 "OK"
                            (inr (PrismResolver.JObject (Some "document")))))
         (PrismResolver.mkResolver "http://prism" 3000%N)
         ("did" ++ ":" ++ "web" ++ ":" ++ "abc123" ++ ":" ++ more) ([], [])
       = PrismResolver.resolveNoCheck
           (Cases.platform (PrismResolver.mkResponse 200 "OK"
                              (inr (PrismResolver.JObject
                                      (Some "document")))))
           (PrismResolver.mkResolver "http://prism" 3000%N)
           ("did:prism:" ++ "abc123") ([], []).
Proof.
  apply (resolver_uses_third_segment_only Cases.ResolverWorld unit
           (Cases.platform (PrismResolver.mkResponse 200 "OK"
                              (inr (PrismResolver.JObject
                                      (Some "document")))))
           (PrismResolver.mkResolver "http://prism" 3000%N)
           "did" "web" "abc123" ([], [])); reflexivity.
Defined.

(** X20. A did with fewer than three segments is not refused by the
    resolver: the third segment is undefined, and the function given to
    [timed] is the one that sends the request with an id that is
    undefined. *)
Theorem resolver_short_did_has_no_id :
  forall (W Signal : Type) (platform : PrismResolver.Platform W Signal)
         (self : PrismResolver.DidPrismResolver) (scheme method : string)
         (w : W),
    PrismResolver.free_of ":" scheme = true ->
    PrismResolver.free_of ":" method = true ->
    PrismResolver.accountIdOf scheme = None
    /\ PrismResolver.accountIdOf (scheme ++ ":" ++ method) = None
    /\ PrismResolver.resolveNoCheck platform self (scheme ++ ":" ++ method) w
       = PrismResolver.timed platform (option string)
           (PrismResolver.timeout self)
           (PrismResolver.resolveWithin platform self None)
           (PrismResolver.console_log platform
              PrismResolver.LogUsingPrismResolver w).
Proof.
  intros W Signal platform self scheme method w S M.
  assert (A : PrismResolver.accountIdOf (scheme ++ ":" ++ method) = None).
  { unfold PrismResolver.accountIdOf.
    change (scheme ++ ":" ++ method)%string
      with (scheme ++ String ":" method)%string.
    rewrite (split_segment _ _ _ S), (split_free _ _ M). reflexivity. }
  split; [|split; [exact A|]].
  - unfold PrismResolver.accountIdOf. rewrite (split_free _ _ S).
    reflexivity.
  - unfold PrismResolver.resolveNoCheck. rewrite A. reflexivity.
Qed.

(** On the test platform: the did did:prism, without an identifier; the
    request goes out without an id. *)
Lemma resolver_short_did_has_no_id_witness :
  PrismResolver.accountIdOf "did" = None
  /\ PrismResolver.accountIdOf ("did" ++ ":" ++ "prism") = None
  /\ PrismResolver.resolveNoCheck
       (Cases.platform (PrismResolver.mkResponse 200 "OK"
                          (inr (PrismResolver.JObject None))))
       (PrismResolver.mkResolver "http://prism" 3000%N)
       ("did" ++ ":" ++ "prism") ([], [])
     = (inr None,
        ([PrismResolver.mkRequest "http://prism/get-did-document" "POST"
            [("Content-Type", "application/json");
             ("Accept", "application/json")] None],
         [PrismResolver.LogUsingPrismResolver;
          PrismResolver.LogResponse (PrismResolver.JObject None)])).
Proof.
  destruct (resolver_short_did_has_no_id Cases.ResolverWorld unit
              (Cases.platform (PrismResolver.mkResponse 200 "OK"
                                 (inr (PrismResolver.JObject None))))
              (PrismResolver.mkResolver "http://prism" 3000%N)
              "did" "prism" ([], []) eq_refl eq_refl) as (A & B & C).
  split; [exact A|]. split; [exact B|]. rewrite C. reflexivity.
Defined.

(** X21. An answer of the ledger with a status outside 200 to 299 makes
    the resolver throw an error made of the status text and the status; the
    body of the answer is not read, so the outcome is the same whatever the
    body is, and nothing is written to the console. *)
Theorem resolver_rejects_bad_status :
  forall (W Signal : Type) (platform : PrismResolver.Platform W Signal)
         (self : PrismResolver.DidPrismResolver) (accountId : option string)
         (signal : Signal) (w w1 : W) (res : PrismResolver.Response),
    PrismResolver.fetch platform
      {| PrismResolver.req_url :=
           (PrismResolver.prismUrl self ++ "/get-did-document")%string;
         PrismResolver.req_method := "POST";
         PrismResolver.req_headers :=
           [("Content-Type", "application/json");
            ("Accept", "application/json")];
         PrismResolver.req_body_id := accountId |} signal w
    = (inr res, w1) ->
    (PrismResolver.res_status res < 200
     \/ 300 <= PrismResolver.res_status res) ->
    PrismResolver.resolveWithin platform self accountId signal w
    = (inl (PrismResolver.HttpError (PrismResolver.res_statusText res)
              (PrismResolver.res_status res)), w1).
Proof.
  intros W Signal platform self accountId signal w w1 res F S.
  unfold PrismResolver.resolveWithin. rewrite F.
  unfold validateStatus.
  destruct (Nat.leb_spec 200 (PrismResolver.res_status res));
    destruct (Nat.ltb_spec (PrismResolver.res_status res) 300);
    cbn; try reflexivity; lia.
Qed.

(** On the test platform: the ledger answers 404 with a body that would
    parse. *)
Lemma resolver_rejects_bad_status_witness :
  PrismResolver.resolveWithin
    (Cases.platform (PrismResolver.mkResponse 404 "Not Found"
                       (inr (PrismResolver.JObject (Some "document")))))
    (PrismResolver.mkResolver "http://prism" 3000%N) (Some "abc123") tt
    ([], [])
  = (inl (PrismResolver.HttpError "Not Found" 404),
     ([] ++ [PrismResolver.mkRequest "http://prism/get-did-document" "POST"
               [("Content-Type", "application/json");
                ("Accept", "application/json")] (Some "abc123")], [])).
Proof.
  apply (resolver_rejects_bad_status Cases.ResolverWorld unit
           (Cases.platform (PrismResolver.mkResponse 404 "Not Found"
                              (inr (PrismResolver.JObject
                                      (Some "document")))))
           (PrismResolver.mkResolver "http://prism" 3000%N) (Some "abc123") tt
           ([], []) _
           (PrismResolver.mkResponse 404 "Not Found"
              (inr (PrismResolver.JObject (Some "document"))))).
  - reflexivity.
  - right. cbn. lia.
Defined.

(** X22. The two files meet: when the library mints did:plc: followed by an
    identifier without a colon, the wrapper returns did:prism: followed by
    that identifier, and the resolver, given this did, asks the ledger for
    exactly that identifier: it runs, within its timeout and after its log
    line, the function that sends to the get-did-document address of the
    ledger the POST whose body holds that identifier as its id; what that
    one request brings back decides the outcome (an error of the request is
    thrown on, and the document of an accepted answer is returned). *)
Theorem minted_did_resolves_by_its_identifier :
  forall (W : Type) (lib : Imports W) (input : CreateOpInput) (s : St W)
         (r : CreateOpResult) (w' : W) (id : string),
    plc_lib_createOp lib input (world s) = (Ok r, w') ->
    res_did r = ("did:plc:" ++ id)%string ->
    PrismResolver.free_of ":" id = true ->
    exists r',
      createOp lib input s
      = (Ok r',
         {| world := w'; trace := trace s ++ [EvPlcCreateOp input (Ok r)] |})
      /\ res_did r' = ("did:prism:" ++ id)%string
      /\ forall (V Signal : Type) (platform : PrismResolver.Platform V Signal)
                (self : PrismResolver.DidPrismResolver) (v : V),
           let request :=
             {| PrismResolver.req_url :=
                  (PrismResolver.prismUrl self ++ "/get-did-document")%string;
                PrismResolver.req_method := "POST";
                PrismResolver.req_headers :=
                  [("Content-Type", "application/json");
                   ("Accept", "application/json")];
                PrismResolver.req_body_id := Some id |} in
           PrismResolver.resolveNoCheck platform self (res_did r') v
           = PrismResolver.timed platform (option string)
               (PrismResolver.timeout self)
               (PrismResolver.resolveWithin platform self (Some id))
               (PrismResolver.console_log platform
                  PrismResolver.LogUsingPrismResolver v)
           /\ (forall signal v0 e v1,
                  PrismResolver.fetch platform request signal v0
                  = (inl e, v1) ->
                  PrismResolver.resolveWithin platform self (Some id) signal
                    v0
                  = (inl e, v1))
           /\ (forall signal v0 res v1 document,
                  PrismResolver.fetch platform request signal v0
                  = (inr res, v1) ->
                  validateStatus (PrismResolver.res_status res) = true ->
                  PrismResolver.res_json res
                  = inr (PrismResolver.JObject document) ->
                  PrismResolver.resolveWithin platform self (Some id) signal
                    v0
                  = (inr document,
                     PrismResolver.console_log platform
                       (PrismResolver.LogResponse
                          (PrismResolver.JObject document)) v1)).
Proof.
  intros W lib input s r w' id L D F.
  unfold createOp, bind, invoke, ret. rewrite L.
  eexists. split; [reflexivity|]. cbn [res_did].
  rewrite replace_prefix by (rewrite D; apply prefix_append).
  rewrite D, drop_append. split; [reflexivity|].
  intros V Signal platform self v. cbv zeta.
  split; [|split].
  - unfold PrismResolver.resolveNoCheck, PrismResolver.accountIdOf.
    change ("did:prism:" ++ id)%string
      with ("did" ++ String ":" ("prism" ++ String ":" id))%string.
    rewrite !split_segment by reflexivity. rewrite (split_free _ _ F).
    reflexivity.
  - intros signal v0 e v1 E. unfold PrismResolver.resolveWithin.
    rewrite E. reflexivity.
  - intros signal v0 res v1 document E S J.
    unfold PrismResolver.resolveWithin. rewrite E, S, J. reflexivity.
Qed.

(** On the test double and the test platform: the did minted for Alice,
    and the request that the resolver sends for it. *)
Lemma minted_did_resolves_by_its_identifier_witness :
  exists r',
    fst (createOp Mock.lib
           (mkCreateOpInput "did:key:zFresh" ["did:key:zOperator"]
              "alice.example" "https://pds.test"
              (plcRotationKey Cases.local))
           (Cases.start (Mock.empty (HttpStatus 200) [])))
    = Ok r'
    /\ res_did r' = ("did:prism:" ++ "alice.example")%string
    /\ PrismResolver.resolveNoCheck
         (Cases.platform (PrismResolver.mkResponse 200 "OK"
                            (inr (PrismResolver.JObject (Some "document")))))
         (PrismResolver.mkResolver "http://prism" 3000%N) (res_did r')
         ([], [])
       = (inr (Some "document"),
          ([PrismResolver.mkRequest "http://prism/get-did-document" "POST"
              [("Content-Type", "application/json");
               ("Accept", "application/json")] (Some "alice.example")],
           [PrismResolver.LogUsingPrismResolver;
            PrismResolver.LogResponse
              (PrismResolver.JObject (Some "document"))])).
Proof.
  destruct (minted_did_resolves_by_its_identifier Mock.World Mock.lib
              (mkCreateOpInput "did:key:zFresh" ["did:key:zOperator"]
                 "alice.example" "https://pds.test"
                 (plcRotationKey Cases.local))
              (Cases.start (Mock.empty (HttpStatus 200) []))
              _ _ "alice.example" eq_refl eq_refl eq_refl)
    as (r' & C & D & R).
  exists r'. split; [rewrite C; reflexivity|]. split; [exact D|].
  destruct (R Cases.ResolverWorld unit
              (Cases.platform
                 (PrismResolver.mkResponse 200 "OK"
                    (inr (PrismResolver.JObject (Some "document")))))
              (PrismResolver.mkResolver "http://prism" 3000%N) ([], []))
    as (R1 & _ & R3).
  rewrite R1. cbn [Cases.platform PrismResolver.timed].
  rewrite (R3 tt _ _ _ (Some "document") eq_refl eq_refl eq_refl).
  reflexivity.
Defined.

(** ** Plans *)

(** X23. Every plan that a validator gives out, on either path, is
    deactivated exactly when it carries no operation. So a request that
    succeeds either posts to the ledger and is sequenced, or does
    neither. *)
Theorem plan_deactivated_iff_no_operation :
  forall (W : Type) (lib : Imports W) (ctx : AppContext W)
         (input : CreateAccountInput) (auth : AuthOutput) (s s' : St W)
         (plan : Plan),
    validateInputs lib ctx input auth s = (Ok plan, s') ->
    plan_deactivated plan
    = match plan_plcOp plan with
      | Some _ => false
      | None => true
      end.
Proof.
  intros W lib ctx input auth s s' plan H.
  unfold validateInputs, validateInputsForEntrywayPds,
    validateInputsForLocalPds, localChecks, localIdentity, formatDidAndPlcOp,
    createOp in H.
  unfold_m. cbn in H.
  remember validateAtprotoData as vad eqn:Evad.
  steps H; inv_pair; reflexivity.
Qed.

(** On the test double: Carol's plan, with her own did. *)
Lemma plan_deactivated_iff_no_operation_witness :
  exists plan s',
    validateInputs Mock.lib Cases.local Mock.carol Mock.asCarol
      (Cases.start (Mock.empty (HttpStatus 200) []))
    = (Ok plan, s')
    /\ plan_plcOp plan = None
    /\ plan_deactivated plan
       = match plan_plcOp plan with
         | Some _ => false
         | None => true
         end.
Proof.
  do 2 eexists. split; [vm_compute; reflexivity|].
  split; [reflexivity|].
  eapply (plan_deactivated_iff_no_operation Mock.World Mock.lib Cases.local
            Mock.carol Mock.asCarol
            (Cases.start (Mock.empty (HttpStatus 200) []))).
  vm_compute. reflexivity.
Defined.

(** X24. The local validator refuses a request on its face before it calls
    anything: a request that carries an operation, or a password of more
    UTF-16 code units than the maximum, or no invite code where one is
    required, or no email, or an email that is malformed or disposable, is
    rejected with the world and the trace as they were; in particular the
    account manager is not asked about the handle and no key pair is
    generated. *)
Theorem local_checks_reject_before_any_call :
  forall (W : Type) (lib : Imports W) (ctx : AppContext W)
         (input : CreateAccountInput) (s : St W),
    raw_truthy (in_plcOp input) = true
    \/ (exists p, in_password input = Some p
                  /\ NEW_PASSWORD_MAX_LENGTH lib < JS.length p)
    \/ (cfg_invites_required (cfg ctx) = true
        /\ JS.truthy (in_inviteCode input) = false)
    \/ JS.truthy (in_email input) = false
    \/ (exists e, in_email input = Some e
                  /\ (isEmailValid lib e = false
                      \/ isDisposableEmail lib e = true)) ->
    exists e, localChecks lib ctx input s = (Err e, s).
Proof.
  intros W lib ctx input s H. unfold localChecks, throw.
  destruct (raw_truthy (in_plcOp input)); [eexists; reflexivity|].
  destruct H as [H|H]; [discriminate|].
  destruct (match in_password input with
            | Some p =>
                negb (p =? "")
                && Nat.ltb (NEW_PASSWORD_MAX_LENGTH lib) (JS.length p)
            | None => false
            end) eqn:P; [eexists; reflexivity|].
  destruct H as [(p & E & L)|H].
  { rewrite E in P. apply Nat.ltb_lt in L. rewrite L in P.
    destruct (String.eqb_spec p "") as [Z|Z]; [|discriminate].
    subst p. apply Nat.ltb_lt in L. cbn in L. lia. }
  destruct (cfg_invites_required (cfg ctx)
            && negb (JS.truthy (in_inviteCode input))) eqn:Q;
    [eexists; reflexivity|].
  destruct H as [(R & I)|H]; [rewrite R, I in Q; discriminate|].
  unfold JS.truthy in H.
  destruct (in_email input) as [em|]; [|eexists; reflexivity].
  destruct (em =? "")%string eqn:Z; [eexists; reflexivity|].
  destruct H as [H|(e & E & H)]; [discriminate|].
  injection E as <-.
  destruct H as [H|H]; rewrite H; cbn; [eexists; reflexivity|].
  rewrite orb_true_r. eexists; reflexivity.
Qed.

(** On the test double: Carol without an email; and Alice with a password
    of 257 Cyrillic letters, where the maximum is 256. *)
Lemma local_checks_reject_before_any_call_witness :
  (exists e,
     localChecks Mock.lib Cases.local Mock.carolWithoutEmail
       (Cases.start (Mock.empty (HttpStatus 200) []))
     = (Err e, Cases.start (Mock.empty (HttpStatus 200) [])))
  /\ (exists e,
        localChecks Mock.lib Cases.local
          (Cases.aliceWithPassword (Cases.letters 257))
          (Cases.start (Mock.empty (HttpStatus 200) []))
        = (Err e, Cases.start (Mock.empty (HttpStatus 200) []))).
Proof.
  split.
  - apply (local_checks_reject_before_any_call Mock.World Mock.lib
             Cases.local Mock.carolWithoutEmail
             (Cases.start (Mock.empty (HttpStatus 200) []))).
    right. right. right. left. reflexivity.
  - apply (local_checks_reject_before_any_call Mock.World Mock.lib
             Cases.local (Cases.aliceWithPassword (Cases.letters 257))
             (Cases.start (Mock.empty (HttpStatus 200) []))).
    right. left. exists (Cases.letters 257). split; [reflexivity|].
    apply Nat.ltb_lt. vm_compute. reflexivity.
Defined.
